(** * Maritime situation-awareness layer: sensor fusion, anomaly and spoofing
      detection, uncertainty modelling and alert aggregation

    A shallow embedding of the Python backend
    ([backend/models/data_models.py], [backend/modules/*.py],
    [backend/situation_awareness_layer.py]) and the properties its
    specification states about it.

    Modelling conventions.
    - Python [float]s are real numbers ([R]); IEEE rounding, NaN and signed
      zeros are outside the model.
    - [datetime] values are seconds on a real time line.  A component call
      receives the reading of the clock as an argument [now]; the few
      microseconds between two [datetime.now()] calls of one component call
      are not modelled.
    - Raw sensor snapshots are dynamically typed ([pyval]).  The functions are
      modelled on snapshots whose sensor values are mappings with numeric
      fields wherever the code does arithmetic on them; on other snapshots
      Python raises [TypeError] and the model reads [0] or an empty mapping.
    - Identifiers carry a random [uuid4] suffix in the code; the model keeps
      the fixed prefix, which names the check that produced the record.
      Presentation text (descriptions, titles, messages) and free-form
      evidence or metadata are left out of the records. *)

From Stdlib Require Import Reals Lra Lia Sorting.Sorted Sorting.Permutation.
From stdpp Require Import base gmap strings list fin_maps pretty.

Set Warnings "-register-all".
Open Scope R_scope.

(** ** Python primitives *)

#[global] Instance Rlt_decision : RelDecision Rlt := Rlt_dec.
#[global] Instance Rle_decision : RelDecision Rle := Rle_dec.
#[global] Instance Rgt_decision : RelDecision Rgt := Rgt_dec.
#[global] Instance Rge_decision : RelDecision Rge := Rge_dec.
#[global] Instance Req_decision : EqDecision R := Req_dec_T.

(** [sum(xs)]: starts from [0] and adds from the left. *)
Definition py_sum (l : list R) : R := fold_left Rplus l 0.

(** [max(xs)] of a non-empty sequence ([ValueError] on an empty one; every
    call in the code is guarded by a test that the sequence is not empty). *)
Definition py_max (l : list R) : R :=
  match l with
  | [] => 0
  | x :: l' => fold_left Rmax l' x
  end.

(** [x % m] on floats: the result has the sign of [m]. *)
Definition py_mod (x m : R) : R := x - m * IZR (Int_part (x / m)).

Definition radians (x : R) : R := x * (PI / 180).
Definition degrees (x : R) : R := x * (180 / PI).

(** [math.atan2(y, x)], the angle of the point [(x, y)] in [(-PI, PI]]. *)
Definition atan2 (y x : R) : R :=
  if decide (0 < x) then atan (y / x)
  else if decide (x < 0) then
    (if decide (0 <= y) then atan (y / x) + PI else atan (y / x) - PI)
  else if decide (0 < y) then PI / 2
  else if decide (y < 0) then - (PI / 2)
  else 0.

(** [_haversine_distance], defined identically in the fusion engine and in
    both detectors: great-circle distance in meters. *)
Definition _haversine_distance (lat1 lon1 lat2 lon2 : R) : R :=
  let R0 := 6371000 in
  let phi1 := radians lat1 in
  let phi2 := radians lat2 in
  let dphi := radians (lat2 - lat1) in
  let dlambda := radians (lon2 - lon1) in
  let a := sin (dphi / 2) ^ 2 + cos phi1 * cos phi2 * sin (dlambda / 2) ^ 2 in
  let c := 2 * atan2 (sqrt a) (sqrt (1 - a)) in
  R0 * c.

(** [lst.append(x)] followed by [if len(lst) > cap: lst.pop(0)]. *)
Definition append_capped {A} (cap : nat) (l : list A) (x : A) : list A :=
  let l' := l ++ [x] in
  if decide (cap < length l')%nat then tail l' else l'.

(** ** Raw sensor snapshots *)

Inductive pyval :=
  | PNone
  | PNum (r : R)
  | PStr (s : string)
  | PList (l : list pyval)
  | PDict (d : gmap string pyval).

(** Python truth value of an object. *)
Definition truthy (v : pyval) : bool :=
  match v with
  | PNone => false
  | PNum r => bool_decide (r <> 0)
  | PStr s => bool_decide (s <> EmptyString)
  | PList l => match l with [] => false | _ => true end
  | PDict d => bool_decide (size d <> 0%nat)
  end.

(** [k in d and d[k]]: the value under [k] when it is there and truthy. *)
Definition present (d : gmap string pyval) (k : string) : option pyval :=
  match d !! k with
  | Some v => if truthy v then Some v else None
  | None => None
  end.

(** The mapping held by a value (the code indexes sensor values as dicts). *)
Definition fields (v : pyval) : gmap string pyval :=
  match v with PDict d => d | _ => ∅ end.

(** The float held by a value (the code does arithmetic on it). *)
Definition float_of (v : pyval) : R :=
  match v with PNum r => r | _ => 0 end.

Definition items_of (v : pyval) : list pyval :=
  match v with PList l => l | _ => [] end.

(** [k in d] *)
Definition has_key (d : gmap string pyval) (k : string) : bool :=
  bool_decide (is_Some (d !! k)).

(** [d[k]] read as a float *)
Definition num (d : gmap string pyval) (k : string) : R :=
  float_of (default PNone (d !! k)).

(** [d.get(k)]: [None] when the key is missing *)
Definition py_get (d : gmap string pyval) (k : string) : pyval :=
  default PNone (d !! k).

(** [d.get(k, dflt)] read as a float *)
Definition num_get (d : gmap string pyval) (k : string) (dflt : R) : R :=
  match d !! k with Some v => float_of v | None => dflt end.

(** ** Data models ([models/data_models.py]) *)

Inductive AlertLevel := INFO | WARNING | CRITICAL | EMERGENCY.

#[global] Instance AlertLevel_eq_dec : EqDecision AlertLevel.
Proof. solve_decision. Defined.

Inductive AnomalyType :=
  | TRAJECTORY_DEVIATION
  | SPEED_ANOMALY
  | SENSOR_MISMATCH
  | COLLISION_RISK
  | SUDDEN_MANEUVER
  | SENSOR_DEGRADATION
  | DATA_QUALITY_ISSUE.

#[global] Instance AnomalyType_eq_dec : EqDecision AnomalyType.
Proof. solve_decision. Defined.

Definition AnomalyType_value (t : AnomalyType) : string :=
  match t with
  | TRAJECTORY_DEVIATION => "trajectory_deviation"
  | SPEED_ANOMALY => "speed_anomaly"
  | SENSOR_MISMATCH => "sensor_mismatch"
  | COLLISION_RISK => "collision_risk"
  | SUDDEN_MANEUVER => "sudden_maneuver"
  | SENSOR_DEGRADATION => "sensor_degradation"
  | DATA_QUALITY_ISSUE => "data_quality_issue"
  end.

Inductive SpoofingType := GPS_SPOOFING | AIS_SPOOFING | MULTI_SENSOR_SPOOFING.

#[global] Instance SpoofingType_eq_dec : EqDecision SpoofingType.
Proof. solve_decision. Defined.

Definition SpoofingType_value (t : SpoofingType) : string :=
  match t with
  | GPS_SPOOFING => "gps_spoofing"
  | AIS_SPOOFING => "ais_spoofing"
  | MULTI_SENSOR_SPOOFING => "multi_sensor_spoofing"
  end.

(** Keys of the target table: an AIS identity ([mmsi], a number or a string,
    or [None]) or a synthesized string. *)
Inductive pykey := KNone | KNum (r : R) | KStr (s : string).

#[global] Instance pykey_eq_dec : EqDecision pykey.
Proof. solve_decision. Defined.

Definition key_of (v : pyval) : pykey :=
  match v with
  | PNum r => KNum r
  | PStr s => KStr s
  | _ => KNone
  end.

Definition key_truthy (k : pykey) : bool :=
  match k with
  | KNone => false
  | KNum r => bool_decide (r <> 0)
  | KStr s => bool_decide (s <> EmptyString)
  end.

Definition is_none (v : pyval) : bool :=
  match v with PNone => true | _ => false end.

Module Position.
Record t := mk { latitude : R; longitude : R; altitude : option R }.
End Position.

Module VesselState.
Record t := mk {
  position : Position.t;
  speed : R;
  course : R;
  heading : R;
  rate_of_turn : R;
  timestamp : R
}.
End VesselState.

Module Target.
Record t := mk {
  target_id : pykey;
  position : Position.t;
  speed : R;
  course : R;
  cpa : R;
  tcpa : R;
  distance : R;
  vessel_type : pyval;
  name : pyval
}.
End Target.

Module Environment.
Record t := mk {
  weather : pyval;
  tide : pyval;
  current : pyval;
  visibility : string
}.
End Environment.

Module FusedData.
Record t := mk {
  vessel_state : VesselState.t;
  targets : list Target.t;
  environment : Environment.t;
  quality_scores : gmap string R;
  fusion_confidence : R;
  timestamp : R
}.
End FusedData.

Module Anomaly.
Record t := mk {
  anomaly_id : string;
  anomaly_type : AnomalyType;
  severity : R;
  affected_sensors : list string;
  detected_at : R;
  location : option Position.t
}.

Definition to_alert_level (self : t) : AlertLevel :=
  if decide (severity self >= 0.8) then CRITICAL
  else if decide (severity self >= 0.5) then WARNING
  else INFO.
End Anomaly.

Module SpoofingAlert.
Record t := mk {
  alert_id : string;
  spoofing_type : SpoofingType;
  confidence : R;
  affected_sensors : list string;
  likely_spoofed : option string;
  detected_at : R
}.

Definition to_alert_level (self : t) : AlertLevel :=
  if decide (confidence self >= 0.7) then EMERGENCY
  else if decide (confidence self >= 0.5) then CRITICAL
  else WARNING.
End SpoofingAlert.

Module Uncertainty.
Record t := mk {
  parameter : string;
  mean_value : R;
  std_deviation : R;
  confidence_interval : R * R;
  reliability : R
}.
End Uncertainty.

Module Alert.
Record t := mk {
  alert_id : string;
  level : AlertLevel;
  timestamp : R;
  source : string;
  acknowledged : bool
}.
End Alert.

Module SituationAwarenessOutput.
Record t := mk {
  timestamp : R;
  fused_data : FusedData.t;
  anomalies : list Anomaly.t;
  uncertainties : gmap string Uncertainty.t;
  spoofing_alerts : list SpoofingAlert.t;
  overall_confidence : R;
  alerts : list Alert.t;
  system_status : gmap string string
}.

Definition has_spoofing (self : t) : bool :=
  bool_decide (0 < length (spoofing_alerts self))%nat.

Definition get_critical_alerts (self : t) : list Alert.t :=
  filter (fun a => Alert.level a = CRITICAL \/ Alert.level a = EMERGENCY)
         (alerts self).
End SituationAwarenessOutput.

(** ** Sensor fusion ([modules/sensor_fusion.py]) *)

Module SensorFusionEngine.

(** The engine's only persistent state: recent fused positions with the
    time they were recorded. *)
Record t := mk { position_history : list (R * R * R) }.

Definition init : t := mk [].

Definition max_history : nat := 50.

(** [self.sensor_weights], as a lookup. *)
Definition sensor_weights (sensor : string) : option R :=
  if decide (sensor = "gps") then Some 0.95
  else if decide (sensor = "ais") then Some 0.85
  else if decide (sensor = "radar") then Some 0.80
  else if decide (sensor = "chart") then Some 0.90
  else if decide (sensor = "weather") then Some 0.75
  else if decide (sensor = "engine") then Some 0.85
  else if decide (sensor = "camera") then Some 0.70
  else if decide (sensor = "tide") then Some 0.80
  else if decide (sensor = "current") then Some 0.75
  else None.

(** [self.sensor_weights[sensor]] for a key of the table. *)
Definition sensor_weight (sensor : string) : R :=
  default 0 (sensor_weights sensor).

Definition _is_position_outlier (self : t) (now lat lon : R) : bool :=
  match last (position_history self) with
  | None => false
  | Some (last_lat, last_lon, last_time) =>
      let distance := _haversine_distance lat lon last_lat last_lon in
      let time_diff := now - last_time in
      if decide (time_diff > 0) then
        let max_distance := 25.7 * time_diff in
        bool_decide (distance > max_distance * 2)
      else false
  end.

Definition _is_speed_outlier (speed : R) : bool :=
  bool_decide (speed < 0) || bool_decide (speed > 50).

Definition _weighted_position_fusion (positions : list (R * R * R)) : R * R :=
  match positions with
  | [] => (0, 0)
  | _ =>
      let total_weight := py_sum (map (fun '(_, _, w) => w) positions) in
      let lat := py_sum (map (fun '(lat, _, w) => lat * w) positions) / total_weight in
      let lon := py_sum (map (fun '(_, lon, w) => lon * w) positions) / total_weight in
      (lat, lon)
  end.

Definition _weighted_value_fusion (values : list (R * R)) (dflt : R) : R :=
  match values with
  | [] => dflt
  | _ =>
      let total_weight := py_sum (map (fun '(_, w) => w) values) in
      py_sum (map (fun '(v, w) => v * w) values) / total_weight
  end.

Definition _weighted_angle_fusion (angles : list (R * R)) (dflt : R) : R :=
  match angles with
  | [] => dflt
  | _ =>
      let sin_sum := py_sum (map (fun '(a, w) => sin (radians a) * w) angles) in
      let cos_sum := py_sum (map (fun '(a, w) => cos (radians a) * w) angles) in
      let angle := degrees (atan2 sin_sum cos_sum) in
      py_mod angle 360
  end.

Definition _update_position_history (self : t) (now lat lon : R) : t :=
  mk (append_capped max_history (position_history self) (lat, lon, now)).

(** The position candidate of one reading: kept when both coordinates are
    there and the point is no outlier. *)
Definition position_candidate (self : t) (now : R)
    (reading : gmap string pyval) (weight : R) : list (R * R * R) :=
  if has_key reading "latitude" && has_key reading "longitude" then
    if negb (_is_position_outlier self now (num reading "latitude")
                                           (num reading "longitude"))
    then [(num reading "latitude", num reading "longitude", weight)]
    else []
  else [].

Definition _fuse_vessel_state (self : t) (sensor_data : gmap string pyval)
    (now : R) : VesselState.t * t :=
  (* GPS data (highest priority) *)
  let '(positions, speeds, courses) :=
    match present sensor_data "gps" with
    | Some v =>
        let gps := fields v in
        let weight := sensor_weight "gps" in
        (position_candidate self now gps weight,
         if has_key gps "speed" && negb (_is_speed_outlier (num gps "speed"))
         then [(num gps "speed", weight)] else [],
         if has_key gps "course" then [(num gps "course", weight)] else [])
    | None => ([], [], [])
    end in
  (* AIS data *)
  let '(positions, speeds, courses, headings, rots) :=
    match present sensor_data "ais" with
    | Some v =>
        let ais := fields v in
        let weight := sensor_weight "ais" in
        (positions ++ position_candidate self now ais weight,
         speeds ++
           (if has_key ais "speed" && negb (_is_speed_outlier (num ais "speed"))
            then [(num ais "speed", weight)] else []),
         courses ++
           (if has_key ais "course" then [(num ais "course", weight)] else []),
         if has_key ais "heading" then [(num ais "heading", weight)] else [],
         if has_key ais "rot" then [(num ais "rot", weight)] else [])
    | None => (positions, speeds, courses, [], [])
    end in
  (* Radar data (backup) *)
  let positions :=
    match present sensor_data "radar" with
    | Some v =>
        let radar := fields v in
        match radar !! "own_ship" with
        | Some own =>
            let weight := sensor_weight "radar" * 0.8 in
            positions ++ position_candidate self now (fields own) weight
        | None => positions
        end
    | None => positions
    end in
  (* Perform weighted fusion *)
  let '(fused_lat, fused_lon) := _weighted_position_fusion positions in
  let fused_speed := _weighted_value_fusion speeds 0 in
  let fused_course := _weighted_angle_fusion courses 0 in
  let fused_heading := _weighted_angle_fusion headings fused_course in
  let fused_rot := _weighted_value_fusion rots 0 in
  (VesselState.mk (Position.mk fused_lat fused_lon None)
                  fused_speed fused_course fused_heading fused_rot now,
   _update_position_history self now fused_lat fused_lon).

(** One entry of the working table of [_fuse_targets]. *)
Record target_info := mk_info {
  source : string;
  data : gmap string pyval;
  weight : R;
  radar_data : option (gmap string pyval)
}.

(** [d[k] = v] on a dict kept in insertion order. *)
Fixpoint dict_set {V} (k : pykey) (v : V) (d : list (pykey * V))
    : list (pykey * V) :=
  match d with
  | [] => [(k, v)]
  | (k', v') :: d' =>
      if decide (k' = k) then (k', v) :: d' else (k', v') :: dict_set k v d'
  end.

(** [d[k]['radar_data'] = r] *)
Fixpoint set_radar_data (k : pykey) (r : gmap string pyval)
    (d : list (pykey * target_info)) : list (pykey * target_info) :=
  match d with
  | [] => []
  | (k', i) :: d' =>
      if decide (k' = k)
      then (k', mk_info (source i) (data i) (weight i) (Some r)) :: d'
      else (k', i) :: set_radar_data k r d'
  end.

Definition _correlate_target (radar_target : gmap string pyval)
    (existing_targets : list (pykey * target_info)) : option pykey :=
  let radar_lat := py_get radar_target "latitude" in
  let radar_lon := py_get radar_target "longitude" in
  if is_none radar_lat || is_none radar_lon then None
  else
    let correlation_threshold := 500 in
    fst <$> List.find
      (fun '(_, target_info) =>
         bool_decide (source target_info = "ais") &&
         (let ais_data := data target_info in
          let ais_lat := py_get ais_data "latitude" in
          let ais_lon := py_get ais_data "longitude" in
          negb (is_none ais_lat) && negb (is_none ais_lon) &&
          bool_decide (_haversine_distance (float_of radar_lat) (float_of radar_lon)
                         (float_of ais_lat) (float_of ais_lon)
                       < correlation_threshold)))
      existing_targets.

(** [sensor_data[sensor]['targets']] when both keys are there. *)
Definition reported_targets (sensor_data : gmap string pyval)
    (sensor : string) : list pyval :=
  match sensor_data !! sensor with
  | Some v =>
      match fields v !! "targets" with
      | Some ts => items_of ts
      | None => []
      end
  | None => []
  end.

Definition _fuse_targets (sensor_data : gmap string pyval) : list Target.t :=
  (* Get AIS targets; [targets] is still empty, so the default key is "ais_0" *)
  let target_dict :=
    fold_left
      (fun target_dict ais_target =>
         let target_id :=
           match fields ais_target !! "mmsi" with
           | Some v => key_of v
           | None => KStr ("ais_" +:+ pretty 0%nat)
           end in
         dict_set target_id
           (mk_info "ais" (fields ais_target) (sensor_weight "ais") None)
           target_dict)
      (reported_targets sensor_data "ais") [] in
  (* Get radar targets *)
  let target_dict :=
    fold_left
      (fun target_dict radar_target =>
         match _correlate_target (fields radar_target) target_dict with
         | Some target_id =>
             if key_truthy target_id
             then set_radar_data target_id (fields radar_target) target_dict
             else
               dict_set (KStr ("radar_" +:+ pretty (length target_dict)))
                 (mk_info "radar" (fields radar_target) (sensor_weight "radar") None)
                 target_dict
         | None =>
             dict_set (KStr ("radar_" +:+ pretty (length target_dict)))
               (mk_info "radar" (fields radar_target) (sensor_weight "radar") None)
               target_dict
         end)
      (reported_targets sensor_data "radar") target_dict in
  (* Create Target objects *)
  map (fun '(target_id, target_info) =>
         let data := data target_info in
         Target.mk target_id
           (Position.mk (num_get data "latitude" 0) (num_get data "longitude" 0) None)
           (num_get data "speed" 0)
           (num_get data "course" 0)
           (num_get data "cpa" 999.9)
           (num_get data "tcpa" 999.9)
           (num_get data "distance" 999.9)
           (py_get data "vessel_type")
           (py_get data "name"))
      target_dict.

Definition _fuse_environment (sensor_data : gmap string pyval) : Environment.t :=
  Environment.mk
    (default (PDict ∅) (present sensor_data "weather"))
    (default (PDict ∅) (present sensor_data "tide"))
    (default (PDict ∅) (present sensor_data "current"))
    "good".

(** A sensor's score: completeness of its reading. *)
Definition quality_of (data : pyval) : option R :=
  match data with
  | PNone => None
  | PDict d => Some (Rmin 1 (INR (size d) / 10))
  | _ => Some 0.5
  end.

Definition _calculate_quality_scores (sensor_data : gmap string pyval)
    : gmap string R :=
  omap quality_of sensor_data.

Definition _calculate_fusion_confidence (quality_scores : gmap string R) : R :=
  if decide (size quality_scores = 0%nat) then 0
  else
    let '(weighted_sum, total_weight) :=
      fold_left
        (fun '(weighted_sum, total_weight) '(sensor, quality) =>
           let weight := default 0.5 (sensor_weights sensor) in
           (weighted_sum + quality * weight, total_weight + weight))
        (map_to_list quality_scores) (0, 0) in
    if decide (total_weight = 0) then 0
    else weighted_sum / total_weight.

Definition fuse (self : t) (sensor_data : gmap string pyval) (now : R)
    : FusedData.t * t :=
  let '(vessel_state, self') := _fuse_vessel_state self sensor_data now in
  let targets := _fuse_targets sensor_data in
  let environment := _fuse_environment sensor_data in
  let quality_scores := _calculate_quality_scores sensor_data in
  let fusion_confidence := _calculate_fusion_confidence quality_scores in
  (FusedData.mk vessel_state targets environment quality_scores
                fusion_confidence now,
   self').

End SensorFusionEngine.


(** ** Anomaly detection ([modules/anomaly_detector.py]) *)

Module AnomalyDetector.

(** Rolling histories kept across calls. *)
Record t := mk {
  speed_history : list R;
  course_history : list R;
  position_history : list (R * R * R)
}.

Definition init : t := mk [] [] [].

Definition max_history : nat := 30.

Definition _update_history (self : t) (vessel_state : VesselState.t) (now : R) : t :=
  mk (append_capped max_history (speed_history self)
        (VesselState.speed vessel_state))
     (append_capped max_history (course_history self)
        (VesselState.course vessel_state))
     (append_capped max_history (position_history self)
        (Position.latitude (VesselState.position vessel_state),
         Position.longitude (VesselState.position vessel_state),
         now)).

(** Linear extrapolation, 30 seconds ahead, from the last two samples.  On an
    empty history Python raises [IndexError]; the only caller has checked that
    there are three samples. *)
Definition _predict_position (self : t) : R * R :=
  match rev (position_history self) with
  | [] => (0, 0)
  | [(lat, lon, _)] => (lat, lon)
  | (lat2, lon2, t2) :: (lat1, lon1, t1) :: _ =>
      let time_diff := t2 - t1 in
      if decide (time_diff = 0) then (lat2, lon2)
      else
        let dlat := lat2 - lat1 in
        let dlon := lon2 - lon1 in
        let predicted_lat := lat2 + (dlat / time_diff) * 30 in
        let predicted_lon := lon2 + (dlon / time_diff) * 30 in
        (predicted_lat, predicted_lon)
  end.

Definition _detect_trajectory_deviation (self : t)
    (vessel_state : VesselState.t) (now : R) : list Anomaly.t :=
  if decide (length (position_history self) < 3)%nat then []
  else
    let '(expected_lat, expected_lon) := _predict_position self in
    let actual_lat := Position.latitude (VesselState.position vessel_state) in
    let actual_lon := Position.longitude (VesselState.position vessel_state) in
    let deviation :=
      _haversine_distance expected_lat expected_lon actual_lat actual_lon in
    if decide (deviation > 500) then
      let severity := Rmin 1 (deviation / 2000) in
      [Anomaly.mk "traj_dev_" TRAJECTORY_DEVIATION severity ["gps"; "ais"] now
                  (Some (VesselState.position vessel_state))]
    else [].

Definition _detect_speed_anomaly (self : t) (vessel_state : VesselState.t)
    (now : R) : list Anomaly.t :=
  if decide (length (speed_history self) < 2)%nat then []
  else
    let current_speed := VesselState.speed vessel_state in
    let avg_speed :=
      py_sum (speed_history self) / INR (length (speed_history self)) in
    let speed_deviation := Rabs (current_speed - avg_speed) in
    if decide (speed_deviation > 5) then
      let severity := Rmin 1 (speed_deviation / 20) in
      [Anomaly.mk "speed_anom_" SPEED_ANOMALY severity ["gps"; "engine"] now
                  (Some (VesselState.position vessel_state))]
    else [].

Definition _detect_sensor_mismatch (raw_sensor_data : gmap string pyval)
    (now : R) : list Anomaly.t :=
  match raw_sensor_data !! "gps", raw_sensor_data !! "ais" with
  | Some g, Some a =>
      let gps := fields g in
      let ais := fields a in
      if forallb (has_key gps) ["latitude"; "longitude"] &&
         forallb (has_key ais) ["latitude"; "longitude"]
      then
        let distance :=
          _haversine_distance (num gps "latitude") (num gps "longitude")
                              (num ais "latitude") (num ais "longitude") in
        if decide (distance > 200) then
          let severity := Rmin 1 (distance / 1000) in
          [Anomaly.mk "sensor_mismatch_" SENSOR_MISMATCH severity ["gps"; "ais"] now
             (Some (Position.mk (num gps "latitude") (num gps "longitude") None))]
        else []
      else []
  | _, _ => []
  end.

Definition collision_risk_distance : R := 2.
Definition collision_risk_tcpa : R := 10.

Definition _detect_collision_risk (vessel_state : VesselState.t)
    (targets : list Target.t) (now : R) : list Anomaly.t :=
  flat_map
    (fun target =>
       if decide (Target.cpa target < collision_risk_distance /\
                  Target.tcpa target < collision_risk_tcpa /\
                  Target.tcpa target > 0)
       then
         let cpa_factor := 1 - Target.cpa target / collision_risk_distance in
         let tcpa_factor := 1 - Target.tcpa target / collision_risk_tcpa in
         let severity := (cpa_factor + tcpa_factor) / 2 in
         [Anomaly.mk "collision_" COLLISION_RISK severity ["ais"; "radar"] now
                     (Some (Target.position target))]
       else [])
    targets.

Definition _detect_sudden_maneuver (vessel_state : VesselState.t) (now : R)
    : list Anomaly.t :=
  if decide (Rabs (VesselState.rate_of_turn vessel_state) > 15) then
    let severity := Rmin 1 (Rabs (VesselState.rate_of_turn vessel_state) / 30) in
    [Anomaly.mk "maneuver_" SUDDEN_MANEUVER severity ["ais"; "gps"] now
                (Some (VesselState.position vessel_state))]
  else [].

Definition critical_sensors : list string := ["gps"; "ais"; "radar"].

Definition _detect_sensor_degradation (raw_sensor_data : gmap string pyval)
    (now : R) : list Anomaly.t :=
  flat_map
    (fun sensor =>
       match present raw_sensor_data sensor with
       | None =>
           [Anomaly.mk "sensor_deg_" SENSOR_DEGRADATION 0.8 [sensor] now None]
       | Some _ => []
       end)
    critical_sensors.

Definition detect (self : t) (fused_data : FusedData.t)
    (raw_sensor_data : gmap string pyval) (now : R) : list Anomaly.t * t :=
  let vessel_state := FusedData.vessel_state fused_data in
  (* Update history *)
  let self := _update_history self vessel_state now in
  let anomalies :=
    _detect_trajectory_deviation self vessel_state now
    ++ _detect_speed_anomaly self vessel_state now
    ++ _detect_sensor_mismatch raw_sensor_data now
    ++ _detect_collision_risk vessel_state (FusedData.targets fused_data) now
    ++ _detect_sudden_maneuver vessel_state now
    ++ _detect_sensor_degradation raw_sensor_data now in
  (anomalies, self).

End AnomalyDetector.

(** ** Spoofing detection ([modules/spoofing_detector.py]) *)

Module SpoofingDetector.

(** One entry of the incident log. *)
Record incident := mk_incident {
  timestamp : R;
  alert_count : nat;
  alert_types : list string;
  max_confidence : R
}.

Record t := mk {
  previous_gps_position : option (R * R);
  previous_ais_position : option (R * R);
  last_update_time : option R;
  spoofing_incidents : list incident
}.

Definition init : t := mk None None None [].

(** [self.thresholds] *)
Definition position_jump : R := 1000.
Definition speed_impossibility : R := 60.
Definition multi_sensor_mismatch : R := 500.
Definition time_inconsistency : R := 60.

(** Cap of the incident log. *)
Definition max_incidents : nat := 100.

Definition _detect_gps_spoofing (self : t) (raw_sensor_data : gmap string pyval)
    (now : R) : list SpoofingAlert.t * t :=
  match present raw_sensor_data "gps" with
  | None => ([], self)
  | Some v =>
      let gps := fields v in
      if negb (has_key gps "latitude") || negb (has_key gps "longitude")
      then ([], self)
      else
        let current_lat := num gps "latitude" in
        let current_lon := num gps "longitude" in
        let current_time := now in
        let alerts :=
          (* Check for position jump (teleportation) *)
          match previous_gps_position self, last_update_time self with
          | Some (prev_lat, prev_lon), Some last_update =>
              let distance :=
                _haversine_distance prev_lat prev_lon current_lat current_lon in
              let time_diff := current_time - last_update in
              if decide (time_diff > 0) then
                let implied_speed := (distance / time_diff) * 1.94384 in
                (* Check for impossible jump *)
                if decide (distance > position_jump /\ time_diff < 10) then
                  let confidence := Rmin 1 (distance / 5000) in
                  [SpoofingAlert.mk "gps_spoof_" GPS_SPOOFING confidence
                                    ["gps"] None now]
                (* Check for impossible speed *)
                else if decide (implied_speed > speed_impossibility) then
                  let confidence := Rmin 1 (implied_speed / 100) in
                  [SpoofingAlert.mk "gps_speed_" GPS_SPOOFING confidence
                                    ["gps"] None now]
                else []
              else []
          | _, _ => []
          end in
        (* Update tracking *)
        (alerts,
         mk (Some (current_lat, current_lon))
            (previous_ais_position self)
            (Some current_time)
            (spoofing_incidents self))
  end.

Definition _detect_ais_spoofing (self : t) (raw_sensor_data : gmap string pyval)
    (now : R) : list SpoofingAlert.t * t :=
  match present raw_sensor_data "ais" with
  | None => ([], self)
  | Some v =>
      let ais := fields v in
      (* Check for impossible AIS data *)
      let speed_alerts :=
        if has_key ais "speed" &&
           bool_decide (num ais "speed" > speed_impossibility)
        then
          let confidence := Rmin 1 (num ais "speed" / 100) in
          [SpoofingAlert.mk "ais_spoof_" AIS_SPOOFING confidence ["ais"] None now]
        else [] in
      (* Check for position jump in AIS *)
      if has_key ais "latitude" && has_key ais "longitude" then
        let current_lat := num ais "latitude" in
        let current_lon := num ais "longitude" in
        let jump_alerts :=
          match previous_ais_position self with
          | Some (prev_lat, prev_lon) =>
              let distance :=
                _haversine_distance prev_lat prev_lon current_lat current_lon in
              if decide (distance > position_jump) then
                let confidence := Rmin 1 (distance / 5000) in
                [SpoofingAlert.mk "ais_jump_" AIS_SPOOFING confidence
                                  ["ais"] None now]
              else []
          | None => []
          end in
        (speed_alerts ++ jump_alerts,
         mk (previous_gps_position self)
            (Some (current_lat, current_lon))
            (last_update_time self)
            (spoofing_incidents self))
      else (speed_alerts, self)
  end.

(** The pairs [(l[i], l[j])] with [i < j], in the order of the two nested
    loops. *)
Fixpoint pairs {A} (l : list A) : list (A * A) :=
  match l with
  | [] => []
  | x :: r => map (pair x) r ++ pairs r
  end.

(** The position of one sensor, when its reading has both coordinates. *)
Definition position_of (reading : gmap string pyval) : option (R * R) :=
  if has_key reading "latitude" && has_key reading "longitude"
  then Some (num reading "latitude", num reading "longitude")
  else None.

(** The [positions] dict of the cross-validation, in insertion order. *)
Definition sensor_positions (raw_sensor_data : gmap string pyval)
    : list (string * (R * R)) :=
  (match present raw_sensor_data "gps" with
   | Some v => match position_of (fields v) with
               | Some p => [("gps", p)]
               | None => []
               end
   | None => []
   end) ++
  (match present raw_sensor_data "ais" with
   | Some v => match position_of (fields v) with
               | Some p => [("ais", p)]
               | None => []
               end
   | None => []
   end) ++
  (match present raw_sensor_data "radar" with
   | Some v =>
       match fields v !! "own_ship" with
       | Some own => match position_of (fields own) with
                     | Some p => [("radar", p)]
                     | None => []
                     end
       | None => []
       end
   | None => []
   end).

Definition pair_distance (p : (string * (R * R)) * (string * (R * R))) : R :=
  let '((_, pos1), (_, pos2)) := p in
  _haversine_distance pos1.1 pos1.2 pos2.1 pos2.2.

(** [outlier_scores[sensor] += distance] *)
Definition add_score (sensor : string) (distance : R)
    (scores : list (string * R)) : list (string * R) :=
  map (fun '(s, v) => if decide (s = sensor) then (s, v + distance) else (s, v))
      scores.

(** [max(outlier_scores, key=outlier_scores.get)]: the first key with the
    highest score. *)
Definition first_max_key (scores : list (string * R)) : option string :=
  match scores with
  | [] => None
  | kv :: rest =>
      Some (fst (fold_left
                   (fun best kv => if decide (snd kv > snd best) then kv else best)
                   rest kv))
  end.

Definition _identify_spoofed_sensor (positions : list (string * (R * R)))
    : string :=
  if decide (length positions < 3)%nat then "GPS"
  else
    let outlier_scores :=
      fold_left
        (fun scores p =>
           let distance := pair_distance p in
           if decide (distance > 500)
           then add_score (fst (snd p)) distance
                  (add_score (fst (fst p)) distance scores)
           else scores)
        (pairs positions)
        (map (fun '(sensor, _) => (sensor, 0)) positions) in
    default "unknown" (first_max_key outlier_scores).

Definition _detect_multi_sensor_spoofing (raw_sensor_data : gmap string pyval)
    (fused_data : FusedData.t) (now : R) : list SpoofingAlert.t :=
  let positions := sensor_positions raw_sensor_data in
  (* Cross-validate all sensors *)
  if decide (2 <= length positions)%nat then
    let distances := map pair_distance (pairs positions) in
    let max_mismatch :=
      fold_left (fun max_mismatch distance =>
                   if decide (distance > max_mismatch) then distance
                   else max_mismatch)
                distances 0 in
    let mismatch_pairs :=
      filter (fun distance => distance > multi_sensor_mismatch) distances in
    match mismatch_pairs with
    | [] => []
    | _ =>
        let confidence := Rmin 1 (max_mismatch / 2000) in
        let affected := _identify_spoofed_sensor positions in
        [SpoofingAlert.mk "multi_spoof_" MULTI_SENSOR_SPOOFING confidence
                          (map fst positions) (Some affected) now]
    end
  else [].

Definition _log_spoofing_incident (self : t) (alerts : list SpoofingAlert.t)
    (now : R) : t :=
  let incident :=
    mk_incident now (length alerts)
      (map (fun a => SpoofingType_value (SpoofingAlert.spoofing_type a)) alerts)
      (py_max (map SpoofingAlert.confidence alerts)) in
  mk (previous_gps_position self)
     (previous_ais_position self)
     (last_update_time self)
     (append_capped max_incidents (spoofing_incidents self) incident).

Section WithClock.

(** [datetime.fromisoformat], read as seconds on the time line of [now];
    [None] when the text does not parse ([ValueError]). *)
Variable fromisoformat : string -> option R.

Definition _detect_time_manipulation (raw_sensor_data : gmap string pyval)
    (now : R) : list SpoofingAlert.t :=
  let current_time := now in
  match present raw_sensor_data "gps" with
  | Some v =>
      let gps := fields v in
      match gps !! "timestamp" with
      | Some (PStr s) =>
          match fromisoformat s with
          | Some gps_time =>
              let time_diff := Rabs (current_time - gps_time) in
              if decide (time_diff > time_inconsistency) then
                let confidence := Rmin 1 (time_diff / 300) in
                [SpoofingAlert.mk "time_spoof_" GPS_SPOOFING confidence
                                  ["gps"] None now]
              else []
          | None => []  (* except Exception: logged *)
          end
      | Some _ => []    (* TypeError, caught by the same handler *)
      | None => []
      end
  | None => []
  end.

Definition detect (self : t) (raw_sensor_data : gmap string pyval)
    (fused_data : FusedData.t) (now : R) : list SpoofingAlert.t * t :=
  (* 1. Check for GPS spoofing *)
  let '(gps_alerts, self) := _detect_gps_spoofing self raw_sensor_data now in
  (* 2. Check for AIS spoofing *)
  let '(ais_alerts, self) := _detect_ais_spoofing self raw_sensor_data now in
  (* 3. Check for multi-sensor inconsistencies *)
  let multi_alerts := _detect_multi_sensor_spoofing raw_sensor_data fused_data now in
  (* 4. Check for time manipulation *)
  let time_alerts := _detect_time_manipulation raw_sensor_data now in
  let alerts := gps_alerts ++ ais_alerts ++ multi_alerts ++ time_alerts in
  match alerts with
  | [] => (alerts, self)
  | _ => (alerts, _log_spoofing_incident self alerts now)
  end.

End WithClock.

Definition get_spoofing_history (self : t) : list incident :=
  spoofing_incidents self.

End SpoofingDetector.


(** ** Strings and sorting *)

(** [needle in hay] on strings. *)
Fixpoint py_contains (needle hay : string) : bool :=
  String.prefix needle hay ||
  match hay with
  | EmptyString => false
  | String _ hay' => py_contains needle hay'
  end.

(** [lst.sort(key=key, reverse=True)].  Python's sort is stable, also with
    [reverse=True]: elements with equal keys keep their order.  This is the
    stable insertion sort into descending key order. *)
Fixpoint insert_desc {A} (key : A -> nat) (x : A) (l : list A) : list A :=
  match l with
  | [] => [x]
  | y :: l' =>
      if decide (key y <= key x)%nat then x :: y :: l'
      else y :: insert_desc key x l'
  end.

Definition py_sort_reverse {A} (key : A -> nat) (l : list A) : list A :=
  foldr (insert_desc key) [] l.

(** ** Uncertainty modelling ([modules/uncertainty_modeler.py]) *)

Module UncertaintyModeler.

(** [self.sensor_uncertainties[sensor][parameter]]: known standard
    deviations. *)
Definition sensor_uncertainties (sensor parameter : string) : R :=
  if decide (sensor = "gps") then
    (if decide (parameter = "position") then 5
     else if decide (parameter = "speed") then 0.1
     else if decide (parameter = "course") then 2
     else 0)
  else if decide (sensor = "ais") then
    (if decide (parameter = "position") then 10
     else if decide (parameter = "speed") then 0.5
     else if decide (parameter = "course") then 5
     else 0)
  else if decide (sensor = "radar") then
    (if decide (parameter = "position") then 50
     else if decide (parameter = "bearing") then 1
     else if decide (parameter = "range") then 20
     else 0)
  else if decide (sensor = "weather") then
    (if decide (parameter = "wind_speed") then 2
     else if decide (parameter = "wind_direction") then 10
     else 0)
  else if decide (sensor = "tide") then
    (if decide (parameter = "height") then 0.1 else 0)
  else if decide (sensor = "current") then
    (if decide (parameter = "speed") then 0.5
     else if decide (parameter = "direction") then 15
     else 0)
  else 0.

Definition z_score : R := 1.96.

(** The branch on the number of measurements that the position, speed and
    course functions each write out: a default with no sensor, the sensor's own
    deviation with one, and [1/sigma^2 = sum (1/sigma_i^2)] with more. *)
Definition combined_std_dev (dflt : R) (sigmas : list R) : R :=
  match sigmas with
  | [] => dflt
  | [sigma] => sigma
  | _ =>
      let inv_var_sum := py_sum (map (fun sigma => 1 / sigma ^ 2) sigmas) in
      sqrt (1 / inv_var_sum)
  end.

(** The [measurements] list of [_calculate_position_uncertainty]. *)
Definition position_measurements (raw_sensor_data : gmap string pyval)
    : list (string * R) :=
  flat_map
    (fun sensor =>
       match present raw_sensor_data sensor with
       | Some _ => [(sensor, sensor_uncertainties sensor "position")]
       | None => []
       end)
    ["gps"; "ais"; "radar"].

Definition _calculate_position_uncertainty (fused_data : FusedData.t)
    (raw_sensor_data : gmap string pyval) : Uncertainty.t :=
  let measurements := position_measurements raw_sensor_data in
  let std_dev := combined_std_dev 100 (map snd measurements) in
  let ci_range := z_score * std_dev in
  let mean_value := 0 in
  let reliability := Rmin 1 (INR (length measurements) / 3) * 0.9 in
  Uncertainty.mk "position" mean_value std_dev (- ci_range, ci_range) reliability.

(** The [measurements] list of the speed and course functions: GPS and AIS
    readings that carry the parameter. *)
Definition parameter_measurements (raw_sensor_data : gmap string pyval)
    (parameter : string) : list R :=
  flat_map
    (fun sensor =>
       match present raw_sensor_data sensor with
       | Some v =>
           if has_key (fields v) parameter
           then [sensor_uncertainties sensor parameter]
           else []
       | None => []
       end)
    ["gps"; "ais"].

(** [reliability] by number of measurements: none, one, more. *)
Definition count_reliability (measurements : list R) : R :=
  match measurements with
  | [] => 0.3
  | [_] => 0.7
  | _ => 0.9
  end.

Definition _calculate_speed_uncertainty (fused_data : FusedData.t)
    (raw_sensor_data : gmap string pyval) : Uncertainty.t :=
  let measurements := parameter_measurements raw_sensor_data "speed" in
  let std_dev := combined_std_dev 2 measurements in
  let reliability := count_reliability measurements in
  let ci_range := z_score * std_dev in
  let speed := VesselState.speed (FusedData.vessel_state fused_data) in
  Uncertainty.mk "speed" speed std_dev (speed - ci_range, speed + ci_range)
                 reliability.

Definition _calculate_course_uncertainty (fused_data : FusedData.t)
    (raw_sensor_data : gmap string pyval) : Uncertainty.t :=
  let measurements := parameter_measurements raw_sensor_data "course" in
  let std_dev := combined_std_dev 10 measurements in
  let reliability := count_reliability measurements in
  let ci_range := z_score * std_dev in
  let course := VesselState.course (FusedData.vessel_state fused_data) in
  Uncertainty.mk "course" course std_dev
                 (py_mod (course - ci_range) 360, py_mod (course + ci_range) 360)
                 reliability.

Definition _calculate_heading_uncertainty (fused_data : FusedData.t)
    (raw_sensor_data : gmap string pyval) : Uncertainty.t :=
  let '(std_dev, reliability) :=
    match present raw_sensor_data "ais" with
    | Some v => if has_key (fields v) "heading" then (5, 0.8) else (10, 0.5)
    | None => (15, 0.3)
    end in
  let ci_range := z_score * std_dev in
  let heading := VesselState.heading (FusedData.vessel_state fused_data) in
  Uncertainty.mk "heading" heading std_dev
                 (py_mod (heading - ci_range) 360, py_mod (heading + ci_range) 360)
                 reliability.

Definition _calculate_target_uncertainty (fused_data : FusedData.t)
    : Uncertainty.t :=
  match FusedData.targets fused_data with
  | [] => Uncertainty.mk "targets" 0 0 (0, 0) 1
  | targets =>
      let n := INR (length targets) in
      let reliability := if decide (0 < length targets)%nat then 0.7 else 0 in
      Uncertainty.mk "targets" n (sqrt n) (Rmax 0 (n - 2), n + 2) reliability
  end.

Definition _calculate_environmental_uncertainty (fused_data : FusedData.t)
    : gmap string Uncertainty.t :=
  <["tide" := Uncertainty.mk "tide" 0 (sensor_uncertainties "tide" "height")
                             (-0.2, 0.2) 0.8]>
  (<["current" := Uncertainty.mk "current" 0
                    (sensor_uncertainties "current" "speed") (-1, 1) 0.6]>
  (<["wind" := Uncertainty.mk "wind" 0
                 (sensor_uncertainties "weather" "wind_speed") (-4, 4) 0.7]> ∅)).

(** [unc.std_deviation *= impact_factor; unc.reliability *= 1 - severity*0.3] *)
Definition inflate (impact_factor severity : R) (unc : Uncertainty.t)
    : Uncertainty.t :=
  Uncertainty.mk (Uncertainty.parameter unc) (Uncertainty.mean_value unc)
    (Uncertainty.std_deviation unc * impact_factor)
    (Uncertainty.confidence_interval unc)
    (Uncertainty.reliability unc * (1 - severity * 0.3)).

(** [unc.reliability *= 1 - severity*0.2] *)
Definition degrade (severity : R) (unc : Uncertainty.t) : Uncertainty.t :=
  Uncertainty.mk (Uncertainty.parameter unc) (Uncertainty.mean_value unc)
    (Uncertainty.std_deviation unc)
    (Uncertainty.confidence_interval unc)
    (Uncertainty.reliability unc * (1 - severity * 0.2)).

(** The body of the loop over the anomalies. *)
Definition adjust_one (impact_factor : R)
    (uncertainties : gmap string Uncertainty.t) (anomaly : Anomaly.t)
    : gmap string Uncertainty.t :=
  let value := AnomalyType_value (Anomaly.anomaly_type anomaly) in
  let severity := Anomaly.severity anomaly in
  let uncertainties :=
    if py_contains "position" value
    then alter (inflate impact_factor severity) "position" uncertainties
    else uncertainties in
  let uncertainties :=
    if py_contains "speed" value
    then alter (inflate impact_factor severity) "speed" uncertainties
    else uncertainties in
  if py_contains "sensor" value
  then degrade severity <$> uncertainties
  else uncertainties.

Definition _adjust_for_anomalies (uncertainties : gmap string Uncertainty.t)
    (anomalies : list Anomaly.t) : gmap string Uncertainty.t :=
  match anomalies with
  | [] => uncertainties
  | _ =>
      let max_severity := py_max (map Anomaly.severity anomalies) in
      let impact_factor := 1 + max_severity in
      fold_left (adjust_one impact_factor) anomalies uncertainties
  end.

(** The uncertainties before the anomaly adjustment. *)
Definition base_uncertainties (fused_data : FusedData.t)
    (raw_sensor_data : gmap string pyval) : gmap string Uncertainty.t :=
  _calculate_environmental_uncertainty fused_data ∪
  (<["targets" := _calculate_target_uncertainty fused_data]>
  (<["heading" := _calculate_heading_uncertainty fused_data raw_sensor_data]>
  (<["course" := _calculate_course_uncertainty fused_data raw_sensor_data]>
  (<["speed" := _calculate_speed_uncertainty fused_data raw_sensor_data]>
  (<["position" := _calculate_position_uncertainty fused_data raw_sensor_data]>
   ∅))))).

Definition calculate (fused_data : FusedData.t)
    (raw_sensor_data : gmap string pyval) (anomalies : list Anomaly.t)
    : gmap string Uncertainty.t :=
  let uncertainties := base_uncertainties fused_data raw_sensor_data in
  match anomalies with
  | [] => uncertainties
  | _ => _adjust_for_anomalies uncertainties anomalies
  end.

End UncertaintyModeler.

(** ** Orchestrator ([situation_awareness_layer.py]) *)

Module SituationAwarenessLayer.

Record t := mk {
  sensor_fusion : SensorFusionEngine.t;
  anomaly_detector : AnomalyDetector.t;
  spoofing_detector : SpoofingDetector.t;
  system_status : gmap string string;
  processing_times : list R
}.

Definition max_processing_time_history : nat := 100.

Definition all_status (status : string) : gmap string string :=
  <["uncertainty_modeling" := status]>
  (<["spoofing_detection" := status]>
  (<["anomaly_detection" := status]>
  (<["sensor_fusion" := status]> ∅))).

Definition init : t :=
  mk SensorFusionEngine.init AnomalyDetector.init SpoofingDetector.init
     (all_status "operational") [].

Definition _calculate_overall_confidence (fused_data : FusedData.t)
    (uncertainties : gmap string Uncertainty.t)
    (anomalies : list Anomaly.t) (spoofing_alerts : list SpoofingAlert.t) : R :=
  (* Start with fusion confidence *)
  let confidence := FusedData.fusion_confidence fused_data in
  (* Reduce confidence for anomalies *)
  let confidence :=
    match anomalies with
    | [] => confidence
    | _ =>
        let max_severity := py_max (map Anomaly.severity anomalies) in
        let avg_severity :=
          py_sum (map Anomaly.severity anomalies) / INR (length anomalies) in
        let anomaly_penalty := (max_severity * 0.3 + avg_severity * 0.2) * 0.5 in
        confidence * (1 - anomaly_penalty)
    end in
  (* Significant penalty for spoofing *)
  let confidence :=
    match spoofing_alerts with
    | [] => confidence
    | _ =>
        let max_spoof_confidence :=
          py_max (map SpoofingAlert.confidence spoofing_alerts) in
        let spoofing_penalty := max_spoof_confidence * 0.5 in
        confidence * (1 - spoofing_penalty)
    end in
  (* Factor in uncertainty reliability *)
  let confidence :=
    if decide (size uncertainties = 0%nat) then confidence
    else
      let avg_reliability :=
        py_sum (map (fun kv => Uncertainty.reliability (snd kv))
                    (map_to_list uncertainties))
        / INR (size uncertainties) in
      (confidence + avg_reliability) / 2 in
  (* Ensure confidence stays in [0, 1] *)
  Rmax 0 (Rmin 1 confidence).

Definition level_priority (level : AlertLevel) : nat :=
  match level with
  | EMERGENCY => 4
  | CRITICAL => 3
  | WARNING => 2
  | INFO => 1
  end.

Definition spoofing_to_alert (spoof_alert : SpoofingAlert.t) : Alert.t :=
  Alert.mk (SpoofingAlert.alert_id spoof_alert)
           (SpoofingAlert.to_alert_level spoof_alert)
           (SpoofingAlert.detected_at spoof_alert)
           "spoofing_detector" false.

Definition anomaly_to_alert (anomaly : Anomaly.t) : Alert.t :=
  Alert.mk (Anomaly.anomaly_id anomaly)
           (Anomaly.to_alert_level anomaly)
           (Anomaly.detected_at anomaly)
           "anomaly_detector" false.

Definition low_confidence_alert (now : R) : Alert.t :=
  Alert.mk "low_conf_" WARNING now "situation_awareness" false.

(** The alerts in the order the code appends them, before the sort. *)
Definition collected_alerts (spoofing_alerts : list SpoofingAlert.t)
    (anomalies : list Anomaly.t) (overall_confidence now : R) : list Alert.t :=
  map spoofing_to_alert spoofing_alerts
  ++ map anomaly_to_alert anomalies
  ++ (if decide (overall_confidence < 0.5) then [low_confidence_alert now]
      else []).

Definition _generate_alerts (spoofing_alerts : list SpoofingAlert.t)
    (anomalies : list Anomaly.t) (uncertainties : gmap string Uncertainty.t)
    (overall_confidence now : R) : list Alert.t :=
  let alerts :=
    collected_alerts spoofing_alerts anomalies overall_confidence now in
  (* Sort by priority *)
  py_sort_reverse (fun a => level_priority (Alert.level a)) alerts.

Definition _update_metrics (processing_times : list R) (processing_time : R)
    : list R :=
  append_capped max_processing_time_history processing_times processing_time.

Definition _handle_processing_error (self : t) : t :=
  mk (sensor_fusion self) (anomaly_detector self) (spoofing_detector self)
     ((fun _ => "degraded") <$> system_status self) (processing_times self).

Definition reset (self : t) : t :=
  mk SensorFusionEngine.init AnomalyDetector.init SpoofingDetector.init
     ((fun _ => "operational") <$> system_status self) [].

Section WithClock.

Variable fromisoformat : string -> option R.

(** One batch.  [now] is the clock during the batch and [finished] its
    reading when the output has been built. *)
Definition process_sensor_data (self : t) (sensor_data : gmap string pyval)
    (now finished : R) : SituationAwarenessOutput.t * t :=
  let start_time := now in
  (* Step 1: Fuse sensor data *)
  let '(fused_data, sensor_fusion') :=
    SensorFusionEngine.fuse (sensor_fusion self) sensor_data now in
  (* Step 2: Detect spoofing (high priority) *)
  let '(spoofing_alerts, spoofing_detector') :=
    SpoofingDetector.detect fromisoformat (spoofing_detector self)
                            sensor_data fused_data now in
  (* Step 3: Detect anomalies *)
  let '(anomalies, anomaly_detector') :=
    AnomalyDetector.detect (anomaly_detector self) fused_data sensor_data now in
  (* Step 4: Model uncertainties *)
  let uncertainties :=
    UncertaintyModeler.calculate fused_data sensor_data anomalies in
  (* Step 5: Calculate overall confidence *)
  let overall_confidence :=
    _calculate_overall_confidence fused_data uncertainties anomalies
                                  spoofing_alerts in
  (* Step 6: Generate consolidated alerts *)
  let alerts :=
    _generate_alerts spoofing_alerts anomalies uncertainties
                     overall_confidence now in
  (* Create output *)
  let output :=
    SituationAwarenessOutput.mk now fused_data anomalies uncertainties
      spoofing_alerts overall_confidence alerts (system_status self) in
  (* Track processing time *)
  let processing_time := finished - start_time in
  (output,
   mk sensor_fusion' anomaly_detector' spoofing_detector'
      (system_status self)
      (_update_metrics (processing_times self) processing_time)).

End WithClock.

End SituationAwarenessLayer.


(** ** Vocabulary of the properties *)

(** The sum [1/sigma_1^2 + ... + 1/sigma_n^2]. *)
Definition inverse_variance_sum (sigmas : list R) : R :=
  foldr (fun sigma acc => 1 / sigma ^ 2 + acc) 0 sigmas.

(** The product of the factors [1 - severity * 0.2] of the anomalies whose
    kind names a sensor. *)
Definition sensor_reliability_factor (anomalies : list Anomaly.t) : R :=
  foldr (fun a acc =>
           (if py_contains "sensor" (AnomalyType_value (Anomaly.anomaly_type a))
            then 1 - Anomaly.severity a * 0.2 else 1) * acc)
        1 anomalies.

(** A fused state with a given fusion confidence and nothing else. *)
Definition blank_fused_data (fusion_confidence now : R) : FusedData.t :=
  FusedData.mk
    (VesselState.mk (Position.mk 0 0 None) 0 0 0 0 now)
    []
    (Environment.mk (PDict ∅) (PDict ∅) (PDict ∅) "good")
    ∅ fusion_confidence now.

(** A reading with a position only. *)
Definition position_reading (lat lon : R) : pyval :=
  PDict (<["latitude" := PNum lat]> (<["longitude" := PNum lon]> ∅)).

(** The alert of the position-jump check and of the impossible-speed check. *)
Definition is_position_jump (alert : SpoofingAlert.t) : Prop :=
  SpoofingAlert.alert_id alert = "gps_spoof_".

Definition is_impossible_speed (alert : SpoofingAlert.t) : Prop :=
  SpoofingAlert.alert_id alert = "gps_speed_".

(** The sum of the reliabilities of all parameters. *)
Definition reliability_sum (uncertainties : gmap string Uncertainty.t) : R :=
  py_sum (map (fun kv => Uncertainty.reliability (snd kv))
              (map_to_list uncertainties)).

(** No reliability is negative and the target tracking has a positive one. *)
Definition reliabilities_sound (uncertainties : gmap string Uncertainty.t)
    : Prop :=
  map_Forall (fun _ u => 0 <= Uncertainty.reliability u) uncertainties
  /\ exists u, uncertainties !! "targets" = Some u
               /\ 0 < Uncertainty.reliability u.

(** The lists that [_fuse_vessel_state] collects before the weighted
    fusion. *)
Definition speed_candidates (sensor_data : gmap string pyval) : list (R * R) :=
  (match present sensor_data "gps" with
   | Some v =>
       if has_key (fields v) "speed" &&
          negb (SensorFusionEngine._is_speed_outlier (num (fields v) "speed"))
       then [(num (fields v) "speed", SensorFusionEngine.sensor_weight "gps")]
       else []
   | None => []
   end) ++
  (match present sensor_data "ais" with
   | Some v =>
       if has_key (fields v) "speed" &&
          negb (SensorFusionEngine._is_speed_outlier (num (fields v) "speed"))
       then [(num (fields v) "speed", SensorFusionEngine.sensor_weight "ais")]
       else []
   | None => []
   end).

Definition course_candidates (sensor_data : gmap string pyval) : list (R * R) :=
  (match present sensor_data "gps" with
   | Some v =>
       if has_key (fields v) "course"
       then [(num (fields v) "course", SensorFusionEngine.sensor_weight "gps")]
       else []
   | None => []
   end) ++
  (match present sensor_data "ais" with
   | Some v =>
       if has_key (fields v) "course"
       then [(num (fields v) "course", SensorFusionEngine.sensor_weight "ais")]
       else []
   | None => []
   end).

Definition heading_candidates (sensor_data : gmap string pyval) : list (R * R) :=
  match present sensor_data "ais" with
  | Some v =>
      if has_key (fields v) "heading"
      then [(num (fields v) "heading", SensorFusionEngine.sensor_weight "ais")]
      else []
  | None => []
  end.

Definition position_candidates (self : SensorFusionEngine.t)
    (sensor_data : gmap string pyval) (now : R) : list (R * R * R) :=
  ((match present sensor_data "gps" with
    | Some v =>
        SensorFusionEngine.position_candidate self now (fields v)
          (SensorFusionEngine.sensor_weight "gps")
    | None => []
    end) ++
   (match present sensor_data "ais" with
    | Some v =>
        SensorFusionEngine.position_candidate self now (fields v)
          (SensorFusionEngine.sensor_weight "ais")
    | None => []
    end)) ++
  (match present sensor_data "radar" with
   | Some v =>
       match fields v !! "own_ship" with
       | Some own =>
           SensorFusionEngine.position_candidate self now (fields own)
             (SensorFusionEngine.sensor_weight "radar" * 0.8)
       | None => []
       end
   | None => []
   end).

(** The derived field [critical_alert_count] of
    [SituationAwarenessOutput.to_dict]. *)
Definition critical_alert_count (self : SituationAwarenessOutput.t) : nat :=
  length (SituationAwarenessOutput.get_critical_alerts self).




(** [get_system_status]: a copy of the status table. *)
Definition get_system_status (self : SituationAwarenessLayer.t)
    : gmap string string :=
  SituationAwarenessLayer.system_status self.

(** What happens to the orchestrator between two resets: a batch that is
    processed, or a batch that fails (the exception handler runs and the
    exception goes to the caller). *)
Inductive batch_event :=
  | Processed (sensor_data : gmap string pyval) (now finished : R)
  | Failed.

Definition after_event (fromisoformat : string -> option R)
    (self : SituationAwarenessLayer.t) (e : batch_event)
    : SituationAwarenessLayer.t :=
  match e with
  | Processed sensor_data now finished =>
      snd (SituationAwarenessLayer.process_sensor_data
             fromisoformat self sensor_data now finished)
  | Failed => SituationAwarenessLayer._handle_processing_error self
  end.

Definition is_failed (e : batch_event) : bool :=
  match e with Failed => true | Processed _ _ _ => false end.

(** The factors the anomaly adjustment applies to the entry of parameter [k]
    for one anomaly: to its standard deviation and to its reliability. *)
Definition std_scale (impact_factor : R) (k : string) (a : Anomaly.t) : R :=
  if decide (k = "speed") then
    (if py_contains "speed" (AnomalyType_value (Anomaly.anomaly_type a))
     then impact_factor else 1)
  else 1.

Definition rel_scale (k : string) (a : Anomaly.t) : R :=
  (if decide (k = "speed") then
     (if py_contains "speed" (AnomalyType_value (Anomaly.anomaly_type a))
      then 1 - Anomaly.severity a * 0.3 else 1)
   else 1)
  * (if py_contains "sensor" (AnomalyType_value (Anomaly.anomaly_type a))
     then 1 - Anomaly.severity a * 0.2 else 1).

(** The product of the values of [f] over a list. *)
Definition product_over {A} (f : A -> R) (l : list A) : R :=
  foldr (fun a acc => f a * acc) 1 l.

(** The parameters [calculate] reports. *)
Definition tracked_parameters : list string :=
  ["position"; "speed"; "course"; "heading"; "targets"; "wind"; "current"; "tide"].


(** * Properties *)

(** ** Sums, maxima and remainders *)

Lemma fold_left_Rplus_acc (l : list R) (a : R) :
  fold_left Rplus l a = a + fold_left Rplus l 0.
Proof.
  revert a. induction l as [|x l IH]; intros a; simpl.
  - lra.
  - rewrite (IH (a + x)), (IH (0 + x)). lra.
Qed.

Lemma py_sum_nil : py_sum [] = 0.
Proof. reflexivity. Qed.

Lemma py_sum_cons (x : R) (l : list R) : py_sum (x :: l) = x + py_sum l.
Proof. unfold py_sum. simpl. rewrite fold_left_Rplus_acc. lra. Qed.

Lemma py_sum_app (l1 l2 : list R) : py_sum (l1 ++ l2) = py_sum l1 + py_sum l2.
Proof.
  induction l1 as [|x l1 IH]; simpl.
  - rewrite py_sum_nil. lra.
  - rewrite !py_sum_cons, IH. lra.
Qed.

Lemma py_sum_perm (l1 l2 : list R) : Permutation l1 l2 -> py_sum l1 = py_sum l2.
Proof.
  induction 1; rewrite ?py_sum_cons; lra || congruence.
Qed.

Lemma py_sum_nonneg (l : list R) : Forall (fun x => 0 <= x) l -> 0 <= py_sum l.
Proof.
  induction 1 as [|x l Hx _ IH].
  - rewrite py_sum_nil. lra.
  - rewrite py_sum_cons. lra.
Qed.


Lemma fold_left_Rmax_ge (l : list R) (a : R) : a <= fold_left Rmax l a.
Proof.
  revert a. induction l as [|x l IH]; intros a; simpl.
  - lra.
  - eapply Rle_trans; [apply (Rmax_l a x) | apply IH].
Qed.





Lemma py_max_ge_head (x : R) (l : list R) : x <= py_max (x :: l).
Proof. simpl. apply fold_left_Rmax_ge. Qed.



(** ** Position and angle fusion *)



Lemma atan2_zero_pos (x : R) : 0 < x -> atan2 0 x = 0.
Proof.
  intros Hx. unfold atan2. case_decide; [|lra].
  replace (0 / x) with 0 by (field; lra). apply atan_0.
Qed.








(** ** Inverse-variance pooling *)

Lemma py_sum_inverse_variance (sigmas : list R) :
  py_sum (map (fun sigma => 1 / sigma ^ 2) sigmas) = inverse_variance_sum sigmas.
Proof.
  unfold inverse_variance_sum.
  induction sigmas as [|s l IH]; cbn [map foldr].
  - apply py_sum_nil.
  - rewrite py_sum_cons, IH. reflexivity.
Qed.

Lemma combined_std_dev_many (dflt s1 s2 : R) (rest : list R) :
  UncertaintyModeler.combined_std_dev dflt (s1 :: s2 :: rest)
  = sqrt (1 / inverse_variance_sum (s1 :: s2 :: rest)).
Proof.
  unfold UncertaintyModeler.combined_std_dev.
  rewrite py_sum_inverse_variance. reflexivity.
Qed.

Lemma combined_std_dev_equal (dflt sigma : R) :
  0 < sigma ->
  UncertaintyModeler.combined_std_dev dflt [sigma; sigma] = sigma / sqrt 2.
Proof.
  intros Hs. rewrite combined_std_dev_many.
  unfold inverse_variance_sum. cbn [foldr].
  replace (1 / (1 / sigma ^ 2 + (1 / sigma ^ 2 + 0)))
    with (sigma * sigma / 2) by (field; lra).
  rewrite sqrt_div_alt by lra.
  rewrite sqrt_square by lra. reflexivity.
Qed.

(** C5. Inverse-variance pooling: two sensors with the same standard deviation
    [sigma] combine to [sigma / sqrt 2]; two or more sensors combine to
    [sqrt (1 / sum (1/sigma_i^2))]; one sensor keeps its own deviation; no
    sensor gives the default, which is 100 m for the position, whose deviation
    is the pooled deviation of the sensors present. *)
Theorem inverse_variance_pooling :
  (forall dflt sigma : R,
     0 < sigma ->
     UncertaintyModeler.combined_std_dev dflt [sigma; sigma] = sigma / sqrt 2)
  /\ (forall (dflt s1 s2 : R) (rest : list R),
        UncertaintyModeler.combined_std_dev dflt (s1 :: s2 :: rest)
        = sqrt (1 / inverse_variance_sum (s1 :: s2 :: rest)))
  /\ (forall dflt sigma : R,
        UncertaintyModeler.combined_std_dev dflt [sigma] = sigma)
  /\ (forall (fused_data : FusedData.t) (raw_sensor_data : gmap string pyval),
        Uncertainty.std_deviation
          (UncertaintyModeler._calculate_position_uncertainty
             fused_data raw_sensor_data)
        = UncertaintyModeler.combined_std_dev 100
            (map snd (UncertaintyModeler.position_measurements raw_sensor_data)))
  /\ UncertaintyModeler.combined_std_dev 100 [] = 100.
Proof.
  split; [|split; [|split; [|split]]].
  - apply combined_std_dev_equal.
  - apply combined_std_dev_many.
  - reflexivity.
  - reflexivity.
  - reflexivity.
Qed.

Lemma inverse_variance_pooling_witness :
  UncertaintyModeler.combined_std_dev 100 [5; 5] = 5 / sqrt 2.
Proof.
  destruct inverse_variance_pooling as (Hequal & _).
  apply Hequal. lra.
Defined.

(** ** Overall confidence *)











(** The overall confidence as a clamped blend of the scaled fusion confidence
    with the mean reliability. *)
Lemma overall_confidence_unfold (fused_data : FusedData.t)
    (uncertainties : gmap string Uncertainty.t)
    (anomalies : list Anomaly.t) (spoofing_alerts : list SpoofingAlert.t) :
  SituationAwarenessLayer._calculate_overall_confidence
    fused_data uncertainties anomalies spoofing_alerts
  = let scaled :=
      FusedData.fusion_confidence fused_data
      * match anomalies with
        | [] => 1
        | _ => 1 - (py_max (map Anomaly.severity anomalies) * 0.3
                    + py_sum (map Anomaly.severity anomalies)
                      / INR (length anomalies) * 0.2) * 0.5
        end
      * match spoofing_alerts with
        | [] => 1
        | _ => 1 - py_max (map SpoofingAlert.confidence spoofing_alerts) * 0.5
        end in
    Rmax 0 (Rmin 1
      (if decide (size uncertainties = 0%nat) then scaled
       else (scaled
             + py_sum (map (fun kv => Uncertainty.reliability (snd kv))
                           (map_to_list uncertainties))
               / INR (size uncertainties)) / 2)).
Proof.
  unfold SituationAwarenessLayer._calculate_overall_confidence. cbv zeta.
  destruct anomalies, spoofing_alerts; case_decide; f_equal; f_equal;
    try ring; f_equal; f_equal; ring.
Qed.


Lemma clamp_range (x : R) : 0 <= Rmax 0 (Rmin 1 x) <= 1.
Proof.
  split; [apply Rmax_l|].
  apply Rmax_lub; [lra | apply Rmin_l].
Qed.


(** ** Quality scores *)


(** A score of a reading that is not a mapping (a number, a text, a list): the
    code gives the fixed score 0.5. *)
Lemma quality_score_not_a_mapping
    (sensor_data : gmap string pyval) (sensor : string) (v : pyval) :
  sensor_data !! sensor = Some v ->
  v <> PNone -> (forall d, v <> PDict d) ->
  SensorFusionEngine._calculate_quality_scores sensor_data !! sensor = Some 0.5.
Proof.
  intros Hv Hn Hd. unfold SensorFusionEngine._calculate_quality_scores.
  rewrite lookup_omap, Hv. destruct v; simpl; try reflexivity.
  - congruence.
  - exfalso. eapply Hd. reflexivity.
Qed.

(** ** Alert ranking *)

Section Sorting.

Context {A : Type} (key : A -> nat).

Lemma insert_desc_perm (x : A) (l : list A) :
  Permutation (insert_desc key x l) (x :: l).
Proof.
  induction l as [|y l IH]; simpl.
  - reflexivity.
  - case_decide.
    + reflexivity.
    + rewrite IH. apply perm_swap.
Qed.

Lemma py_sort_reverse_perm (l : list A) : Permutation (py_sort_reverse key l) l.
Proof.
  induction l as [|x l IH]; simpl.
  - reflexivity.
  - rewrite insert_desc_perm. constructor. exact IH.
Qed.

Lemma insert_desc_sorted (x : A) (l : list A) :
  StronglySorted (fun a b => (key b <= key a)%nat) l ->
  StronglySorted (fun a b => (key b <= key a)%nat) (insert_desc key x l).
Proof.
  induction 1 as [|y l Hs IH Hy]; simpl.
  - repeat constructor.
  - case_decide as Hk.
    + constructor; [constructor; assumption|].
      constructor; [exact Hk|].
      eapply Forall_impl; [exact Hy|]. simpl. intros; lia.
    + constructor; [exact IH|].
      eapply Permutation_Forall; [symmetry; apply insert_desc_perm|].
      constructor; [lia | exact Hy].
Qed.

Lemma py_sort_reverse_sorted (l : list A) :
  StronglySorted (fun a b => (key b <= key a)%nat) (py_sort_reverse key l).
Proof.
  induction l as [|x l IH]; simpl.
  - constructor.
  - apply insert_desc_sorted, IH.
Qed.

(** Stability: the elements of one key keep their order. *)
Lemma insert_desc_stable (k : nat) (x : A) (l : list A) :
  filter (fun a => key a = k) (insert_desc key x l)
  = filter (fun a => key a = k) (x :: l).
Proof.
  induction l as [|y l IH]; simpl.
  - reflexivity.
  - case_decide as Hk; [reflexivity|].
    rewrite (filter_cons _ y (insert_desc key x l)), IH.
    rewrite !(filter_cons _ x), (filter_cons _ y l).
    repeat case_decide; try reflexivity; lia.
Qed.

Lemma py_sort_reverse_stable (k : nat) (l : list A) :
  filter (fun a => key a = k) (py_sort_reverse key l)
  = filter (fun a => key a = k) l.
Proof.
  induction l as [|x l IH]; simpl.
  - reflexivity.
  - rewrite insert_desc_stable, !(filter_cons _ x), IH. reflexivity.
Qed.

End Sorting.

Lemma level_priority_inj (l1 l2 : AlertLevel) :
  SituationAwarenessLayer.level_priority l1
  = SituationAwarenessLayer.level_priority l2 -> l1 = l2.
Proof. destruct l1, l2; simpl; intros H; congruence. Qed.

Lemma filter_level_priority (lvl : AlertLevel) (l : list Alert.t) :
  filter (fun a => Alert.level a = lvl) l
  = filter (fun a => SituationAwarenessLayer.level_priority (Alert.level a)
                     = SituationAwarenessLayer.level_priority lvl) l.
Proof.
  induction l as [|a l IH]; [reflexivity|].
  rewrite !(filter_cons _ a), IH.
  repeat case_decide; try reflexivity.
  - congruence.
  - exfalso. auto using level_priority_inj.
Qed.

(** C8. The alert list of one batch is in descending order of level rank
    (emergency 4, critical 3, warning 2, info 1); it holds exactly the alerts
    made from the spoofing alerts, then from the anomalies, then the
    low-confidence warning, which is there exactly when the overall confidence
    is below 0.5; and alerts of one level keep that order of insertion. *)
Theorem generate_alerts_ranked
    (spoofing_alerts : list SpoofingAlert.t) (anomalies : list Anomaly.t)
    (uncertainties : gmap string Uncertainty.t) (overall_confidence now : R) :
  let alerts :=
    SituationAwarenessLayer._generate_alerts
      spoofing_alerts anomalies uncertainties overall_confidence now in
  let inserted :=
    map SituationAwarenessLayer.spoofing_to_alert spoofing_alerts
    ++ map SituationAwarenessLayer.anomaly_to_alert anomalies
    ++ (if decide (overall_confidence < 0.5)
        then [SituationAwarenessLayer.low_confidence_alert now] else []) in
  StronglySorted
    (fun a b => (SituationAwarenessLayer.level_priority (Alert.level b)
                 <= SituationAwarenessLayer.level_priority (Alert.level a))%nat)
    alerts
  /\ Permutation alerts inserted
  /\ (forall lvl : AlertLevel,
        filter (fun a => Alert.level a = lvl) alerts
        = filter (fun a => Alert.level a = lvl) inserted)
  /\ Alert.level (SituationAwarenessLayer.low_confidence_alert now) = WARNING
  /\ map SituationAwarenessLayer.level_priority [EMERGENCY; CRITICAL; WARNING; INFO]
     = [4; 3; 2; 1]%nat.
Proof.
  cbv zeta. unfold SituationAwarenessLayer._generate_alerts.
  fold (SituationAwarenessLayer.collected_alerts
          spoofing_alerts anomalies overall_confidence now).
  split; [|split; [|split; [|split]]].
  - apply (py_sort_reverse_sorted
             (fun a => SituationAwarenessLayer.level_priority (Alert.level a))).
  - apply py_sort_reverse_perm.
  - intros lvl. rewrite !filter_level_priority.
    apply (py_sort_reverse_stable
             (fun a => SituationAwarenessLayer.level_priority (Alert.level a))).
  - reflexivity.
  - reflexivity.
Qed.

(** ** Bounded histories *)

Lemma append_capped_length {A} (cap : nat) (l : list A) (x : A) :
  (length l <= cap)%nat -> (length (append_capped cap l x) <= cap)%nat.
Proof.
  intros Hl. unfold append_capped. cbv zeta.
  case_decide as Hc.
  - rewrite length_tl, length_app. simpl. lia.
  - lia.
Qed.

Lemma append_capped_room {A} (cap : nat) (l : list A) (x : A) :
  (length l < cap)%nat -> append_capped cap l x = l ++ [x].
Proof.
  intros Hl. unfold append_capped. cbv zeta.
  case_decide as Hc; [|reflexivity].
  rewrite length_app in Hc. simpl in Hc. lia.
Qed.

Lemma append_capped_full {A} (cap : nat) (l : list A) (x : A) :
  length l = cap -> (0 < cap)%nat -> append_capped cap l x = tail l ++ [x].
Proof.
  intros Hl Hcap. unfold append_capped. cbv zeta.
  case_decide as Hc.
  - destruct l; [simpl in Hl; lia | reflexivity].
  - rewrite length_app in Hc. simpl in Hc. lia.
Qed.

Lemma spoofing_detect_incidents (fromisoformat : string -> option R)
    (self : SpoofingDetector.t) (raw_sensor_data : gmap string pyval)
    (fused_data : FusedData.t) (now : R) :
  let '(alerts, self') :=
    SpoofingDetector.detect fromisoformat self raw_sensor_data fused_data now in
  (alerts = [] /\
   SpoofingDetector.spoofing_incidents self'
   = SpoofingDetector.spoofing_incidents self)
  \/ (alerts <> [] /\
      SpoofingDetector.spoofing_incidents self'
      = append_capped SpoofingDetector.max_incidents
          (SpoofingDetector.spoofing_incidents self)
          (SpoofingDetector.mk_incident now (length alerts)
             (map (fun a => SpoofingType_value (SpoofingAlert.spoofing_type a))
                  alerts)
             (py_max (map SpoofingAlert.confidence alerts)))).
Proof.
  unfold SpoofingDetector.detect.
  destruct (SpoofingDetector._detect_gps_spoofing self raw_sensor_data now)
    as [gps_alerts self1] eqn:Hgps.
  destruct (SpoofingDetector._detect_ais_spoofing self1 raw_sensor_data now)
    as [ais_alerts self2] eqn:Hais.
  assert (H1 : SpoofingDetector.spoofing_incidents self1
               = SpoofingDetector.spoofing_incidents self).
  { unfold SpoofingDetector._detect_gps_spoofing in Hgps.
    repeat (case_match; simplify_eq); reflexivity. }
  assert (H2 : SpoofingDetector.spoofing_incidents self2
               = SpoofingDetector.spoofing_incidents self1).
  { unfold SpoofingDetector._detect_ais_spoofing in Hais.
    repeat (case_match; simplify_eq); reflexivity. }
  destruct (gps_alerts ++ ais_alerts ++ _ ++ _) as [|a alerts] eqn:Halerts.
  - left. split; [reflexivity | congruence].
  - right. split; [discriminate|].
    unfold SpoofingDetector._log_spoofing_incident. simpl.
    rewrite H2, H1. reflexivity.
Qed.

(** C9. Bounded histories.  A call of the anomaly detector's [detect] appends
    the fused speed, course and position to their histories and then drops the
    oldest sample of a history that has grown beyond 30; a call of the spoofing
    detector's [detect] leaves the incident log alone or appends one incident
    and then drops the oldest beyond 100.  Both bounds are kept by every call,
    so they hold after any number of calls from the initial state. *)
Theorem histories_bounded :
  (* anomaly detector: one call *)
  (forall (self : AnomalyDetector.t) (fused_data : FusedData.t)
          (raw_sensor_data : gmap string pyval) (now : R),
     let self' := snd (AnomalyDetector.detect self fused_data raw_sensor_data now) in
     let vessel_state := FusedData.vessel_state fused_data in
     AnomalyDetector.speed_history self'
     = append_capped 30 (AnomalyDetector.speed_history self)
         (VesselState.speed vessel_state)
     /\ AnomalyDetector.course_history self'
        = append_capped 30 (AnomalyDetector.course_history self)
            (VesselState.course vessel_state)
     /\ AnomalyDetector.position_history self'
        = append_capped 30 (AnomalyDetector.position_history self)
            (Position.latitude (VesselState.position vessel_state),
             Position.longitude (VesselState.position vessel_state), now)
     /\ ((length (AnomalyDetector.speed_history self) <= 30)%nat ->
         (length (AnomalyDetector.speed_history self') <= 30)%nat)
     /\ ((length (AnomalyDetector.course_history self) <= 30)%nat ->
         (length (AnomalyDetector.course_history self') <= 30)%nat)
     /\ ((length (AnomalyDetector.position_history self) <= 30)%nat ->
         (length (AnomalyDetector.position_history self') <= 30)%nat))
  (* spoofing detector: one call *)
  /\ (forall (fromisoformat : string -> option R) (self : SpoofingDetector.t)
             (raw_sensor_data : gmap string pyval) (fused_data : FusedData.t)
             (now : R),
        let self' :=
          snd (SpoofingDetector.detect fromisoformat self raw_sensor_data
                                       fused_data now) in
        (SpoofingDetector.spoofing_incidents self'
         = SpoofingDetector.spoofing_incidents self
         \/ exists incident,
              SpoofingDetector.spoofing_incidents self'
              = append_capped 100 (SpoofingDetector.spoofing_incidents self)
                              incident)
        /\ ((length (SpoofingDetector.spoofing_incidents self) <= 100)%nat ->
            (length (SpoofingDetector.spoofing_incidents self') <= 100)%nat))
  (* eviction: the oldest goes first *)
  /\ (forall (A : Type) (cap : nat) (l : list A) (x : A),
        ((length l < cap)%nat -> append_capped cap l x = l ++ [x])
        /\ (length l = cap -> (0 < cap)%nat ->
            append_capped cap l x = tail l ++ [x]))
  (* any number of calls from the initial state *)
  /\ (forall calls : list (FusedData.t * gmap string pyval * R),
        let self :=
          fold_left (fun self '(fused_data, raw_sensor_data, now) =>
                       snd (AnomalyDetector.detect self fused_data
                                                   raw_sensor_data now))
                    calls AnomalyDetector.init in
        (length (AnomalyDetector.speed_history self) <= 30)%nat
        /\ (length (AnomalyDetector.course_history self) <= 30)%nat
        /\ (length (AnomalyDetector.position_history self) <= 30)%nat)
  /\ (forall (fromisoformat : string -> option R)
             (calls : list (gmap string pyval * FusedData.t * R)),
        let self :=
          fold_left (fun self '(raw_sensor_data, fused_data, now) =>
                       snd (SpoofingDetector.detect fromisoformat self
                              raw_sensor_data fused_data now))
                    calls SpoofingDetector.init in
        (length (SpoofingDetector.spoofing_incidents self) <= 100)%nat).
Proof.
  assert (Hanom : forall self fused_data raw_sensor_data now,
    let self' := snd (AnomalyDetector.detect self fused_data raw_sensor_data now) in
    ((length (AnomalyDetector.speed_history self) <= 30)%nat ->
     (length (AnomalyDetector.speed_history self') <= 30)%nat)
    /\ ((length (AnomalyDetector.course_history self) <= 30)%nat ->
        (length (AnomalyDetector.course_history self') <= 30)%nat)
    /\ ((length (AnomalyDetector.position_history self) <= 30)%nat ->
        (length (AnomalyDetector.position_history self') <= 30)%nat)).
  { intros self fused_data raw_sensor_data now. simpl.
    repeat split; apply append_capped_length. }
  assert (Hspoof : forall fromisoformat self raw_sensor_data fused_data now,
    let self' := snd (SpoofingDetector.detect fromisoformat self raw_sensor_data
                                              fused_data now) in
    (SpoofingDetector.spoofing_incidents self'
     = SpoofingDetector.spoofing_incidents self
     \/ exists incident,
          SpoofingDetector.spoofing_incidents self'
          = append_capped 100 (SpoofingDetector.spoofing_incidents self) incident)
    /\ ((length (SpoofingDetector.spoofing_incidents self) <= 100)%nat ->
        (length (SpoofingDetector.spoofing_incidents self') <= 100)%nat)).
  { intros fromisoformat self raw_sensor_data fused_data now.
    pose proof (spoofing_detect_incidents fromisoformat self raw_sensor_data
                                          fused_data now) as H.
    destruct (SpoofingDetector.detect _ _ _ _ _) as [alerts self'].
    simpl. destruct H as [[_ ->] | [_ ->]].
    - split; [left; reflexivity | tauto].
    - split; [right; eexists; reflexivity|].
      apply append_capped_length. }
  split; [|split; [|split; [|split]]].
  - intros self fused_data raw_sensor_data now.
    pose proof (Hanom self fused_data raw_sensor_data now) as H.
    simpl in *. tauto.
  - exact Hspoof.
  - intros A cap l x. split.
    + apply append_capped_room.
    + apply append_capped_full.
  - intros calls. cbv zeta.
    assert (Hgen : forall self0,
      (length (AnomalyDetector.speed_history self0) <= 30)%nat
      /\ (length (AnomalyDetector.course_history self0) <= 30)%nat
      /\ (length (AnomalyDetector.position_history self0) <= 30)%nat ->
      let self :=
        fold_left (fun self '(fused_data, raw_sensor_data, now) =>
                     snd (AnomalyDetector.detect self fused_data
                                                 raw_sensor_data now))
                  calls self0 in
      (length (AnomalyDetector.speed_history self) <= 30)%nat
      /\ (length (AnomalyDetector.course_history self) <= 30)%nat
      /\ (length (AnomalyDetector.position_history self) <= 30)%nat).
    { induction calls as [|[[fused_data raw_sensor_data] now] calls IH];
        intros self0 H0; [exact H0|].
      simpl. apply IH.
      pose proof (Hanom self0 fused_data raw_sensor_data now) as H.
      simpl in H. tauto. }
    apply Hgen. simpl. lia.
  - intros fromisoformat calls. cbv zeta.
    assert (Hgen : forall self0,
      (length (SpoofingDetector.spoofing_incidents self0) <= 100)%nat ->
      (length (SpoofingDetector.spoofing_incidents
         (fold_left (fun self '(raw_sensor_data, fused_data, now) =>
                       snd (SpoofingDetector.detect fromisoformat self
                              raw_sensor_data fused_data now))
                    calls self0)) <= 100)%nat).
    { induction calls as [|[[raw_sensor_data fused_data] now] calls IH];
        intros self0 H0; [exact H0|].
      simpl. apply IH.
      apply (Hspoof fromisoformat self0 raw_sensor_data fused_data now), H0. }
    apply Hgen. simpl. lia.
Qed.

(** ** Anomaly adjustment of the uncertainties *)

Lemma position_not_in_anomaly_value (t : AnomalyType) :
  py_contains "position" (AnomalyType_value t) = false.
Proof. destruct t; reflexivity. Qed.

Lemma adjust_one_position (impact_factor : R)
    (uncertainties : gmap string Uncertainty.t) (anomaly : Anomaly.t)
    (u : Uncertainty.t) :
  uncertainties !! "position" = Some u ->
  exists u',
    UncertaintyModeler.adjust_one impact_factor uncertainties anomaly
      !! "position" = Some u'
    /\ Uncertainty.std_deviation u' = Uncertainty.std_deviation u
    /\ Uncertainty.reliability u'
       = Uncertainty.reliability u * sensor_reliability_factor [anomaly].
Proof.
  intros Hu. unfold UncertaintyModeler.adjust_one. cbv zeta.
  rewrite position_not_in_anomaly_value.
  unfold sensor_reliability_factor. cbn [foldr].
  set (speed_done :=
         if py_contains "speed" _ then _ else uncertainties).
  assert (Hs : speed_done !! "position" = Some u).
  { subst speed_done. destruct (py_contains "speed" _); [|exact Hu].
    rewrite lookup_alter_ne by discriminate. exact Hu. }
  destruct (py_contains "sensor" _).
  - rewrite lookup_fmap, Hs. simpl. eexists. split; [reflexivity|].
    simpl. split; [reflexivity | ring].
  - exists u. split; [exact Hs|]. split; [reflexivity | ring].
Qed.

Lemma adjust_fold_position (impact_factor : R) (anomalies : list Anomaly.t)
    (uncertainties : gmap string Uncertainty.t) (u : Uncertainty.t) :
  uncertainties !! "position" = Some u ->
  exists u',
    fold_left (UncertaintyModeler.adjust_one impact_factor) anomalies uncertainties
      !! "position" = Some u'
    /\ Uncertainty.std_deviation u' = Uncertainty.std_deviation u
    /\ Uncertainty.reliability u'
       = Uncertainty.reliability u * sensor_reliability_factor anomalies.
Proof.
  revert uncertainties u.
  induction anomalies as [|a anomalies IH]; intros uncertainties u Hu.
  - exists u. simpl. split; [exact Hu|]. split; [reflexivity | ring].
  - destruct (adjust_one_position impact_factor uncertainties a u Hu)
      as (u1 & H1 & Hstd1 & Hrel1).
    destruct (IH _ _ H1) as (u' & H' & Hstd' & Hrel').
    exists u'. simpl fold_left. split; [exact H'|].
    split; [congruence|].
    rewrite Hrel', Hrel1. unfold sensor_reliability_factor. cbn [foldr]. ring.
Qed.

Lemma adjust_for_anomalies_position
    (uncertainties : gmap string Uncertainty.t) (anomalies : list Anomaly.t)
    (u : Uncertainty.t) :
  uncertainties !! "position" = Some u ->
  exists u',
    UncertaintyModeler._adjust_for_anomalies uncertainties anomalies
      !! "position" = Some u'
    /\ Uncertainty.std_deviation u' = Uncertainty.std_deviation u
    /\ Uncertainty.reliability u'
       = Uncertainty.reliability u * sensor_reliability_factor anomalies.
Proof.
  intros Hu. unfold UncertaintyModeler._adjust_for_anomalies.
  destruct anomalies as [|a anomalies].
  - exists u. split; [exact Hu|]. split; [reflexivity | simpl; ring].
  - apply adjust_fold_position, Hu.
Qed.

Lemma base_uncertainties_position (fused_data : FusedData.t)
    (raw_sensor_data : gmap string pyval) :
  UncertaintyModeler.base_uncertainties fused_data raw_sensor_data !! "position"
  = Some (UncertaintyModeler._calculate_position_uncertainty
            fused_data raw_sensor_data).
Proof.
  unfold UncertaintyModeler.base_uncertainties,
    UncertaintyModeler._calculate_environmental_uncertainty.
  rewrite lookup_union_r by (rewrite !lookup_insert_ne by discriminate; apply lookup_empty).
  rewrite !lookup_insert_ne by discriminate.
  apply lookup_insert_eq.
Qed.

Lemma sensor_reliability_factor_range (anomalies : list Anomaly.t) :
  Forall (fun a => 0 <= Anomaly.severity a <= 1) anomalies ->
  0 < sensor_reliability_factor anomalies <= 1.
Proof.
  induction 1 as [|a l Ha _ IH]; unfold sensor_reliability_factor; cbn [foldr].
  - lra.
  - fold (sensor_reliability_factor l).
    destruct (py_contains "sensor" _); nra.
Qed.

(** C10. The anomaly adjustment never inflates the standard deviation of the
    position: no kind of anomaly has "position" in its value, so for every list
    of anomalies the position entry returned by [calculate] has the standard
    deviation computed before the adjustment.  Only its reliability changes:
    it is multiplied by [1 - severity * 0.2] for each anomaly whose kind names
    a sensor, a factor in (0, 1] for severities in [0, 1]. *)
Theorem position_std_deviation_not_inflated :
  (forall t : AnomalyType, py_contains "position" (AnomalyType_value t) = false)
  /\ (forall (fused_data : FusedData.t) (raw_sensor_data : gmap string pyval)
             (anomalies : list Anomaly.t),
        exists u,
          UncertaintyModeler.calculate fused_data raw_sensor_data anomalies
            !! "position" = Some u
          /\ Uncertainty.std_deviation u
             = Uncertainty.std_deviation
                 (UncertaintyModeler._calculate_position_uncertainty
                    fused_data raw_sensor_data)
          /\ Uncertainty.reliability u
             = Uncertainty.reliability
                 (UncertaintyModeler._calculate_position_uncertainty
                    fused_data raw_sensor_data)
               * sensor_reliability_factor anomalies)
  /\ (forall (uncertainties : gmap string Uncertainty.t)
             (anomalies : list Anomaly.t) (u : Uncertainty.t),
        uncertainties !! "position" = Some u ->
        exists u',
          UncertaintyModeler._adjust_for_anomalies uncertainties anomalies
            !! "position" = Some u'
          /\ Uncertainty.std_deviation u' = Uncertainty.std_deviation u
          /\ Uncertainty.reliability u'
             = Uncertainty.reliability u * sensor_reliability_factor anomalies)
  /\ (forall anomalies : list Anomaly.t,
        Forall (fun a => 0 <= Anomaly.severity a <= 1) anomalies ->
        0 < sensor_reliability_factor anomalies <= 1).
Proof.
  split; [|split; [|split]].
  - apply position_not_in_anomaly_value.
  - intros fused_data raw_sensor_data anomalies.
    unfold UncertaintyModeler.calculate. cbv zeta.
    pose proof (base_uncertainties_position fused_data raw_sensor_data) as Hb.
    destruct anomalies as [|a anomalies].
    + eexists. split; [exact Hb|]. split; [reflexivity | simpl; ring].
    + apply adjust_for_anomalies_position, Hb.
  - apply adjust_for_anomalies_position.
  - apply sensor_reliability_factor_range.
Qed.

(** ** Great-circle distance along a meridian *)

Lemma radians_degrees (x : R) : radians (degrees x) = x.
Proof.
  unfold radians, degrees. field. apply Rgt_not_eq, PI_RGT_0.
Qed.

Lemma atan2_sin_cos (h : R) :
  - (PI / 2) < h < PI / 2 -> atan2 (sin h) (cos h) = h.
Proof.
  intros [Hlo Hhi]. unfold atan2.
  pose proof (cos_gt_0 h Hlo Hhi) as Hc.
  case_decide; [|lra].
  change (sin h / cos h) with (tan h).
  apply atan_tan. split; assumption.
Qed.

Lemma haversine_meridian (theta : R) :
  0 <= theta < PI ->
  _haversine_distance 0 0 (degrees theta) 0 = 6371000 * theta.
Proof.
  intros [Hlo Hhi]. unfold _haversine_distance. cbv zeta.
  replace (degrees theta - 0) with (degrees theta) by lra.
  rewrite radians_degrees.
  replace (radians (0 - 0)) with 0 by (unfold radians; lra).
  replace (0 / 2) with 0 by lra.
  rewrite sin_0.
  set (h := theta / 2).
  assert (Hh : - (PI / 2) < h < PI / 2) by (unfold h; lra).
  pose proof (cos_gt_0 h (proj1 Hh) (proj2 Hh)) as Hc.
  assert (Hs : 0 <= sin h) by (apply sin_ge_0; unfold h; lra).
  replace (sin h ^ 2 + cos (radians 0) * cos theta * 0 ^ 2) with (sin h ^ 2)
    by ring.
  assert (Hcos2 : 1 - sin h ^ 2 = cos h ^ 2).
  { pose proof (sin2_cos2 h) as H. unfold Rsqr in H. lra. }
  rewrite Hcos2, !sqrt_pow2 by lra.
  rewrite atan2_sin_cos by exact Hh.
  unfold h. field.
Qed.

Lemma haversine_2000 :
  _haversine_distance 0 0 (degrees (2000 / 6371000)) 0 = 2000.
Proof.
  rewrite haversine_meridian.
  - field.
  - pose proof PI2_1. lra.
Qed.

(** ** GPS spoofing: position jump and impossible speed *)

Lemma position_reading_present (sensor : string) (lat lon : R) :
  present {[sensor := position_reading lat lon]} sensor
  = Some (position_reading lat lon).
Proof.
  unfold present. rewrite lookup_singleton_eq.
  unfold position_reading, truthy.
  rewrite !map_size_insert_None, map_size_empty.
  - reflexivity.
  - apply lookup_empty.
  - rewrite lookup_insert_ne by discriminate. apply lookup_empty.
Qed.

Lemma position_reading_keys (lat lon : R) :
  has_key (fields (position_reading lat lon)) "latitude" = true
  /\ has_key (fields (position_reading lat lon)) "longitude" = true
  /\ num (fields (position_reading lat lon)) "latitude" = lat
  /\ num (fields (position_reading lat lon)) "longitude" = lon
  /\ fields (position_reading lat lon) !! "timestamp" = None.
Proof.
  unfold has_key, num, position_reading, fields.
  rewrite lookup_insert_eq.
  rewrite !(lookup_insert_ne _ "latitude") by discriminate.
  rewrite lookup_insert_eq.
  rewrite lookup_insert_ne by discriminate.
  rewrite lookup_empty.
  repeat split; apply bool_decide_eq_true; eexists; reflexivity.
Qed.

(** The tracker after a call whose GPS reading has both coordinates. *)
Lemma detect_tracks_gps (fromisoformat : string -> option R)
    (self : SpoofingDetector.t) (raw_sensor_data : gmap string pyval)
    (fused_data : FusedData.t) (now : R) (v : pyval) :
  present raw_sensor_data "gps" = Some v ->
  has_key (fields v) "latitude" = true ->
  has_key (fields v) "longitude" = true ->
  let self' := snd (SpoofingDetector.detect fromisoformat self raw_sensor_data
                                            fused_data now) in
  SpoofingDetector.previous_gps_position self'
  = Some (num (fields v) "latitude", num (fields v) "longitude")
  /\ SpoofingDetector.last_update_time self' = Some now.
Proof.
  intros Hp Hlat Hlon. cbv zeta.
  unfold SpoofingDetector.detect, SpoofingDetector._detect_gps_spoofing.
  rewrite Hp, Hlat, Hlon. cbv zeta. simpl negb. simpl orb. cbv iota.
  match goal with
  | |- context [SpoofingDetector._detect_ais_spoofing ?s _ _] =>
      set (self1 := s)
  end.
  destruct (SpoofingDetector._detect_ais_spoofing self1 raw_sensor_data now)
    as [ais_alerts self2] eqn:Hais.
  assert (H2 : SpoofingDetector.previous_gps_position self2
               = SpoofingDetector.previous_gps_position self1
               /\ SpoofingDetector.last_update_time self2
                  = SpoofingDetector.last_update_time self1).
  { unfold SpoofingDetector._detect_ais_spoofing in Hais.
    repeat (case_match; simplify_eq); split; reflexivity. }
  destruct H2 as [H2a H2b].
  destruct (_ ++ ais_alerts ++ _ ++ _); simpl; rewrite H2a, H2b; split; reflexivity.
Qed.

Lemma ais_alerts_ids (self : SpoofingDetector.t)
    (raw_sensor_data : gmap string pyval) (now : R) :
  Forall (fun a => ~ is_impossible_speed a)
         (fst (SpoofingDetector._detect_ais_spoofing self raw_sensor_data now)).
Proof.
  unfold SpoofingDetector._detect_ais_spoofing, is_impossible_speed.
  repeat case_match; simpl; repeat constructor; simpl; discriminate.
Qed.

Lemma multi_alerts_ids (raw_sensor_data : gmap string pyval)
    (fused_data : FusedData.t) (now : R) :
  Forall (fun a => ~ is_impossible_speed a)
         (SpoofingDetector._detect_multi_sensor_spoofing raw_sensor_data
                                                         fused_data now).
Proof.
  unfold SpoofingDetector._detect_multi_sensor_spoofing, is_impossible_speed.
  cbv zeta.
  repeat case_match; simpl; repeat constructor; simpl; discriminate.
Qed.

Lemma time_alerts_ids (fromisoformat : string -> option R)
    (raw_sensor_data : gmap string pyval) (now : R) :
  Forall (fun a => ~ is_impossible_speed a)
         (SpoofingDetector._detect_time_manipulation fromisoformat
                                                     raw_sensor_data now).
Proof.
  unfold SpoofingDetector._detect_time_manipulation, is_impossible_speed.
  cbv zeta.
  repeat case_match; simpl; repeat constructor; simpl; discriminate.
Qed.

(** The alerts of one call, in the order of the four checks. *)
Lemma detect_alerts (fromisoformat : string -> option R)
    (self : SpoofingDetector.t) (raw_sensor_data : gmap string pyval)
    (fused_data : FusedData.t) (now : R) :
  fst (SpoofingDetector.detect fromisoformat self raw_sensor_data fused_data now)
  = fst (SpoofingDetector._detect_gps_spoofing self raw_sensor_data now)
    ++ fst (SpoofingDetector._detect_ais_spoofing
              (snd (SpoofingDetector._detect_gps_spoofing self raw_sensor_data now))
              raw_sensor_data now)
    ++ SpoofingDetector._detect_multi_sensor_spoofing raw_sensor_data fused_data now
    ++ SpoofingDetector._detect_time_manipulation fromisoformat raw_sensor_data now.
Proof.
  unfold SpoofingDetector.detect.
  destruct (SpoofingDetector._detect_gps_spoofing self raw_sensor_data now)
    as [gps_alerts self1].
  cbn [fst snd].
  destruct (SpoofingDetector._detect_ais_spoofing self1 raw_sensor_data now)
    as [ais_alerts self2].
  cbn [fst snd].
  destruct (gps_alerts ++ ais_alerts ++ _ ++ _); reflexivity.
Qed.

(** The GPS check on a jump of more than 1000 m in less than 10 s: the
    position-jump alert alone. *)
Lemma gps_spoofing_on_jump (self : SpoofingDetector.t)
    (raw_sensor_data : gmap string pyval) (now : R)
    (prev_lat prev_lon last_update : R) (v : pyval) :
  SpoofingDetector.previous_gps_position self = Some (prev_lat, prev_lon) ->
  SpoofingDetector.last_update_time self = Some last_update ->
  present raw_sensor_data "gps" = Some v ->
  has_key (fields v) "latitude" = true ->
  has_key (fields v) "longitude" = true ->
  _haversine_distance prev_lat prev_lon
    (num (fields v) "latitude") (num (fields v) "longitude") > 1000 ->
  0 < now - last_update < 10 ->
  fst (SpoofingDetector._detect_gps_spoofing self raw_sensor_data now)
  = [SpoofingAlert.mk "gps_spoof_" GPS_SPOOFING
       (Rmin 1 (_haversine_distance prev_lat prev_lon
                  (num (fields v) "latitude") (num (fields v) "longitude")
                / 5000))
       ["gps"] None now].
Proof.
  intros Hprev Hlast Hp Hlat Hlon Hd Ht.
  unfold SpoofingDetector._detect_gps_spoofing.
  rewrite Hp, Hlat, Hlon, Hprev, Hlast. cbv zeta. simpl.
  unfold SpoofingDetector.position_jump.
  case_decide; [|lra].
  case_decide; [reflexivity | lra].
Qed.

Lemma detect_on_jump (fromisoformat : string -> option R)
    (self : SpoofingDetector.t) (raw_sensor_data : gmap string pyval)
    (fused_data : FusedData.t) (now : R)
    (prev_lat prev_lon last_update : R) (v : pyval) :
  SpoofingDetector.previous_gps_position self = Some (prev_lat, prev_lon) ->
  SpoofingDetector.last_update_time self = Some last_update ->
  present raw_sensor_data "gps" = Some v ->
  has_key (fields v) "latitude" = true ->
  has_key (fields v) "longitude" = true ->
  _haversine_distance prev_lat prev_lon
    (num (fields v) "latitude") (num (fields v) "longitude") > 1000 ->
  0 < now - last_update < 10 ->
  let alerts :=
    fst (SpoofingDetector.detect fromisoformat self raw_sensor_data
                                 fused_data now) in
  head alerts
  = Some (SpoofingAlert.mk "gps_spoof_" GPS_SPOOFING
            (Rmin 1 (_haversine_distance prev_lat prev_lon
                       (num (fields v) "latitude") (num (fields v) "longitude")
                     / 5000))
            ["gps"] None now)
  /\ Forall (fun a => ~ is_impossible_speed a) alerts.
Proof.
  intros Hprev Hlast Hp Hlat Hlon Hd Ht. cbv zeta.
  rewrite detect_alerts.
  rewrite (gps_spoofing_on_jump self raw_sensor_data now prev_lat prev_lon
             last_update v) by assumption.
  split; [reflexivity|].
  constructor; [unfold is_impossible_speed; simpl; discriminate|].
  repeat apply Forall_app_2.
  - apply ais_alerts_ids.
  - apply multi_alerts_ids.
  - apply time_alerts_ids.
Qed.

Lemma jump_confidence_2000 : Rmin 1 (2000 / 5000) = 0.4.
Proof. rewrite Rmin_right; lra. Qed.

(** C1, as the code has it.  For two consecutive calls of [detect] where the
    GPS reading of the second batch lies 2000 m from the GPS position of the
    first and 5 s have elapsed, the alerts of the second batch start with the
    GPS position-jump alert, of confidence 0.4, and hold no impossible-speed
    alert: the speed check is the alternative of the jump check. *)
Theorem gps_jump_2000m_in_5s
    (fromisoformat : string -> option R) (self : SpoofingDetector.t)
    (raw1 raw2 : gmap string pyval) (fused1 fused2 : FusedData.t)
    (t1 t2 : R) (gps1 gps2 : pyval) :
  present raw1 "gps" = Some gps1 ->
  has_key (fields gps1) "latitude" = true ->
  has_key (fields gps1) "longitude" = true ->
  present raw2 "gps" = Some gps2 ->
  has_key (fields gps2) "latitude" = true ->
  has_key (fields gps2) "longitude" = true ->
  _haversine_distance
    (num (fields gps1) "latitude") (num (fields gps1) "longitude")
    (num (fields gps2) "latitude") (num (fields gps2) "longitude") = 2000 ->
  t2 - t1 = 5 ->
  let self1 :=
    snd (SpoofingDetector.detect fromisoformat self raw1 fused1 t1) in
  let alerts :=
    fst (SpoofingDetector.detect fromisoformat self1 raw2 fused2 t2) in
  head alerts
  = Some (SpoofingAlert.mk "gps_spoof_" GPS_SPOOFING 0.4 ["gps"] None t2)
  /\ Exists is_position_jump alerts
  /\ Forall (fun a => ~ is_impossible_speed a) alerts.
Proof.
  intros Hp1 Hlat1 Hlon1 Hp2 Hlat2 Hlon2 Hd Ht. cbv zeta.
  destruct (detect_tracks_gps fromisoformat self raw1 fused1 t1 gps1
              Hp1 Hlat1 Hlon1) as [Hprev Hlast].
  destruct (detect_on_jump fromisoformat _ raw2 fused2 t2 _ _ _ gps2
              Hprev Hlast Hp2 Hlat2 Hlon2) as [Hhead Hall]; [lra | lra |].
  rewrite Hd, jump_confidence_2000 in Hhead.
  split; [exact Hhead|]. split; [|exact Hall].
  destruct (fst (SpoofingDetector.detect fromisoformat _ raw2 fused2 t2))
    as [|a alerts]; [discriminate|].
  injection Hhead as ->. left. reflexivity.
Qed.

Lemma gps_jump_2000m_in_5s_witness :
  let raw1 : gmap string pyval := {["gps" := position_reading 0 0]} in
  let raw2 : gmap string pyval :=
    {["gps" := position_reading (degrees (2000 / 6371000)) 0]} in
  let fused := blank_fused_data 0 0 in
  let self1 :=
    snd (SpoofingDetector.detect (fun _ => None) SpoofingDetector.init
                                 raw1 fused 0) in
  let alerts :=
    fst (SpoofingDetector.detect (fun _ => None) self1 raw2 fused 5) in
  head alerts
  = Some (SpoofingAlert.mk "gps_spoof_" GPS_SPOOFING 0.4 ["gps"] None 5)
  /\ Exists is_position_jump alerts
  /\ Forall (fun a => ~ is_impossible_speed a) alerts.
Proof.
  cbv zeta.
  destruct (position_reading_keys 0 0) as (Hlat1 & Hlon1 & Hnlat1 & Hnlon1 & _).
  destruct (position_reading_keys (degrees (2000 / 6371000)) 0)
    as (Hlat2 & Hlon2 & Hnlat2 & Hnlon2 & _).
  apply (gps_jump_2000m_in_5s (fun _ => None) SpoofingDetector.init
           {["gps" := position_reading 0 0]}
           {["gps" := position_reading (degrees (2000 / 6371000)) 0]}
           (blank_fused_data 0 0) (blank_fused_data 0 0) 0 5
           (position_reading 0 0)
           (position_reading (degrees (2000 / 6371000)) 0)).
  - apply position_reading_present.
  - exact Hlat1.
  - exact Hlon1.
  - apply position_reading_present.
  - exact Hlat2.
  - exact Hlon2.
  - rewrite Hnlat1, Hnlon1, Hnlat2, Hnlon2. apply haversine_2000.
  - lra.
Defined.

(** The claim as the specification words it fails on the code: a jump of
    2000 m in 5 s gives the position-jump alert without the impossible-speed
    alert. *)
Lemma gps_jump_and_speed_counterexample :
  let raw1 : gmap string pyval := {["gps" := position_reading 0 0]} in
  let raw2 : gmap string pyval :=
    {["gps" := position_reading (degrees (2000 / 6371000)) 0]} in
  let fused := blank_fused_data 0 0 in
  let self1 :=
    snd (SpoofingDetector.detect (fun _ => None) SpoofingDetector.init
                                 raw1 fused 0) in
  let alerts :=
    fst (SpoofingDetector.detect (fun _ => None) self1 raw2 fused 5) in
  _haversine_distance 0 0 (degrees (2000 / 6371000)) 0 = 2000
  /\ 5 - 0 = 5
  /\ ~ (Exists is_position_jump alerts /\ Exists is_impossible_speed alerts).
Proof.
  cbv zeta.
  split; [apply haversine_2000|]. split; [lra|].
  destruct (position_reading_keys 0 0) as (Hlat1 & Hlon1 & Hnlat1 & Hnlon1 & _).
  destruct (position_reading_keys (degrees (2000 / 6371000)) 0)
    as (Hlat2 & Hlon2 & Hnlat2 & Hnlon2 & _).
  destruct (detect_tracks_gps (fun _ => None) SpoofingDetector.init
              {["gps" := position_reading 0 0]} (blank_fused_data 0 0) 0
              (position_reading 0 0)
              (position_reading_present "gps" 0 0) Hlat1 Hlon1)
    as [Hprev Hlast].
  rewrite Hnlat1, Hnlon1 in Hprev.
  destruct (detect_on_jump (fun _ => None) _
              {["gps" := position_reading (degrees (2000 / 6371000)) 0]}
              (blank_fused_data 0 0) 5 0 0 0
              (position_reading (degrees (2000 / 6371000)) 0)
              Hprev Hlast
              (position_reading_present "gps" _ 0) Hlat2 Hlon2)
    as [_ Hall].
  - rewrite Hnlat2, Hnlon2, haversine_2000. lra.
  - lra.
  - intros [_ Hspeed].
    apply Exists_exists in Hspeed as (a & Hin & Ha).
    rewrite Forall_forall in Hall. exact (Hall a Hin Ha).
Qed.

(** ** The empty snapshot *)

Lemma present_empty (k : string) : present ∅ k = None.
Proof. unfold present. rewrite lookup_empty. reflexivity. Qed.

Lemma fuse_empty (self : SensorFusionEngine.t) (now : R) :
  fst (SensorFusionEngine.fuse self ∅ now) = blank_fused_data 0 now.
Proof.
  unfold SensorFusionEngine.fuse, SensorFusionEngine._fuse_vessel_state.
  rewrite !present_empty. cbn [fst snd].
  unfold SensorFusionEngine._weighted_position_fusion,
    SensorFusionEngine._weighted_value_fusion,
    SensorFusionEngine._weighted_angle_fusion.
  cbn [fst snd].
  reflexivity.
Qed.

Lemma spoofing_detect_empty (fromisoformat : string -> option R)
    (self : SpoofingDetector.t) (fused_data : FusedData.t) (now : R) :
  SpoofingDetector.detect fromisoformat self ∅ fused_data now = ([], self).
Proof.
  unfold SpoofingDetector.detect, SpoofingDetector._detect_gps_spoofing,
    SpoofingDetector._detect_ais_spoofing,
    SpoofingDetector._detect_multi_sensor_spoofing,
    SpoofingDetector._detect_time_manipulation,
    SpoofingDetector.sensor_positions.
  rewrite !present_empty. reflexivity.
Qed.

Lemma anomaly_detect_empty (self : AnomalyDetector.t) (now : R) :
  let vessel_state := FusedData.vessel_state (blank_fused_data 0 now) in
  let self' := AnomalyDetector._update_history self vessel_state now in
  AnomalyDetector.detect self (blank_fused_data 0 now) ∅ now
  = (AnomalyDetector._detect_trajectory_deviation self' vessel_state now
     ++ AnomalyDetector._detect_speed_anomaly self' vessel_state now
     ++ [Anomaly.mk "sensor_deg_" SENSOR_DEGRADATION 0.8 ["gps"] now None;
         Anomaly.mk "sensor_deg_" SENSOR_DEGRADATION 0.8 ["ais"] now None;
         Anomaly.mk "sensor_deg_" SENSOR_DEGRADATION 0.8 ["radar"] now None],
     self').
Proof.
  cbv zeta. unfold AnomalyDetector.detect. cbv zeta. f_equal.
  f_equal. f_equal.
  unfold AnomalyDetector._detect_sensor_mismatch,
    AnomalyDetector._detect_collision_risk,
    AnomalyDetector._detect_sudden_maneuver,
    AnomalyDetector._detect_sensor_degradation.
  rewrite lookup_empty. simpl.
  rewrite !present_empty, Rabs_R0.
  case_decide; [lra | reflexivity].
Qed.

Lemma trajectory_anomalies_range (self : AnomalyDetector.t)
    (vessel_state : VesselState.t) (now : R) :
  Forall (fun a => Anomaly.anomaly_type a = TRAJECTORY_DEVIATION
                   /\ 0 <= Anomaly.severity a <= 1)
         (AnomalyDetector._detect_trajectory_deviation self vessel_state now).
Proof.
  unfold AnomalyDetector._detect_trajectory_deviation.
  case_decide; [constructor|].
  destruct (AnomalyDetector._predict_position self) as [expected_lat expected_lon].
  cbv zeta. case_decide as Hd; [|constructor].
  constructor; [|constructor]. simpl.
  split; [reflexivity|]. split; [apply Rmin_glb; lra | apply Rmin_l].
Qed.

Lemma speed_anomalies_range (self : AnomalyDetector.t)
    (vessel_state : VesselState.t) (now : R) :
  Forall (fun a => Anomaly.anomaly_type a = SPEED_ANOMALY
                   /\ 0 <= Anomaly.severity a <= 1)
         (AnomalyDetector._detect_speed_anomaly self vessel_state now).
Proof.
  unfold AnomalyDetector._detect_speed_anomaly.
  case_decide; [constructor|].
  cbv zeta. case_decide as Hd; [|constructor].
  constructor; [|constructor]. simpl.
  split; [reflexivity|]. split; [apply Rmin_glb; lra | apply Rmin_l].
Qed.

(** Sums of reliabilities over the uncertainty table. *)

Lemma reliability_sum_empty : reliability_sum ∅ = 0.
Proof. unfold reliability_sum. rewrite map_to_list_empty. reflexivity. Qed.

Lemma reliability_sum_insert (uncertainties : gmap string Uncertainty.t)
    (k : string) (u : Uncertainty.t) :
  uncertainties !! k = None ->
  reliability_sum (<[k := u]> uncertainties)
  = Uncertainty.reliability u + reliability_sum uncertainties.
Proof.
  intros Hk. unfold reliability_sum.
  rewrite (py_sum_perm _ _ (Permutation_map _ (map_to_list_insert _ k u Hk))).
  simpl. apply py_sum_cons.
Qed.

Lemma reliability_sum_degrade (severity : R)
    (uncertainties : gmap string Uncertainty.t) :
  reliability_sum (UncertaintyModeler.degrade severity <$> uncertainties)
  = (1 - severity * 0.2) * reliability_sum uncertainties.
Proof.
  unfold reliability_sum. rewrite map_to_list_fmap.
  induction (map_to_list uncertainties) as [|[k u] l IH].
  - simpl. rewrite py_sum_nil. ring.
  - cbn [fmap list_fmap map]. cbn [fmap list_fmap map] in IH.
    rewrite !py_sum_cons, IH. simpl. ring.
Qed.

Lemma py_sum_ge_elem (l : list R) (x : R) :
  Forall (fun y => 0 <= y) l -> In x l -> x <= py_sum l.
Proof.
  induction 1 as [|y l Hy Hl IH]; intros Hin; [destruct Hin|].
  rewrite py_sum_cons. destruct Hin as [-> | Hin].
  - pose proof (py_sum_nonneg l Hl). lra.
  - specialize (IH Hin). lra.
Qed.

Lemma reliability_sum_pos (uncertainties : gmap string Uncertainty.t) :
  reliabilities_sound uncertainties -> 0 < reliability_sum uncertainties.
Proof.
  intros [Hall (u & Hu & Hpos)]. unfold reliability_sum.
  eapply Rlt_le_trans; [exact Hpos|].
  apply py_sum_ge_elem.
  - apply map_Forall_to_list in Hall.
    apply List.Forall_forall. intros y Hy.
    apply in_map_iff in Hy as ([k v] & <- & Hin).
    rewrite List.Forall_forall in Hall.
    apply (Hall (k, v)). exact Hin.
  - apply in_map_iff. exists ("targets", u). split; [reflexivity|].
    apply list_elem_of_In, elem_of_map_to_list. exact Hu.
Qed.

Lemma sound_size (uncertainties : gmap string Uncertainty.t) :
  reliabilities_sound uncertainties -> size uncertainties <> 0%nat.
Proof.
  intros [_ (u & Hu & _)] Hs.
  apply map_size_empty_inv in Hs. subst.
  rewrite lookup_empty in Hu. discriminate.
Qed.

Lemma inflate_sound (impact_factor severity : R) (k : string)
    (uncertainties : gmap string Uncertainty.t) :
  0 <= severity <= 1 ->
  reliabilities_sound uncertainties ->
  reliabilities_sound
    (alter (UncertaintyModeler.inflate impact_factor severity) k uncertainties).
Proof.
  intros Hs [Hall (u & Hu & Hpos)]. split.
  - intros i x Hx. rewrite lookup_alter in Hx.
    case_decide; [|exact (Hall i x Hx)].
    destruct (uncertainties !! k) as [y|] eqn:Hy; [|discriminate].
    simpl in Hx. injection Hx as <-. simpl.
    pose proof (Hall k y Hy) as H0. simpl in H0.
    apply Rmult_le_pos; lra.
  - rewrite lookup_alter. case_decide as Hk.
    + subst k. rewrite Hu. simpl. eexists. split; [reflexivity|]. simpl.
      apply Rmult_lt_0_compat; lra.
    + exists u. split; assumption.
Qed.

Lemma degrade_sound (severity : R) (uncertainties : gmap string Uncertainty.t) :
  0 <= severity <= 1 ->
  reliabilities_sound uncertainties ->
  reliabilities_sound (UncertaintyModeler.degrade severity <$> uncertainties).
Proof.
  intros Hs [Hall (u & Hu & Hpos)]. split.
  - apply map_Forall_fmap. intros i x Hx. simpl.
    pose proof (Hall i x Hx) as H0. simpl in H0.
    apply Rmult_le_pos; lra.
  - rewrite lookup_fmap, Hu. simpl. eexists. split; [reflexivity|]. simpl.
    apply Rmult_lt_0_compat; lra.
Qed.

Lemma adjust_one_sound (impact_factor : R)
    (uncertainties : gmap string Uncertainty.t) (anomaly : Anomaly.t) :
  0 <= Anomaly.severity anomaly <= 1 ->
  reliabilities_sound uncertainties ->
  reliabilities_sound
    (UncertaintyModeler.adjust_one impact_factor uncertainties anomaly).
Proof.
  intros Hs H. unfold UncertaintyModeler.adjust_one. cbv zeta.
  destruct (py_contains "sensor" _);
    [apply degrade_sound; [exact Hs|]|];
    destruct (py_contains "speed" _);
    try (apply inflate_sound; [exact Hs|]);
    destruct (py_contains "position" _);
    try (apply inflate_sound; [exact Hs|]); exact H.
Qed.

Lemma adjust_for_anomalies_sound (uncertainties : gmap string Uncertainty.t)
    (anomalies : list Anomaly.t) :
  Forall (fun a => 0 <= Anomaly.severity a <= 1) anomalies ->
  reliabilities_sound uncertainties ->
  reliabilities_sound
    (UncertaintyModeler._adjust_for_anomalies uncertainties anomalies).
Proof.
  intros Hall H. unfold UncertaintyModeler._adjust_for_anomalies.
  destruct anomalies as [|a0 l0]; [exact H|].
  generalize (1 + py_max (map Anomaly.severity (a0 :: l0))). intros impact.
  revert uncertainties H.
  induction Hall as [|a l Ha _ IH]; intros uncertainties H; simpl.
  - exact H.
  - apply IH. apply adjust_one_sound; assumption.
Qed.

(** The uncertainty table before the adjustment, as eight insertions. *)
Lemma base_uncertainties_inserts (fused_data : FusedData.t)
    (raw_sensor_data : gmap string pyval) :
  UncertaintyModeler.base_uncertainties fused_data raw_sensor_data
  = <["tide" := Uncertainty.mk "tide" 0
                  (UncertaintyModeler.sensor_uncertainties "tide" "height")
                  (-0.2, 0.2) 0.8]>
    (<["current" := Uncertainty.mk "current" 0
                      (UncertaintyModeler.sensor_uncertainties "current" "speed")
                      (-1, 1) 0.6]>
    (<["wind" := Uncertainty.mk "wind" 0
                   (UncertaintyModeler.sensor_uncertainties "weather" "wind_speed")
                   (-4, 4) 0.7]>
    (<["targets" := UncertaintyModeler._calculate_target_uncertainty fused_data]>
    (<["heading" := UncertaintyModeler._calculate_heading_uncertainty
                      fused_data raw_sensor_data]>
    (<["course" := UncertaintyModeler._calculate_course_uncertainty
                     fused_data raw_sensor_data]>
    (<["speed" := UncertaintyModeler._calculate_speed_uncertainty
                    fused_data raw_sensor_data]>
    (<["position" := UncertaintyModeler._calculate_position_uncertainty
                       fused_data raw_sensor_data]> ∅))))))).
Proof.
  unfold UncertaintyModeler.base_uncertainties,
    UncertaintyModeler._calculate_environmental_uncertainty.
  rewrite <- !insert_union_l, map_empty_union. reflexivity.
Qed.

Lemma Rmin_1_0 : Rmin 1 (0 / 3) = 0.
Proof. rewrite Rmin_right; lra. Qed.

Lemma empty_snapshot_reliabilities (now : R) :
  Uncertainty.reliability
    (UncertaintyModeler._calculate_position_uncertainty (blank_fused_data 0 now) ∅)
  = 0
  /\ Uncertainty.reliability
       (UncertaintyModeler._calculate_speed_uncertainty (blank_fused_data 0 now) ∅)
     = 0.3
  /\ Uncertainty.reliability
       (UncertaintyModeler._calculate_course_uncertainty (blank_fused_data 0 now) ∅)
     = 0.3
  /\ Uncertainty.reliability
       (UncertaintyModeler._calculate_heading_uncertainty (blank_fused_data 0 now) ∅)
     = 0.3
  /\ Uncertainty.reliability
       (UncertaintyModeler._calculate_target_uncertainty (blank_fused_data 0 now))
     = 1.
Proof.
  unfold UncertaintyModeler._calculate_position_uncertainty,
    UncertaintyModeler._calculate_speed_uncertainty,
    UncertaintyModeler._calculate_course_uncertainty,
    UncertaintyModeler._calculate_heading_uncertainty,
    UncertaintyModeler._calculate_target_uncertainty,
    UncertaintyModeler.position_measurements,
    UncertaintyModeler.parameter_measurements.
  cbn [flat_map]. rewrite !present_empty. cbn.
  rewrite Rmin_1_0. repeat split; lra.
Qed.

Ltac fresh_key :=
  rewrite ?lookup_insert_ne by discriminate; apply lookup_empty.

Lemma reliability_sum_base_empty (now : R) :
  reliability_sum (UncertaintyModeler.base_uncertainties (blank_fused_data 0 now) ∅)
  = 4.
Proof.
  rewrite base_uncertainties_inserts.
  rewrite !reliability_sum_insert by fresh_key.
  rewrite reliability_sum_empty.
  destruct (empty_snapshot_reliabilities now) as (-> & -> & -> & -> & ->).
  simpl. lra.
Qed.

Lemma size_base_uncertainties (fused_data : FusedData.t)
    (raw_sensor_data : gmap string pyval) :
  size (UncertaintyModeler.base_uncertainties fused_data raw_sensor_data) = 8%nat.
Proof.
  rewrite base_uncertainties_inserts.
  rewrite !map_size_insert_None by fresh_key.
  rewrite map_size_empty. reflexivity.
Qed.

Lemma base_uncertainties_empty_sound (now : R) :
  reliabilities_sound
    (UncertaintyModeler.base_uncertainties (blank_fused_data 0 now) ∅).
Proof.
  rewrite base_uncertainties_inserts.
  destruct (empty_snapshot_reliabilities now) as (Hp & Hs & Hc & Hh & Ht).
  split.
  - repeat (apply map_Forall_insert_2;
              [cbv beta; rewrite ?Hp, ?Hs, ?Hc, ?Hh, ?Ht; simpl; lra|]).
    apply map_Forall_empty.
  - eexists. split.
    + rewrite !(lookup_insert_ne _ _ "targets") by discriminate.
      apply lookup_insert_eq.
    + rewrite Ht. lra.
Qed.

(** The three degradation anomalies of a snapshot without GPS, AIS and
    radar. *)
Lemma degradation_anomalies_kept (now : R) (before : list Anomaly.t) :
  Forall (fun a => Anomaly.anomaly_type a <> SENSOR_DEGRADATION) before ->
  filter (fun a => Anomaly.anomaly_type a = SENSOR_DEGRADATION)
    (before ++
     [Anomaly.mk "sensor_deg_" SENSOR_DEGRADATION 0.8 ["gps"] now None;
      Anomaly.mk "sensor_deg_" SENSOR_DEGRADATION 0.8 ["ais"] now None;
      Anomaly.mk "sensor_deg_" SENSOR_DEGRADATION 0.8 ["radar"] now None])
  = [Anomaly.mk "sensor_deg_" SENSOR_DEGRADATION 0.8 ["gps"] now None;
     Anomaly.mk "sensor_deg_" SENSOR_DEGRADATION 0.8 ["ais"] now None;
     Anomaly.mk "sensor_deg_" SENSOR_DEGRADATION 0.8 ["radar"] now None].
Proof.
  induction 1 as [|a l Ha _ IH]; simpl.
  - reflexivity.
  - rewrite filter_cons. case_decide; [contradiction | exact IH].
Qed.

(** One batch on the empty snapshot, step by step. *)
Lemma process_empty_snapshot (fromisoformat : string -> option R)
    (self : SituationAwarenessLayer.t) (now finished : R) :
  let out :=
    fst (SituationAwarenessLayer.process_sensor_data
           fromisoformat self ∅ now finished) in
  let fused := blank_fused_data 0 now in
  let history :=
    AnomalyDetector._update_history
      (SituationAwarenessLayer.anomaly_detector self)
      (FusedData.vessel_state fused) now in
  let anomalies :=
    AnomalyDetector._detect_trajectory_deviation
      history (FusedData.vessel_state fused) now
    ++ AnomalyDetector._detect_speed_anomaly
         history (FusedData.vessel_state fused) now
    ++ [Anomaly.mk "sensor_deg_" SENSOR_DEGRADATION 0.8 ["gps"] now None;
        Anomaly.mk "sensor_deg_" SENSOR_DEGRADATION 0.8 ["ais"] now None;
        Anomaly.mk "sensor_deg_" SENSOR_DEGRADATION 0.8 ["radar"] now None] in
  let uncertainties :=
    UncertaintyModeler._adjust_for_anomalies
      (UncertaintyModeler.base_uncertainties fused ∅) anomalies in
  SituationAwarenessOutput.fused_data out = fused
  /\ SituationAwarenessOutput.spoofing_alerts out = []
  /\ SituationAwarenessOutput.anomalies out = anomalies
  /\ SituationAwarenessOutput.uncertainties out = uncertainties
  /\ SituationAwarenessOutput.overall_confidence out
     = SituationAwarenessLayer._calculate_overall_confidence
         fused uncertainties anomalies [].
Proof.
  cbv zeta. unfold SituationAwarenessLayer.process_sensor_data.
  pose proof (fuse_empty (SituationAwarenessLayer.sensor_fusion self) now) as Hf.
  destruct (SensorFusionEngine.fuse _ ∅ now) as [fused_data sensor_fusion'].
  simpl in Hf. subst fused_data.
  rewrite spoofing_detect_empty.
  pose proof (anomaly_detect_empty
                (SituationAwarenessLayer.anomaly_detector self) now) as Ha.
  cbv zeta in Ha. rewrite Ha. cbn [fst snd].
  cbn [SituationAwarenessOutput.fused_data
       SituationAwarenessOutput.spoofing_alerts
       SituationAwarenessOutput.anomalies
       SituationAwarenessOutput.uncertainties
       SituationAwarenessOutput.overall_confidence].
  assert (Hcalc : forall anomalies,
    anomalies <> [] ->
    UncertaintyModeler.calculate (blank_fused_data 0 now) ∅ anomalies
    = UncertaintyModeler._adjust_for_anomalies
        (UncertaintyModeler.base_uncertainties (blank_fused_data 0 now) ∅)
        anomalies).
  { intros [|a l] Hne; [congruence | reflexivity]. }
  rewrite Hcalc.
  - repeat split; reflexivity.
  - intros H. apply (f_equal (@length _)) in H.
    rewrite !length_app in H. simpl in H. lia.
Qed.

Lemma empty_snapshot_anomalies_range (history : AnomalyDetector.t)
    (vessel_state : VesselState.t) (now : R) :
  let before :=
    AnomalyDetector._detect_trajectory_deviation history vessel_state now
    ++ AnomalyDetector._detect_speed_anomaly history vessel_state now in
  Forall (fun a => Anomaly.anomaly_type a <> SENSOR_DEGRADATION) before
  /\ Forall (fun a => 0 <= Anomaly.severity a <= 1)
       (before ++
        [Anomaly.mk "sensor_deg_" SENSOR_DEGRADATION 0.8 ["gps"] now None;
         Anomaly.mk "sensor_deg_" SENSOR_DEGRADATION 0.8 ["ais"] now None;
         Anomaly.mk "sensor_deg_" SENSOR_DEGRADATION 0.8 ["radar"] now None]).
Proof.
  cbv zeta.
  pose proof (trajectory_anomalies_range history vessel_state now) as Ht.
  pose proof (speed_anomalies_range history vessel_state now) as Hs.
  split.
  - apply Forall_app_2.
    + eapply Forall_impl; [exact Ht|]. simpl. intros a [-> _]. discriminate.
    + eapply Forall_impl; [exact Hs|]. simpl. intros a [-> _]. discriminate.
  - repeat apply Forall_app_2.
    + eapply Forall_impl; [exact Ht|]. simpl. tauto.
    + eapply Forall_impl; [exact Hs|]. simpl. tauto.
    + repeat (constructor; [simpl; lra|]). constructor.
Qed.

Lemma clamp_pos (x : R) : 0 < x -> 0 < Rmax 0 (Rmin 1 x).
Proof.
  intros Hx. eapply Rlt_le_trans; [|apply Rmax_r].
  apply Rmin_glb_lt; lra.
Qed.

(** With no fusion confidence the overall confidence is half the mean
    reliability, which is positive. *)
Lemma overall_confidence_without_fusion (fused_data : FusedData.t)
    (uncertainties : gmap string Uncertainty.t) (anomalies : list Anomaly.t) :
  FusedData.fusion_confidence fused_data = 0 ->
  reliabilities_sound uncertainties ->
  SituationAwarenessLayer._calculate_overall_confidence
    fused_data uncertainties anomalies []
  = Rmax 0 (Rmin 1 (reliability_sum uncertainties
                    / INR (size uncertainties) / 2))
  /\ 0 < SituationAwarenessLayer._calculate_overall_confidence
           fused_data uncertainties anomalies [] <= 1.
Proof.
  intros Hc Hsound.
  pose proof (sound_size _ Hsound) as Hsize.
  pose proof (reliability_sum_pos _ Hsound) as Hsum.
  assert (Heq : SituationAwarenessLayer._calculate_overall_confidence
                  fused_data uncertainties anomalies []
                = Rmax 0 (Rmin 1 (reliability_sum uncertainties
                                  / INR (size uncertainties) / 2))).
  { rewrite overall_confidence_unfold. cbv zeta. rewrite Hc.
    case_decide; [contradiction|].
    fold (reliability_sum uncertainties). do 2 f_equal.
    destruct anomalies; lra. }
  split; [exact Heq|]. rewrite Heq. split; [|apply clamp_range].
  apply clamp_pos.
  assert (0 < INR (size uncertainties)) by (apply lt_0_INR; lia).
  apply Rdiv_lt_0_compat; [|lra].
  apply Rdiv_lt_0_compat; assumption.
Qed.

Lemma empty_snapshot_general (fromisoformat : string -> option R)
    (self : SituationAwarenessLayer.t) (now finished : R) :
  let out :=
    fst (SituationAwarenessLayer.process_sensor_data
           fromisoformat self ∅ now finished) in
  let fused := SituationAwarenessOutput.fused_data out in
  FusedData.fusion_confidence fused = 0
  /\ VesselState.position (FusedData.vessel_state fused) = Position.mk 0 0 None
  /\ FusedData.targets fused = []
  /\ filter (fun a => Anomaly.anomaly_type a = SENSOR_DEGRADATION)
       (SituationAwarenessOutput.anomalies out)
     = [Anomaly.mk "sensor_deg_" SENSOR_DEGRADATION 0.8 ["gps"] now None;
        Anomaly.mk "sensor_deg_" SENSOR_DEGRADATION 0.8 ["ais"] now None;
        Anomaly.mk "sensor_deg_" SENSOR_DEGRADATION 0.8 ["radar"] now None]
  /\ FusedData.fusion_confidence fused
     < SituationAwarenessOutput.overall_confidence out <= 1.
Proof.
  cbv zeta.
  destruct (process_empty_snapshot fromisoformat self now finished)
    as (Hf & _ & Ha & _ & Ho).
  cbv zeta in Ha, Ho.
  rewrite Hf, Ha, Ho.
  set (history := AnomalyDetector._update_history _ _ now).
  destruct (empty_snapshot_anomalies_range history
              (FusedData.vessel_state (blank_fused_data 0 now)) now)
    as [Hkind Hrange].
  cbv zeta in Hkind, Hrange.
  split; [reflexivity|]. split; [reflexivity|]. split; [reflexivity|].
  split.
  - rewrite app_assoc. apply degradation_anomalies_kept. exact Hkind.
  - rewrite app_assoc.
    apply (overall_confidence_without_fusion (blank_fused_data 0 now)).
    + reflexivity.
    + apply adjust_for_anomalies_sound; [exact Hrange|].
      apply base_uncertainties_empty_sound.
Qed.

Lemma empty_snapshot_initial (fromisoformat : string -> option R)
    (now finished : R) :
  SituationAwarenessOutput.overall_confidence
    (fst (SituationAwarenessLayer.process_sensor_data
            fromisoformat SituationAwarenessLayer.init ∅ now finished))
  = 0.148176.
Proof.
  destruct (process_empty_snapshot fromisoformat SituationAwarenessLayer.init
              now finished) as (_ & _ & _ & _ & Ho).
  cbv zeta in Ho. rewrite Ho. clear Ho.
  set (base := UncertaintyModeler.base_uncertainties (blank_fused_data 0 now) ∅).
  assert (Hadj :
    UncertaintyModeler._adjust_for_anomalies base
      (AnomalyDetector._detect_trajectory_deviation
         (AnomalyDetector._update_history
            (SituationAwarenessLayer.anomaly_detector SituationAwarenessLayer.init)
            (FusedData.vessel_state (blank_fused_data 0 now)) now)
         (FusedData.vessel_state (blank_fused_data 0 now)) now
       ++ AnomalyDetector._detect_speed_anomaly
            (AnomalyDetector._update_history
               (SituationAwarenessLayer.anomaly_detector SituationAwarenessLayer.init)
               (FusedData.vessel_state (blank_fused_data 0 now)) now)
            (FusedData.vessel_state (blank_fused_data 0 now)) now
       ++ [Anomaly.mk "sensor_deg_" SENSOR_DEGRADATION 0.8 ["gps"] now None;
           Anomaly.mk "sensor_deg_" SENSOR_DEGRADATION 0.8 ["ais"] now None;
           Anomaly.mk "sensor_deg_" SENSOR_DEGRADATION 0.8 ["radar"] now None])
    = UncertaintyModeler.degrade 0.8 <$>
        (UncertaintyModeler.degrade 0.8 <$>
           (UncertaintyModeler.degrade 0.8 <$> base))).
  { reflexivity. }
  rewrite Hadj.
  assert (Hsound : reliabilities_sound
            (UncertaintyModeler.degrade 0.8 <$>
               (UncertaintyModeler.degrade 0.8 <$>
                  (UncertaintyModeler.degrade 0.8 <$> base)))).
  { repeat (apply degrade_sound; [lra|]).
    apply base_uncertainties_empty_sound. }
  destruct (overall_confidence_without_fusion (blank_fused_data 0 now) _
              (AnomalyDetector._detect_trajectory_deviation
                 (AnomalyDetector._update_history
                    (SituationAwarenessLayer.anomaly_detector
                       SituationAwarenessLayer.init)
                    (FusedData.vessel_state (blank_fused_data 0 now)) now)
                 (FusedData.vessel_state (blank_fused_data 0 now)) now
               ++ AnomalyDetector._detect_speed_anomaly
                    (AnomalyDetector._update_history
                       (SituationAwarenessLayer.anomaly_detector
                          SituationAwarenessLayer.init)
                       (FusedData.vessel_state (blank_fused_data 0 now)) now)
                    (FusedData.vessel_state (blank_fused_data 0 now)) now
               ++ [Anomaly.mk "sensor_deg_" SENSOR_DEGRADATION 0.8 ["gps"] now None;
                   Anomaly.mk "sensor_deg_" SENSOR_DEGRADATION 0.8 ["ais"] now None;
                   Anomaly.mk "sensor_deg_" SENSOR_DEGRADATION 0.8 ["radar"] now None])
              eq_refl Hsound) as [-> _].
  rewrite !reliability_sum_degrade, !map_size_fmap.
  subst base. rewrite reliability_sum_base_empty, size_base_uncertainties.
  replace (INR 8) with 8 by (simpl; lra).
  replace ((1 - 0.8 * 0.2) * ((1 - 0.8 * 0.2) * ((1 - 0.8 * 0.2) * 4)) / 8 / 2)
    with 0.148176 by lra.
  rewrite Rmin_right by lra. apply Rmax_right. lra.
Qed.

(** C2, as the code has it.  Processing an empty raw snapshot gives fusion
    confidence 0, the fused position (0, 0), no targets, and exactly one
    sensor-degradation anomaly of severity 0.8 for each of gps, ais and radar.
    The overall confidence is not bounded by the fusion confidence: it is half
    the mean reliability of the parameters, hence strictly above the fusion
    confidence 0 (and at most 1); on a freshly initialised system it is
    0.148176. *)
Theorem empty_snapshot_assessment :
  (forall (fromisoformat : string -> option R)
          (self : SituationAwarenessLayer.t) (now finished : R),
     let out :=
       fst (SituationAwarenessLayer.process_sensor_data
              fromisoformat self ∅ now finished) in
     let fused := SituationAwarenessOutput.fused_data out in
     FusedData.fusion_confidence fused = 0
     /\ VesselState.position (FusedData.vessel_state fused) = Position.mk 0 0 None
     /\ FusedData.targets fused = []
     /\ filter (fun a => Anomaly.anomaly_type a = SENSOR_DEGRADATION)
          (SituationAwarenessOutput.anomalies out)
        = [Anomaly.mk "sensor_deg_" SENSOR_DEGRADATION 0.8 ["gps"] now None;
           Anomaly.mk "sensor_deg_" SENSOR_DEGRADATION 0.8 ["ais"] now None;
           Anomaly.mk "sensor_deg_" SENSOR_DEGRADATION 0.8 ["radar"] now None]
     /\ FusedData.fusion_confidence fused
        < SituationAwarenessOutput.overall_confidence out <= 1)
  /\ (forall (fromisoformat : string -> option R) (now finished : R),
        SituationAwarenessOutput.overall_confidence
          (fst (SituationAwarenessLayer.process_sensor_data
                  fromisoformat SituationAwarenessLayer.init ∅ now finished))
        = 0.148176).
Proof.
  split.
  - apply empty_snapshot_general.
  - apply empty_snapshot_initial.
Qed.

(** The claim as the specification words it fails on the code: on a freshly
    initialised system the empty snapshot has overall confidence 0.148176,
    above its fusion confidence 0. *)
Lemma empty_snapshot_counterexample :
  let out :=
    fst (SituationAwarenessLayer.process_sensor_data
           (fun _ => None) SituationAwarenessLayer.init ∅ 0 0) in
  let fused := SituationAwarenessOutput.fused_data out in
  ~ (FusedData.fusion_confidence fused = 0
     /\ VesselState.position (FusedData.vessel_state fused) = Position.mk 0 0 None
     /\ FusedData.targets fused = []
     /\ (3 <= length (filter (fun a => Anomaly.anomaly_type a = SENSOR_DEGRADATION)
                        (SituationAwarenessOutput.anomalies out)))%nat
     /\ SituationAwarenessOutput.overall_confidence out
        <= FusedData.fusion_confidence fused).
Proof.
  cbv zeta. intros (Hc & _ & _ & _ & Hle).
  rewrite Hc, (empty_snapshot_initial (fun _ => None) 0 0) in Hle. lra.
Qed.

(** ** The theorems at concrete inputs *)



Lemma histories_bounded_witness :
  let self' :=
    snd (AnomalyDetector.detect AnomalyDetector.init (blank_fused_data 0 0) ∅ 0) in
  (length (AnomalyDetector.speed_history self') <= 30)%nat
  /\ (length (SpoofingDetector.spoofing_incidents
                (snd (SpoofingDetector.detect (fun _ => None)
                        SpoofingDetector.init ∅ (blank_fused_data 0 0) 0)))
      <= 100)%nat.
Proof.
  cbv zeta. destruct histories_bounded as (Hanom & Hspoof & _).
  split.
  - apply (Hanom AnomalyDetector.init (blank_fused_data 0 0) ∅ 0).
    simpl. lia.
  - apply (Hspoof (fun _ => None) SpoofingDetector.init ∅ (blank_fused_data 0 0) 0).
    simpl. lia.
Defined.

Lemma position_std_deviation_not_inflated_witness :
  let base := UncertaintyModeler.base_uncertainties (blank_fused_data 0 0) ∅ in
  let anomalies :=
    [Anomaly.mk "sensor_deg_" SENSOR_DEGRADATION 0.8 ["gps"] 0 None;
     Anomaly.mk "speed_anom_" SPEED_ANOMALY 0.5 ["gps"; "engine"] 0 None] in
  (exists u',
     UncertaintyModeler._adjust_for_anomalies base anomalies !! "position"
     = Some u'
     /\ Uncertainty.std_deviation u'
        = Uncertainty.std_deviation
            (UncertaintyModeler._calculate_position_uncertainty
               (blank_fused_data 0 0) ∅)
     /\ Uncertainty.reliability u'
        = Uncertainty.reliability
            (UncertaintyModeler._calculate_position_uncertainty
               (blank_fused_data 0 0) ∅)
          * sensor_reliability_factor anomalies)
  /\ 0 < sensor_reliability_factor anomalies <= 1.
Proof.
  cbv zeta.
  destruct position_std_deviation_not_inflated as (_ & _ & Hadjust & Hrange).
  split.
  - apply Hadjust. apply base_uncertainties_position.
  - apply Hrange.
    constructor; [simpl; lra|]. constructor; [simpl; lra | constructor].
Defined.

(** * Further properties of the code *)

(** ** Great-circle distance *)


Lemma haversine_self (lat lon : R) : _haversine_distance lat lon lat lon = 0.
Proof.
  unfold _haversine_distance. cbv zeta.
  replace (lat - lat) with 0 by lra. replace (lon - lon) with 0 by lra.
  replace (radians 0 / 2) with 0 by (unfold radians; lra).
  rewrite sin_0.
  replace (0 ^ 2 + cos (radians lat) * cos (radians lat) * 0 ^ 2) with 0 by ring.
  rewrite sqrt_0. replace (1 - 0) with 1 by lra. rewrite sqrt_1.
  rewrite atan2_zero_pos by lra. ring.
Qed.


(** X2. The distance is symmetric in its two points, and a point is at
    distance 0 from itself. *)
Theorem haversine_distance_symmetric (lat1 lon1 lat2 lon2 : R) :
  _haversine_distance lat1 lon1 lat2 lon2 = _haversine_distance lat2 lon2 lat1 lon1
  /\ _haversine_distance lat1 lon1 lat1 lon1 = 0.
Proof.
  split; [|apply haversine_self].
  unfold _haversine_distance. cbv zeta.
  assert (Hsq : forall x y, sin (radians (x - y) / 2) ^ 2
                            = sin (radians (y - x) / 2) ^ 2).
  { intros x y.
    replace (radians (x - y) / 2) with (- (radians (y - x) / 2))
      by (unfold radians; lra).
    rewrite sin_neg. ring. }
  rewrite (Hsq lat2 lat1), (Hsq lon2 lon1).
  rewrite (Rmult_comm (cos (radians lat1)) (cos (radians lat2))).
  reflexivity.
Qed.

(** ** Weighted fusion *)



Lemma fuse_vessel_state_fields (self : SensorFusionEngine.t)
    (sensor_data : gmap string pyval) (now : R) :
  let vessel_state :=
    fst (SensorFusionEngine._fuse_vessel_state self sensor_data now) in
  let fused_position :=
    SensorFusionEngine._weighted_position_fusion
      (position_candidates self sensor_data now) in
  let fused_course :=
    SensorFusionEngine._weighted_angle_fusion (course_candidates sensor_data) 0 in
  VesselState.position vessel_state
  = Position.mk (fst fused_position) (snd fused_position) None
  /\ VesselState.speed vessel_state
     = SensorFusionEngine._weighted_value_fusion (speed_candidates sensor_data) 0
  /\ VesselState.course vessel_state = fused_course
  /\ VesselState.heading vessel_state
     = SensorFusionEngine._weighted_angle_fusion
         (heading_candidates sensor_data) fused_course
  /\ VesselState.timestamp vessel_state = now
  /\ snd (SensorFusionEngine._fuse_vessel_state self sensor_data now)
     = SensorFusionEngine._update_position_history self now
         (fst fused_position) (snd fused_position).
Proof.
  cbv zeta.
  unfold SensorFusionEngine._fuse_vessel_state, position_candidates,
    speed_candidates, course_candidates, heading_candidates.
  destruct (present sensor_data "gps") as [gps|];
    destruct (present sensor_data "ais") as [ais|];
    destruct (present sensor_data "radar") as [radar|];
    try destruct (fields radar !! "own_ship") as [own|];
    rewrite ?app_nil_r; cbn [app];
    match goal with
    | |- context [SensorFusionEngine._weighted_position_fusion ?l] =>
        destruct (SensorFusionEngine._weighted_position_fusion l)
          as [fused_lat fused_lon]
    end;
    repeat split; reflexivity.
Qed.



Lemma sensor_weight_radar : SensorFusionEngine.sensor_weight "radar" = 0.80.
Proof. reflexivity. Qed.






Lemma ratio_bounds (s w lo hi : R) :
  0 < w -> lo * w <= s <= hi * w -> lo <= s / w <= hi.
Proof.
  intros Hw [Hlo Hhi]. split.
  - apply (Rmult_le_reg_r w); [exact Hw|].
    unfold Rdiv. rewrite Rmult_assoc, Rinv_l by lra. lra.
  - apply (Rmult_le_reg_r w); [exact Hw|].
    unfold Rdiv. rewrite Rmult_assoc, Rinv_l by lra. lra.
Qed.



(** ** Quality scores and fusion confidence *)

Lemma quality_of_range (data : pyval) (q : R) :
  SensorFusionEngine.quality_of data = Some q -> 0 <= q <= 1.
Proof.
  destruct data; simpl; intros H; try discriminate; injection H as <-;
    try lra.
  split; [|apply Rmin_l].
  apply Rmin_glb; [lra|].
  apply Rmult_le_pos; [apply pos_INR | lra].
Qed.

Lemma sensor_weights_positive (sensor : string) :
  0 < default 0.5 (SensorFusionEngine.sensor_weights sensor).
Proof.
  unfold SensorFusionEngine.sensor_weights.
  repeat case_decide; simpl; lra.
Qed.

Lemma fusion_confidence_fold (items : list (string * R)) (ws tw : R) :
  Forall (fun kv => 0 <= snd kv <= 1) items ->
  0 <= ws <= tw ->
  let '(weighted_sum, total_weight) :=
    fold_left
      (fun '(weighted_sum, total_weight) '(sensor, quality) =>
         let weight := default 0.5 (SensorFusionEngine.sensor_weights sensor) in
         (weighted_sum + quality * weight, total_weight + weight))
      items (ws, tw) in
  0 <= weighted_sum <= total_weight.
Proof.
  intros Hall. revert ws tw.
  induction Hall as [|[sensor q] l Hq _ IH]; intros ws tw Hacc; simpl.
  - exact Hacc.
  - apply IH. pose proof (sensor_weights_positive sensor). simpl in Hq. nra.
Qed.

Lemma quality_scores_range (sensor_data : gmap string pyval) :
  map_Forall (fun _ q => 0 <= q <= 1)
             (SensorFusionEngine._calculate_quality_scores sensor_data).
Proof.
  intros k q Hk. unfold SensorFusionEngine._calculate_quality_scores in Hk.
  rewrite lookup_omap in Hk.
  destruct (sensor_data !! k) as [v|]; [|discriminate].
  apply (quality_of_range v), Hk.
Qed.

Lemma fusion_confidence_of_scores (quality_scores : gmap string R) :
  map_Forall (fun _ q => 0 <= q <= 1) quality_scores ->
  0 <= SensorFusionEngine._calculate_fusion_confidence quality_scores <= 1.
Proof.
  intros Hq. unfold SensorFusionEngine._calculate_fusion_confidence.
  case_decide; [lra|].
  apply map_Forall_to_list in Hq.
  assert (Hitems : Forall (fun kv : string * R => 0 <= snd kv <= 1)
                          (map_to_list quality_scores)).
  { eapply Forall_impl; [exact Hq|]. intros [k q]. simpl. tauto. }
  pose proof (fusion_confidence_fold _ 0 0 Hitems ltac:(lra)) as Hfold.
  destruct (fold_left _ _ (0, 0)) as [weighted_sum total_weight].
  case_decide; [lra|].
  apply ratio_bounds; lra.
Qed.

(** X5. For every snapshot each quality score lies in [0, 1], and so does the
    fusion confidence, the weighted average of the scores. *)
Theorem fusion_confidence_range (self : SensorFusionEngine.t)
    (sensor_data : gmap string pyval) (now : R) :
  let fused_data := fst (SensorFusionEngine.fuse self sensor_data now) in
  map_Forall (fun _ q => 0 <= q <= 1) (FusedData.quality_scores fused_data)
  /\ 0 <= FusedData.fusion_confidence fused_data <= 1.
Proof.
  cbv zeta. unfold SensorFusionEngine.fuse.
  destruct (SensorFusionEngine._fuse_vessel_state self sensor_data now)
    as [vessel_state self'].
  cbn [fst FusedData.quality_scores FusedData.fusion_confidence].
  pose proof (quality_scores_range sensor_data) as Hq.
  split; [exact Hq|].
  apply fusion_confidence_of_scores, Hq.
Qed.


(** ** The engine's position history *)

Lemma last_append_capped {A} (cap : nat) (l : list A) (x : A) :
  (0 < cap)%nat -> last (append_capped cap l x) = Some x.
Proof.
  intros Hcap. unfold append_capped. cbv zeta.
  case_decide as Hc; [|apply last_snoc].
  destruct l as [|y l]; simpl in *; [lia|].
  apply last_snoc.
Qed.

(** X6. Every call of [fuse] records the fused position, with the time of the
    call, as the newest entry of the position history, dropping the oldest
    entry beyond 50; so the history never exceeds 50 entries after any number
    of calls on a fresh engine. *)
Theorem fusion_position_history :
  (forall (self : SensorFusionEngine.t) (sensor_data : gmap string pyval)
          (now : R),
     let '(fused_data, self') := SensorFusionEngine.fuse self sensor_data now in
     let position := VesselState.position (FusedData.vessel_state fused_data) in
     SensorFusionEngine.position_history self'
     = append_capped 50 (SensorFusionEngine.position_history self)
         (Position.latitude position, Position.longitude position, now)
     /\ last (SensorFusionEngine.position_history self')
        = Some (Position.latitude position, Position.longitude position, now))
  /\ (forall calls : list (gmap string pyval * R),
        (length (SensorFusionEngine.position_history
                   (fold_left (fun self '(sensor_data, now) =>
                                 snd (SensorFusionEngine.fuse self sensor_data now))
                              calls SensorFusionEngine.init)) <= 50)%nat).
Proof.
  assert (Hstep : forall self sensor_data now,
    let '(fused_data, self') := SensorFusionEngine.fuse self sensor_data now in
    let position := VesselState.position (FusedData.vessel_state fused_data) in
    SensorFusionEngine.position_history self'
    = append_capped 50 (SensorFusionEngine.position_history self)
        (Position.latitude position, Position.longitude position, now)).
  { intros self sensor_data now. unfold SensorFusionEngine.fuse.
    destruct (fuse_vessel_state_fields self sensor_data now)
      as (Hpos & _ & _ & _ & _ & Hself).
    destruct (SensorFusionEngine._fuse_vessel_state self sensor_data now)
      as [vessel_state self'].
    cbn [fst snd] in *. cbn [FusedData.vessel_state].
    rewrite Hpos, Hself. reflexivity. }
  split.
  - intros self sensor_data now. specialize (Hstep self sensor_data now).
    destruct (SensorFusionEngine.fuse self sensor_data now) as [fused_data self'].
    cbv zeta in *. split; [exact Hstep|].
    rewrite Hstep. apply last_append_capped. lia.
  - intros calls.
    assert (Hgen : forall self0,
      (length (SensorFusionEngine.position_history self0) <= 50)%nat ->
      (length (SensorFusionEngine.position_history
                 (fold_left (fun self '(sensor_data, now) =>
                               snd (SensorFusionEngine.fuse self sensor_data now))
                            calls self0)) <= 50)%nat).
    { induction calls as [|[sensor_data now] calls IH]; intros self0 H0;
        [exact H0|].
      simpl. apply IH. specialize (Hstep self0 sensor_data now).
      destruct (SensorFusionEngine.fuse self0 sensor_data now)
        as [fused_data self']. cbv zeta in Hstep. simpl. rewrite Hstep.
      apply append_capped_length, H0. }
    apply Hgen. simpl. lia.
Qed.



(** ** Target fusion *)

Lemma dict_set_keys {V} (k : pykey) (v : V) (d : list (pykey * V)) (x : pykey) :
  In x (map fst (SensorFusionEngine.dict_set k v d)) ->
  x = k \/ In x (map fst d).
Proof.
  induction d as [|[k' v'] d IH]; simpl.
  - intros [<- | []]. left. reflexivity.
  - case_decide; simpl.
    + intros [<- | Hin]; right; [left; reflexivity | right; exact Hin].
    + intros [<- | Hin]; [right; left; reflexivity|].
      destruct (IH Hin) as [-> | Hd]; [left; reflexivity | right; right; exact Hd].
Qed.

Lemma dict_set_NoDup {V} (k : pykey) (v : V) (d : list (pykey * V)) :
  List.NoDup (map fst d) ->
  List.NoDup (map fst (SensorFusionEngine.dict_set k v d)).
Proof.
  induction d as [|[k' v'] d IH]; simpl; intros Hnd.
  - constructor; [intros [] | constructor].
  - inversion Hnd as [|? ? Hnotin Hnd']; subst.
    case_decide; simpl.
    + constructor; assumption.
    + constructor; [|apply IH, Hnd'].
      intros Hin. apply dict_set_keys in Hin as [-> | Hin]; [congruence|].
      exact (Hnotin Hin).
Qed.

Lemma dict_set_length {V} (k : pykey) (v : V) (d : list (pykey * V)) :
  (length (SensorFusionEngine.dict_set k v d) <= S (length d))%nat.
Proof.
  induction d as [|[k' v'] d IH]; simpl; [lia|].
  case_decide; simpl; lia.
Qed.

Lemma set_radar_data_keys (k : pykey) (r : gmap string pyval)
    (d : list (pykey * SensorFusionEngine.target_info)) :
  map fst (SensorFusionEngine.set_radar_data k r d) = map fst d.
Proof.
  induction d as [|[k' i] d IH]; simpl; [reflexivity|].
  case_decide; simpl; [reflexivity | rewrite IH; reflexivity].
Qed.

Lemma fold_left_table {A} (f : list (pykey * SensorFusionEngine.target_info) ->
                               A -> list (pykey * SensorFusionEngine.target_info))
    (items : list A) (d : list (pykey * SensorFusionEngine.target_info)) :
  (forall d x, List.NoDup (map fst d) -> List.NoDup (map fst (f d x))) ->
  (forall d x, (length (f d x) <= S (length d))%nat) ->
  List.NoDup (map fst d) ->
  List.NoDup (map fst (fold_left f items d))
  /\ (length (fold_left f items d) <= length d + length items)%nat.
Proof.
  intros Hnd Hlen. revert d.
  induction items as [|x items IH]; intros d Hd; simpl.
  - split; [exact Hd | lia].
  - destruct (IH (f d x) (Hnd d x Hd)) as [H1 H2].
    split; [exact H1|]. pose proof (Hlen d x). lia.
Qed.

(** X8. The fused targets have pairwise distinct identifiers: each key of the
    working table yields one target.  There are at most as many targets as
    the AIS and the radar report together (a radar target that correlates
    with an AIS target, and an AIS target that repeats an identity, adds
    none). *)
Theorem fuse_targets_distinct (sensor_data : gmap string pyval) :
  List.NoDup (map Target.target_id (SensorFusionEngine._fuse_targets sensor_data))
  /\ (length (SensorFusionEngine._fuse_targets sensor_data)
      <= length (SensorFusionEngine.reported_targets sensor_data "ais")
         + length (SensorFusionEngine.reported_targets sensor_data "radar"))%nat.
Proof.
  unfold SensorFusionEngine._fuse_targets. cbv zeta.
  match goal with
  | |- context [fold_left ?fr (SensorFusionEngine.reported_targets sensor_data "radar")
                  (fold_left ?fa _ [])] =>
      set (f_radar := fr); set (f_ais := fa)
  end.
  destruct (fold_left_table f_ais
              (SensorFusionEngine.reported_targets sensor_data "ais") [])
    as [Hnd1 Hlen1].
  { intros d x. apply dict_set_NoDup. }
  { intros d x. apply dict_set_length. }
  { constructor. }
  destruct (fold_left_table f_radar
              (SensorFusionEngine.reported_targets sensor_data "radar")
              (fold_left f_ais
                 (SensorFusionEngine.reported_targets sensor_data "ais") []))
    as [Hnd2 Hlen2].
  { intros d x Hd. subst f_radar. cbv beta.
    destruct (SensorFusionEngine._correlate_target _ d) as [target_id|];
      [destruct (key_truthy target_id)|];
      try (apply dict_set_NoDup, Hd).
    rewrite set_radar_data_keys. exact Hd. }
  { intros d x. subst f_radar. cbv beta.
    destruct (SensorFusionEngine._correlate_target _ d) as [target_id|];
      [destruct (key_truthy target_id)|];
      try apply dict_set_length.
    pose proof (f_equal (@length _) (set_radar_data_keys target_id (fields x) d))
      as Hl.
    rewrite !length_map in Hl. lia. }
  { exact Hnd1. }
  split.
  - rewrite map_map.
    erewrite map_ext; [exact Hnd2|].
    intros [target_id target_info]. reflexivity.
  - rewrite length_map. simpl in Hlen1. lia.
Qed.

(** ** Anomaly detection *)

Lemma Rmin_1_pos (x : R) : 0 < x -> 0 < Rmin 1 x <= 1.
Proof. intros Hx. split; [apply Rmin_glb_lt; lra | apply Rmin_l]. Qed.

(** What each check can return: its kind and the range of its severity. *)
Lemma trajectory_anomalies_kind (self : AnomalyDetector.t)
    (vessel_state : VesselState.t) (now : R) :
  Forall (fun a => Anomaly.anomaly_type a = TRAJECTORY_DEVIATION
                   /\ 0 < Anomaly.severity a <= 1)
         (AnomalyDetector._detect_trajectory_deviation self vessel_state now).
Proof.
  unfold AnomalyDetector._detect_trajectory_deviation.
  case_decide; [constructor|].
  destruct (AnomalyDetector._predict_position self) as [expected_lat expected_lon].
  cbv zeta. case_decide as Hd; [|constructor].
  constructor; [|constructor]. simpl.
  split; [reflexivity | apply Rmin_1_pos; lra].
Qed.

Lemma speed_anomalies_kind (self : AnomalyDetector.t)
    (vessel_state : VesselState.t) (now : R) :
  Forall (fun a => Anomaly.anomaly_type a = SPEED_ANOMALY
                   /\ 0 < Anomaly.severity a <= 1)
         (AnomalyDetector._detect_speed_anomaly self vessel_state now).
Proof.
  unfold AnomalyDetector._detect_speed_anomaly.
  case_decide; [constructor|].
  cbv zeta. case_decide as Hd; [|constructor].
  constructor; [|constructor]. simpl.
  split; [reflexivity | apply Rmin_1_pos; lra].
Qed.

Lemma mismatch_anomalies_kind (raw_sensor_data : gmap string pyval) (now : R) :
  Forall (fun a => Anomaly.anomaly_type a = SENSOR_MISMATCH
                   /\ 0 < Anomaly.severity a <= 1)
         (AnomalyDetector._detect_sensor_mismatch raw_sensor_data now).
Proof.
  unfold AnomalyDetector._detect_sensor_mismatch.
  destruct (raw_sensor_data !! "gps") as [g|]; [|constructor].
  destruct (raw_sensor_data !! "ais") as [a|]; [|constructor].
  destruct (_ && _); [|constructor].
  cbv zeta. case_decide as Hd; [|constructor].
  constructor; [|constructor]. simpl.
  split; [reflexivity | apply Rmin_1_pos; lra].
Qed.

Lemma collision_anomalies_kind (vessel_state : VesselState.t)
    (targets : list Target.t) (now : R) :
  Forall (fun a => Anomaly.anomaly_type a = COLLISION_RISK
                   /\ 0 < Anomaly.severity a)
         (AnomalyDetector._detect_collision_risk vessel_state targets now)
  /\ (Forall (fun t => 0 <= Target.cpa t) targets ->
      Forall (fun a => Anomaly.severity a <= 1)
             (AnomalyDetector._detect_collision_risk vessel_state targets now)).
Proof.
  unfold AnomalyDetector._detect_collision_risk,
    AnomalyDetector.collision_risk_distance, AnomalyDetector.collision_risk_tcpa.
  split.
  - induction targets as [|t targets IH]; simpl; [constructor|].
    apply Forall_app_2; [|exact IH].
    case_decide as Hc; [|constructor].
    constructor; [|constructor]. simpl. split; [reflexivity | lra].
  - induction 1 as [|t targets Ht _ IH]; simpl; [constructor|].
    apply Forall_app_2; [|exact IH].
    case_decide as Hc; [|constructor].
    constructor; [|constructor]. simpl. lra.
Qed.

Lemma maneuver_anomalies_kind (vessel_state : VesselState.t) (now : R) :
  Forall (fun a => Anomaly.anomaly_type a = SUDDEN_MANEUVER
                   /\ 0 < Anomaly.severity a <= 1)
         (AnomalyDetector._detect_sudden_maneuver vessel_state now).
Proof.
  unfold AnomalyDetector._detect_sudden_maneuver.
  case_decide as Hd; [|constructor].
  constructor; [|constructor]. simpl.
  split; [reflexivity | apply Rmin_1_pos; lra].
Qed.

Lemma degradation_anomalies_kind (raw_sensor_data : gmap string pyval) (now : R) :
  Forall (fun a => Anomaly.anomaly_type a = SENSOR_DEGRADATION
                   /\ Anomaly.severity a = 0.8)
         (AnomalyDetector._detect_sensor_degradation raw_sensor_data now).
Proof.
  unfold AnomalyDetector._detect_sensor_degradation,
    AnomalyDetector.critical_sensors. cbn [flat_map].
  repeat apply Forall_app_2; try constructor;
    destruct (present raw_sensor_data _); repeat constructor.
Qed.

(** The anomalies of one call, check by check. *)
Lemma anomaly_detect_parts (self : AnomalyDetector.t) (fused_data : FusedData.t)
    (raw_sensor_data : gmap string pyval) (now : R) :
  let vessel_state := FusedData.vessel_state fused_data in
  let self' := AnomalyDetector._update_history self vessel_state now in
  AnomalyDetector.detect self fused_data raw_sensor_data now
  = (AnomalyDetector._detect_trajectory_deviation self' vessel_state now
     ++ AnomalyDetector._detect_speed_anomaly self' vessel_state now
     ++ AnomalyDetector._detect_sensor_mismatch raw_sensor_data now
     ++ AnomalyDetector._detect_collision_risk vessel_state
          (FusedData.targets fused_data) now
     ++ AnomalyDetector._detect_sudden_maneuver vessel_state now
     ++ AnomalyDetector._detect_sensor_degradation raw_sensor_data now,
     self').
Proof. reflexivity. Qed.

(** X9. Every anomaly returned by [detect] has a positive severity, and a
    severity of at most 1 when no target reports a negative CPA (the
    collision check does not clamp its severity). *)
Theorem anomaly_severity_range (self : AnomalyDetector.t)
    (fused_data : FusedData.t) (raw_sensor_data : gmap string pyval) (now : R) :
  let anomalies :=
    fst (AnomalyDetector.detect self fused_data raw_sensor_data now) in
  Forall (fun a => 0 < Anomaly.severity a) anomalies
  /\ (Forall (fun t => 0 <= Target.cpa t) (FusedData.targets fused_data) ->
      Forall (fun a => Anomaly.severity a <= 1) anomalies).
Proof.
  cbv zeta. rewrite anomaly_detect_parts. cbn [fst].
  set (vessel_state := FusedData.vessel_state fused_data).
  set (self' := AnomalyDetector._update_history self vessel_state now).
  pose proof (trajectory_anomalies_kind self' vessel_state now) as Ht.
  pose proof (speed_anomalies_kind self' vessel_state now) as Hs.
  pose proof (mismatch_anomalies_kind raw_sensor_data now) as Hm.
  destruct (collision_anomalies_kind vessel_state
              (FusedData.targets fused_data) now) as [Hc Hc1].
  pose proof (maneuver_anomalies_kind vessel_state now) as Hv.
  pose proof (degradation_anomalies_kind raw_sensor_data now) as Hd.
  split.
  - apply Forall_app_2; [|apply Forall_app_2; [|apply Forall_app_2;
      [|apply Forall_app_2; [|apply Forall_app_2]]]];
      (eapply Forall_impl; [eassumption|]); simpl; intros a Ha;
      try tauto; try lra; destruct Ha as [_ ->]; lra.
  - intros Hcpa. specialize (Hc1 Hcpa).
    apply Forall_app_2; [|apply Forall_app_2; [|apply Forall_app_2;
      [|apply Forall_app_2; [|apply Forall_app_2]]]]; try exact Hc1;
      (eapply Forall_impl; [eassumption|]); simpl; intros a Ha;
      try tauto; try lra; destruct Ha as [_ ->]; lra.
Qed.

Lemma anomaly_severity_range_witness :
  Forall (fun a => Anomaly.severity a <= 1)
         (fst (AnomalyDetector.detect AnomalyDetector.init
                 (blank_fused_data 0 0) ∅ 0)).
Proof.
  destruct (anomaly_severity_range AnomalyDetector.init (blank_fused_data 0 0) ∅ 0)
    as [_ Hle].
  apply Hle. constructor.
Defined.


Lemma filter_none {A} (P : A -> Prop) `{!forall x, Decision (P x)} (l : list A) :
  Forall (fun x => ~ P x) l -> filter P l = [].
Proof.
  induction 1 as [|x l Hx _ IH]; [reflexivity|].
  rewrite filter_cons. case_decide; [contradiction | exact IH].
Qed.


(** X11. The history checks need history: the first call on a fresh detector
    returns neither a trajectory-deviation nor a speed anomaly, and the second
    call returns no trajectory-deviation anomaly. *)
Theorem history_checks_need_history :
  (forall (fused_data : FusedData.t) (raw_sensor_data : gmap string pyval)
          (now : R),
     Forall (fun a => Anomaly.anomaly_type a <> TRAJECTORY_DEVIATION
                      /\ Anomaly.anomaly_type a <> SPEED_ANOMALY)
            (fst (AnomalyDetector.detect AnomalyDetector.init fused_data
                                         raw_sensor_data now)))
  /\ (forall (fused1 fused2 : FusedData.t) (raw1 raw2 : gmap string pyval)
             (t1 t2 : R),
        Forall (fun a => Anomaly.anomaly_type a <> TRAJECTORY_DEVIATION)
               (fst (AnomalyDetector.detect
                       (snd (AnomalyDetector.detect AnomalyDetector.init
                                                    fused1 raw1 t1))
                       fused2 raw2 t2))).
Proof.
  split.
  - intros fused_data raw_sensor_data now.
    rewrite anomaly_detect_parts. cbn [fst].
    change (AnomalyDetector._detect_trajectory_deviation _ _ _) with (@nil Anomaly.t).
    change (AnomalyDetector._detect_speed_anomaly _ _ _) with (@nil Anomaly.t).
    cbn [app].
    apply Forall_app_2; [|apply Forall_app_2; [|apply Forall_app_2]].
    + eapply Forall_impl; [apply mismatch_anomalies_kind|].
      simpl. intros a [-> _]. split; discriminate.
    + eapply Forall_impl; [apply (proj1 (collision_anomalies_kind _ _ _))|].
      simpl. intros a [-> _]. split; discriminate.
    + eapply Forall_impl; [apply maneuver_anomalies_kind|].
      simpl. intros a [-> _]. split; discriminate.
    + eapply Forall_impl; [apply degradation_anomalies_kind|].
      simpl. intros a [-> _]. split; discriminate.
  - intros fused1 fused2 raw1 raw2 t1 t2.
    rewrite (anomaly_detect_parts AnomalyDetector.init). cbn [snd].
    rewrite anomaly_detect_parts. cbn [fst].
    change (AnomalyDetector._detect_trajectory_deviation _ _ _) with (@nil Anomaly.t).
    cbn [app].
    apply Forall_app_2; [|apply Forall_app_2; [|apply Forall_app_2;
      [|apply Forall_app_2]]].
    + eapply Forall_impl; [apply speed_anomalies_kind|].
      simpl. intros a [-> _]. discriminate.
    + eapply Forall_impl; [apply mismatch_anomalies_kind|].
      simpl. intros a [-> _]. discriminate.
    + eapply Forall_impl; [apply (proj1 (collision_anomalies_kind _ _ _))|].
      simpl. intros a [-> _]. discriminate.
    + eapply Forall_impl; [apply maneuver_anomalies_kind|].
      simpl. intros a [-> _]. discriminate.
    + eapply Forall_impl; [apply degradation_anomalies_kind|].
      simpl. intros a [-> _]. discriminate.
Qed.

(** ** Spoofing detection *)


Lemma gps_alerts_confidence (self : SpoofingDetector.t)
    (raw_sensor_data : gmap string pyval) (now : R) :
  Forall (fun a => 0.2 < SpoofingAlert.confidence a <= 1)
         (fst (SpoofingDetector._detect_gps_spoofing self raw_sensor_data now))
  /\ (length (fst (SpoofingDetector._detect_gps_spoofing self raw_sensor_data now))
      <= 1)%nat.
Proof.
  unfold SpoofingDetector._detect_gps_spoofing,
    SpoofingDetector.position_jump, SpoofingDetector.speed_impossibility.
  destruct (present raw_sensor_data "gps") as [v|]; [|split; [constructor | simpl; lia]].
  destruct (_ || _); [split; [constructor | simpl; lia]|].
  cbv zeta. cbn [fst].
  destruct (SpoofingDetector.previous_gps_position self) as [[prev_lat prev_lon]|];
    [|split; [constructor | simpl; lia]].
  destruct (SpoofingDetector.last_update_time self) as [last_update|];
    [|split; [constructor | simpl; lia]].
  case_decide; [|split; [constructor | simpl; lia]].
  case_decide as Hj; [|case_decide as Hs]; (split; [|simpl; lia]).
  - constructor; [|constructor]. simpl.
    split; [apply Rmin_glb_lt; lra | apply Rmin_l].
  - constructor; [|constructor]. simpl.
    split; [apply Rmin_glb_lt; lra | apply Rmin_l].
  - constructor.
Qed.





(** X13. The GPS check returns at most one alert.  It returns none without a
    previous fix; it returns the impossible-speed alert, of confidence
    [min(1, speed/100)], when the implied speed exceeds 60 knots and the move
    is no jump (at most 1000 m, or 10 s or more). *)
Theorem gps_check_cases (self : SpoofingDetector.t)
    (raw_sensor_data : gmap string pyval) (now : R) :
  (length (fst (SpoofingDetector._detect_gps_spoofing self raw_sensor_data now))
   <= 1)%nat
  /\ (SpoofingDetector.previous_gps_position self = None ->
      fst (SpoofingDetector._detect_gps_spoofing self raw_sensor_data now) = [])
  /\ (forall (prev_lat prev_lon last_update : R) (v : pyval),
        SpoofingDetector.previous_gps_position self = Some (prev_lat, prev_lon) ->
        SpoofingDetector.last_update_time self = Some last_update ->
        present raw_sensor_data "gps" = Some v ->
        has_key (fields v) "latitude" = true ->
        has_key (fields v) "longitude" = true ->
        let distance :=
          _haversine_distance prev_lat prev_lon
            (num (fields v) "latitude") (num (fields v) "longitude") in
        let time_diff := now - last_update in
        0 < time_diff ->
        distance <= 1000 \/ 10 <= time_diff ->
        distance / time_diff * 1.94384 > 60 ->
        fst (SpoofingDetector._detect_gps_spoofing self raw_sensor_data now)
        = [SpoofingAlert.mk "gps_speed_" GPS_SPOOFING
             (Rmin 1 (distance / time_diff * 1.94384 / 100)) ["gps"] None now]).
Proof.
  split; [apply gps_alerts_confidence|]. split.
  - intros Hprev. unfold SpoofingDetector._detect_gps_spoofing.
    rewrite Hprev.
    destruct (present raw_sensor_data "gps"); [|reflexivity].
    destruct (_ || _); reflexivity.
  - intros prev_lat prev_lon last_update v Hprev Hlast Hp Hlat Hlon.
    cbv zeta. intros Ht Hslow Hspeed.
    unfold SpoofingDetector._detect_gps_spoofing.
    rewrite Hp, Hlat, Hlon, Hprev, Hlast. cbv zeta. simpl.
    unfold SpoofingDetector.position_jump, SpoofingDetector.speed_impossibility.
    case_decide; [|lra].
    case_decide; [lra|].
    case_decide; [reflexivity | lra].
Qed.

Lemma gps_check_cases_witness :
  fst (SpoofingDetector._detect_gps_spoofing SpoofingDetector.init
         {["gps" := position_reading 0 0]} 0) = [].
Proof.
  destruct (gps_check_cases SpoofingDetector.init
              {["gps" := position_reading 0 0]} 0) as (_ & Hnone & _).
  apply Hnone. reflexivity.
Defined.

Lemma gps_check_state (self : SpoofingDetector.t)
    (raw_sensor_data : gmap string pyval) (now : R) :
  snd (SpoofingDetector._detect_gps_spoofing self raw_sensor_data now)
  = match present raw_sensor_data "gps" with
    | Some v =>
        if has_key (fields v) "latitude" && has_key (fields v) "longitude"
        then SpoofingDetector.mk
               (Some (num (fields v) "latitude", num (fields v) "longitude"))
               (SpoofingDetector.previous_ais_position self)
               (Some now)
               (SpoofingDetector.spoofing_incidents self)
        else self
    | None => self
    end.
Proof.
  unfold SpoofingDetector._detect_gps_spoofing.
  destruct (present raw_sensor_data "gps") as [v|]; [|reflexivity].
  destruct (has_key (fields v) "latitude"), (has_key (fields v) "longitude");
    reflexivity.
Qed.

Lemma ais_check_state (self : SpoofingDetector.t)
    (raw_sensor_data : gmap string pyval) (now : R) :
  snd (SpoofingDetector._detect_ais_spoofing self raw_sensor_data now)
  = match present raw_sensor_data "ais" with
    | Some v =>
        if has_key (fields v) "latitude" && has_key (fields v) "longitude"
        then SpoofingDetector.mk
               (SpoofingDetector.previous_gps_position self)
               (Some (num (fields v) "latitude", num (fields v) "longitude"))
               (SpoofingDetector.last_update_time self)
               (SpoofingDetector.spoofing_incidents self)
        else self
    | None => self
    end.
Proof.
  unfold SpoofingDetector._detect_ais_spoofing.
  destruct (present raw_sensor_data "ais") as [v|]; [|reflexivity].
  cbv zeta.
  destruct (has_key (fields v) "latitude" && has_key (fields v) "longitude");
    reflexivity.
Qed.

(** X14. The position trackers follow the readings whether or not an alert
    fired: after a call the previous GPS position and the update time are
    those of the GPS reading when it has both coordinates, and the previous
    AIS position is that of the AIS reading when it has both; a sensor that
    is missing, empty or without coordinates leaves its tracker as it was. *)
Theorem trackers_follow_readings (fromisoformat : string -> option R)
    (self : SpoofingDetector.t) (raw_sensor_data : gmap string pyval)
    (fused_data : FusedData.t) (now : R) :
  let self' :=
    snd (SpoofingDetector.detect fromisoformat self raw_sensor_data
                                 fused_data now) in
  let coordinates sensor :=
    match present raw_sensor_data sensor with
    | Some v =>
        if has_key (fields v) "latitude" && has_key (fields v) "longitude"
        then Some (num (fields v) "latitude", num (fields v) "longitude")
        else None
    | None => None
    end in
  SpoofingDetector.previous_gps_position self'
  = match coordinates "gps" with
    | Some p => Some p
    | None => SpoofingDetector.previous_gps_position self
    end
  /\ SpoofingDetector.last_update_time self'
     = match coordinates "gps" with
       | Some _ => Some now
       | None => SpoofingDetector.last_update_time self
       end
  /\ SpoofingDetector.previous_ais_position self'
     = match coordinates "ais" with
       | Some p => Some p
       | None => SpoofingDetector.previous_ais_position self
       end.
Proof.
  cbv zeta. unfold SpoofingDetector.detect.
  pose proof (gps_check_state self raw_sensor_data now) as Hg.
  destruct (SpoofingDetector._detect_gps_spoofing self raw_sensor_data now)
    as [gps_alerts self1].
  pose proof (ais_check_state self1 raw_sensor_data now) as Ha.
  destruct (SpoofingDetector._detect_ais_spoofing self1 raw_sensor_data now)
    as [ais_alerts self2].
  cbn [snd] in Hg, Ha. subst self1 self2.
  destruct (gps_alerts ++ ais_alerts ++ _ ++ _); cbn [snd];
    unfold SpoofingDetector._log_spoofing_incident;
    destruct (present raw_sensor_data "gps") as [g|];
    destruct (present raw_sensor_data "ais") as [a|];
    try destruct (has_key (fields g) "latitude" && has_key (fields g) "longitude");
    try destruct (has_key (fields a) "latitude" && has_key (fields a) "longitude");
    repeat split; reflexivity.
Qed.

Lemma py_max_ge (l : list R) (x : R) : In x l -> x <= py_max l.
Proof.
  destruct l as [|y l]; [intros []|]. simpl.
  assert (Hgen : forall (l : list R) (a : R),
            a <= fold_left Rmax l a
            /\ forall x, In x l -> x <= fold_left Rmax l a).
  { clear. induction l as [|z l IH]; intros a; simpl.
    - split; [lra | intros x []].
    - destruct (IH (Rmax a z)) as [Hge Hall].
      pose proof (Rmax_l a z). pose proof (Rmax_r a z).
      split; [lra|]. intros x [<- | Hin]; [lra | apply Hall, Hin]. }
  destruct (Hgen l y) as [Hge Hall].
  intros [<- | Hin]; [exact Hge | apply Hall, Hin].
Qed.

(** X15. The incident log changes only when a call returns alerts.  Then its
    newest entry counts the alerts of the call, lists their kinds in order and
    holds a confidence that no alert of the call exceeds; a call without
    alerts leaves the log as it was. *)
Theorem incident_log_entry (fromisoformat : string -> option R)
    (self : SpoofingDetector.t) (raw_sensor_data : gmap string pyval)
    (fused_data : FusedData.t) (now : R) :
  let '(alerts, self') :=
    SpoofingDetector.detect fromisoformat self raw_sensor_data fused_data now in
  (alerts = [] /\
   SpoofingDetector.spoofing_incidents self'
   = SpoofingDetector.spoofing_incidents self)
  \/ (alerts <> [] /\
      exists incident,
        last (SpoofingDetector.spoofing_incidents self') = Some incident
        /\ SpoofingDetector.alert_count incident = length alerts
        /\ SpoofingDetector.alert_types incident
           = map (fun a => SpoofingType_value (SpoofingAlert.spoofing_type a))
                 alerts
        /\ SpoofingDetector.timestamp incident = now
        /\ Forall (fun a => SpoofingAlert.confidence a
                            <= SpoofingDetector.max_confidence incident) alerts).
Proof.
  pose proof (spoofing_detect_incidents fromisoformat self raw_sensor_data
                                        fused_data now) as H.
  destruct (SpoofingDetector.detect _ _ _ _ _) as [alerts self'].
  destruct H as [[-> Hlog] | [Hne Hlog]].
  - left. split; [reflexivity | exact Hlog].
  - right. split; [exact Hne|]. eexists. rewrite Hlog.
    split; [apply last_append_capped; unfold SpoofingDetector.max_incidents; lia|].
    simpl. repeat split.
    apply List.Forall_forall. intros a Ha.
    apply py_max_ge, in_map, Ha.
Qed.

Lemma add_score_keys (sensor : string) (distance : R) (scores : list (string * R)) :
  map fst (SpoofingDetector.add_score sensor distance scores) = map fst scores.
Proof.
  unfold SpoofingDetector.add_score. rewrite map_map.
  apply map_ext. intros [s v]. case_decide; reflexivity.
Qed.

Lemma first_max_key_in (scores : list (string * R)) (k : string) :
  SpoofingDetector.first_max_key scores = Some k -> In k (map fst scores).
Proof.
  destruct scores as [|kv rest]; [discriminate|]. simpl. intros H.
  injection H as <-.
  assert (Hgen : forall (l : list (string * R)) (best : string * R),
            fold_left (fun best kv => if decide (snd kv > snd best) then kv else best)
                      l best = best
            \/ In (fold_left (fun best kv =>
                                if decide (snd kv > snd best) then kv else best)
                             l best) l).
  { clear. induction l as [|x l IH]; intros best; simpl; [left; reflexivity|].
    destruct (IH (if decide (x.2 > best.2) then x else best)) as [-> | Hin].
    - case_decide; [right; left; reflexivity | left; reflexivity].
    - right. right. exact Hin. }
  destruct (Hgen rest kv) as [-> | Hin].
  - left. reflexivity.
  - right. apply in_map, Hin.
Qed.

(** X16. The sensor named as likely spoofed is the default "GPS" when fewer
    than three sensors report a position; with three it is one of the sensors
    that were compared, never "unknown". *)
Theorem identify_spoofed_sensor_names (positions : list (string * (R * R))) :
  ((length positions < 3)%nat ->
   SpoofingDetector._identify_spoofed_sensor positions = "GPS")
  /\ ((3 <= length positions)%nat ->
      In (SpoofingDetector._identify_spoofed_sensor positions)
         (map fst positions)).
Proof.
  unfold SpoofingDetector._identify_spoofed_sensor. split; intros Hlen.
  - case_decide; [reflexivity | lia].
  - case_decide; [lia|]. cbv zeta.
    set (scores := fold_left _ (SpoofingDetector.pairs positions) _).
    assert (Hkeys : map fst scores = map fst positions).
    { subst scores.
      generalize (SpoofingDetector.pairs positions). intros ps.
      assert (Hinit : map fst (map (fun '(sensor, _) => (sensor, 0)) positions)
                      = map fst positions).
      { rewrite map_map. apply map_ext. intros [s p]. reflexivity. }
      revert Hinit.
      generalize (map (fun '(sensor, _) => (sensor, 0)) positions : list (string * R)).
      induction ps as [|p ps IH]; intros scores0 Hinit; simpl; [exact Hinit|].
      apply IH. case_decide; [|exact Hinit].
      rewrite !add_score_keys. exact Hinit. }
    destruct (SpoofingDetector.first_max_key scores) as [k|] eqn:Hk.
    + simpl. rewrite <- Hkeys. apply first_max_key_in, Hk.
    + destruct scores as [|kv rest]; [|discriminate].
      destruct positions; simpl in *; [lia | discriminate].
Qed.

Lemma identify_spoofed_sensor_names_witness :
  SpoofingDetector._identify_spoofed_sensor [("gps", (0, 0)); ("ais", (1, 1))]
  = "GPS".
Proof.
  destruct (identify_spoofed_sensor_names [("gps", (0, 0)); ("ais", (1, 1))])
    as [Hfew _].
  apply Hfew. simpl. lia.
Defined.

(** X17. Sensors that agree raise nothing: when the GPS and the AIS reading
    carry the same coordinates (and the radar reports no own-ship data), the
    sensor-mismatch check returns no anomaly and the multi-sensor
    cross-validation returns no alert. *)
Theorem agreeing_sensors_raise_nothing (raw_sensor_data : gmap string pyval)
    (fused_data : FusedData.t) (now : R) (gps ais : pyval) :
  raw_sensor_data !! "gps" = Some gps ->
  raw_sensor_data !! "ais" = Some ais ->
  present raw_sensor_data "radar" = None ->
  num (fields gps) "latitude" = num (fields ais) "latitude" ->
  num (fields gps) "longitude" = num (fields ais) "longitude" ->
  AnomalyDetector._detect_sensor_mismatch raw_sensor_data now = []
  /\ SpoofingDetector._detect_multi_sensor_spoofing raw_sensor_data fused_data now
     = [].
Proof.
  intros Hg Ha Hr Hlat Hlon. split.
  - unfold AnomalyDetector._detect_sensor_mismatch.
    rewrite Hg, Ha. destruct (_ && _); [|reflexivity].
    cbv zeta. rewrite Hlat, Hlon, haversine_self.
    case_decide; [lra | reflexivity].
  - unfold SpoofingDetector._detect_multi_sensor_spoofing,
      SpoofingDetector.sensor_positions, SpoofingDetector.position_of,
      SpoofingDetector.multi_sensor_mismatch, present in *.
    rewrite Hg, Ha. cbv zeta.
    destruct (raw_sensor_data !! "radar") as [r|].
    + destruct (truthy r); [discriminate|].
      destruct (truthy gps), (truthy ais);
        try destruct (has_key (fields gps) "latitude" && has_key (fields gps) "longitude");
        try destruct (has_key (fields ais) "latitude" && has_key (fields ais) "longitude");
        cbn [app length]; try reflexivity.
      case_decide; [|reflexivity].
      cbn [SpoofingDetector.pairs map app SpoofingDetector.pair_distance fst snd].
      rewrite Hlat, Hlon, haversine_self.
      rewrite filter_cons, filter_nil. case_decide; [lra | reflexivity].
    + destruct (truthy gps), (truthy ais);
        try destruct (has_key (fields gps) "latitude" && has_key (fields gps) "longitude");
        try destruct (has_key (fields ais) "latitude" && has_key (fields ais) "longitude");
        cbn [app length]; try reflexivity.
      case_decide; [|reflexivity].
      cbn [SpoofingDetector.pairs map app SpoofingDetector.pair_distance fst snd].
      rewrite Hlat, Hlon, haversine_self.
      rewrite filter_cons, filter_nil. case_decide; [lra | reflexivity].
Qed.

Lemma agreeing_sensors_raise_nothing_witness :
  let raw : gmap string pyval :=
    <["gps" := position_reading 51.5074 (-0.1278)]>
      {["ais" := position_reading 51.5074 (-0.1278)]} in
  AnomalyDetector._detect_sensor_mismatch raw 0 = []
  /\ SpoofingDetector._detect_multi_sensor_spoofing raw (blank_fused_data 0 0) 0
     = [].
Proof.
  cbv zeta.
  apply (agreeing_sensors_raise_nothing _ _ _
           (position_reading 51.5074 (-0.1278))
           (position_reading 51.5074 (-0.1278))).
  - apply lookup_insert_eq.
  - rewrite lookup_insert_ne by discriminate. apply lookup_singleton_eq.
  - unfold present. rewrite lookup_insert_ne by discriminate.
    rewrite lookup_singleton_ne by discriminate. reflexivity.
  - reflexivity.
  - reflexivity.
Defined.

(** ** Alert levels and ranking *)

(** X18. Severity and confidence map to levels monotonically; an anomaly is
    never an emergency and a spoofing alert is never mere information; and a
    spoofing alert always ranks strictly above an anomaly of the same
    score. *)
Theorem alert_level_mapping :
  (forall a : Anomaly.t, Anomaly.to_alert_level a <> EMERGENCY)
  /\ (forall s : SpoofingAlert.t, SpoofingAlert.to_alert_level s <> INFO)
  /\ (forall a a' : Anomaly.t,
        Anomaly.severity a <= Anomaly.severity a' ->
        (SituationAwarenessLayer.level_priority (Anomaly.to_alert_level a)
         <= SituationAwarenessLayer.level_priority (Anomaly.to_alert_level a'))%nat)
  /\ (forall s s' : SpoofingAlert.t,
        SpoofingAlert.confidence s <= SpoofingAlert.confidence s' ->
        (SituationAwarenessLayer.level_priority (SpoofingAlert.to_alert_level s)
         <= SituationAwarenessLayer.level_priority
              (SpoofingAlert.to_alert_level s'))%nat)
  /\ (forall (a : Anomaly.t) (s : SpoofingAlert.t),
        Anomaly.severity a = SpoofingAlert.confidence s ->
        (SituationAwarenessLayer.level_priority (Anomaly.to_alert_level a)
         < SituationAwarenessLayer.level_priority
             (SpoofingAlert.to_alert_level s))%nat).
Proof.
  unfold Anomaly.to_alert_level, SpoofingAlert.to_alert_level.
  split; [|split; [|split; [|split]]].
  - intros a. repeat case_decide; discriminate.
  - intros s. repeat case_decide; discriminate.
  - intros a a' H. repeat case_decide; simpl; try lia; lra.
  - intros s s' H. repeat case_decide; simpl; try lia; lra.
  - intros a s H. repeat case_decide; simpl; try lia; lra.
Qed.

Lemma alert_level_mapping_witness :
  (SituationAwarenessLayer.level_priority
     (Anomaly.to_alert_level
        (Anomaly.mk "maneuver_" SUDDEN_MANEUVER 0.75 ["ais"; "gps"] 0 None))
   < SituationAwarenessLayer.level_priority
       (SpoofingAlert.to_alert_level
          (SpoofingAlert.mk "ais_spoof_" AIS_SPOOFING 0.75 ["ais"] None 0)))%nat.
Proof.
  destruct alert_level_mapping as (_ & _ & _ & _ & Hrank).
  apply Hrank. reflexivity.
Defined.

Lemma anomaly_alert_not_emergency (anomaly : Anomaly.t) :
  Alert.level (SituationAwarenessLayer.anomaly_to_alert anomaly) <> EMERGENCY.
Proof.
  simpl. unfold Anomaly.to_alert_level. repeat case_decide; discriminate.
Qed.

(** X19. A spoofing alert of confidence 0.7 or more leads the ranked list:
    then the first alert of the batch is an emergency raised by the spoofing
    detector (no anomaly and no confidence warning reaches that level). *)
Theorem emergency_leads_the_alerts
    (spoofing_alerts : list SpoofingAlert.t) (anomalies : list Anomaly.t)
    (uncertainties : gmap string Uncertainty.t) (overall_confidence now : R) :
  Exists (fun s => SpoofingAlert.confidence s >= 0.7) spoofing_alerts ->
  exists first rest,
    SituationAwarenessLayer._generate_alerts
      spoofing_alerts anomalies uncertainties overall_confidence now
    = first :: rest
    /\ Alert.level first = EMERGENCY
    /\ Alert.source first = "spoofing_detector".
Proof.
  intros Hex. unfold SituationAwarenessLayer._generate_alerts. cbv zeta.
  set (key := fun a => SituationAwarenessLayer.level_priority (Alert.level a)).
  set (inserted := SituationAwarenessLayer.collected_alerts _ _ _ _).
  pose proof (py_sort_reverse_sorted key inserted) as Hsorted.
  pose proof (py_sort_reverse_perm key inserted) as Hperm.
  apply List.Exists_exists in Hex as (s & Hs & Hconf).
  assert (He : In (SituationAwarenessLayer.spoofing_to_alert s) inserted).
  { subst inserted. unfold SituationAwarenessLayer.collected_alerts.
    apply in_or_app. left. apply in_map, Hs. }
  assert (Hlevel : Alert.level (SituationAwarenessLayer.spoofing_to_alert s)
                   = EMERGENCY).
  { simpl. unfold SpoofingAlert.to_alert_level. case_decide; [reflexivity | lra]. }
  apply (Permutation_in _ (Permutation_sym Hperm)) in He.
  destruct (py_sort_reverse key inserted) as [|first rest] eqn:Hsort;
    [destruct He|].
  exists first, rest. split; [reflexivity|].
  assert (Hfirst : Alert.level first = EMERGENCY).
  { destruct He as [Heq | Hin]; [rewrite Heq; exact Hlevel|].
    inversion Hsorted as [|? ? _ Hall]; subst.
    rewrite List.Forall_forall in Hall. specialize (Hall _ Hin).
    assert (Hk : key (SituationAwarenessLayer.spoofing_to_alert s) = 4%nat)
      by (unfold key; rewrite Hlevel; reflexivity).
    change (key (SituationAwarenessLayer.spoofing_to_alert s) <= key first)%nat
      in Hall.
    rewrite Hk in Hall. unfold key in Hall.
    destruct (Alert.level first); simpl in Hall; try lia. reflexivity. }
  split; [exact Hfirst|].
  assert (Hin : In first inserted).
  { apply (Permutation_in _ Hperm). left. reflexivity. }
  subst inserted. unfold SituationAwarenessLayer.collected_alerts in Hin.
  apply in_app_or in Hin as [Hin | Hin].
  - apply in_map_iff in Hin as (s0 & <- & _). reflexivity.
  - apply in_app_or in Hin as [Hin | Hin].
    + apply in_map_iff in Hin as (a0 & <- & _).
      exfalso. exact (anomaly_alert_not_emergency a0 Hfirst).
    + case_decide; [|destruct Hin].
      destruct Hin as [<- | []]. discriminate.
Qed.

Lemma emergency_leads_the_alerts_witness :
  exists first rest,
    SituationAwarenessLayer._generate_alerts
      [SpoofingAlert.mk "gps_spoof_" GPS_SPOOFING 1 ["gps"] None 0]
      [Anomaly.mk "sensor_deg_" SENSOR_DEGRADATION 0.8 ["radar"] 0 None]
      ∅ 0.3 0
    = first :: rest
    /\ Alert.level first = EMERGENCY
    /\ Alert.source first = "spoofing_detector".
Proof.
  apply emergency_leads_the_alerts.
  left. simpl. lra.
Defined.

Lemma sorted_critical_prefix (l : list Alert.t) :
  StronglySorted
    (fun a b => (SituationAwarenessLayer.level_priority (Alert.level b)
                 <= SituationAwarenessLayer.level_priority (Alert.level a))%nat)
    l ->
  filter (fun a => Alert.level a = CRITICAL \/ Alert.level a = EMERGENCY) l
  = take (length (filter (fun a => Alert.level a = CRITICAL
                                   \/ Alert.level a = EMERGENCY) l)) l.
Proof.
  induction 1 as [|x l Hs IH Hall]; [reflexivity|].
  rewrite filter_cons. case_decide as Hx.
  - simpl. f_equal. exact IH.
  - rewrite (filter_none _ l); [reflexivity|].
    eapply Forall_impl; [exact Hall|]. simpl. intros y Hy Hcrit.
    apply Hx. destruct (Alert.level x), (Alert.level y); simpl in Hy;
      try lia; destruct Hcrit; try discriminate; tauto.
Qed.

(** What one batch returns, in terms of its own fields. *)
Lemma process_output_fields (fromisoformat : string -> option R)
    (self : SituationAwarenessLayer.t) (sensor_data : gmap string pyval)
    (now finished : R) :
  let '(out, self') :=
    SituationAwarenessLayer.process_sensor_data
      fromisoformat self sensor_data now finished in
  let fused := SituationAwarenessOutput.fused_data out in
  fused = fst (SensorFusionEngine.fuse
                 (SituationAwarenessLayer.sensor_fusion self) sensor_data now)
  /\ SituationAwarenessOutput.spoofing_alerts out
     = fst (SpoofingDetector.detect fromisoformat
              (SituationAwarenessLayer.spoofing_detector self)
              sensor_data fused now)
  /\ SituationAwarenessOutput.anomalies out
     = fst (AnomalyDetector.detect
              (SituationAwarenessLayer.anomaly_detector self)
              fused sensor_data now)
  /\ SituationAwarenessOutput.uncertainties out
     = UncertaintyModeler.calculate fused sensor_data
         (SituationAwarenessOutput.anomalies out)
  /\ SituationAwarenessOutput.overall_confidence out
     = SituationAwarenessLayer._calculate_overall_confidence fused
         (SituationAwarenessOutput.uncertainties out)
         (SituationAwarenessOutput.anomalies out)
         (SituationAwarenessOutput.spoofing_alerts out)
  /\ SituationAwarenessOutput.alerts out
     = SituationAwarenessLayer._generate_alerts
         (SituationAwarenessOutput.spoofing_alerts out)
         (SituationAwarenessOutput.anomalies out)
         (SituationAwarenessOutput.uncertainties out)
         (SituationAwarenessOutput.overall_confidence out) now
  /\ SituationAwarenessOutput.system_status out
     = SituationAwarenessLayer.system_status self
  /\ SituationAwarenessLayer.system_status self'
     = SituationAwarenessLayer.system_status self
  /\ SituationAwarenessLayer.processing_times self'
     = append_capped 100 (SituationAwarenessLayer.processing_times self)
                     (finished - now).
Proof.
  unfold SituationAwarenessLayer.process_sensor_data.
  destruct (SensorFusionEngine.fuse _ sensor_data now) as [fused sf'].
  destruct (SpoofingDetector.detect _ _ sensor_data fused now)
    as [spoof sd'] eqn:Hspoof.
  destruct (AnomalyDetector.detect _ fused sensor_data now)
    as [anoms ad'] eqn:Hanoms.
  cbv zeta.
  cbn [fst snd SituationAwarenessOutput.fused_data
       SituationAwarenessOutput.spoofing_alerts
       SituationAwarenessOutput.anomalies
       SituationAwarenessOutput.uncertainties
       SituationAwarenessOutput.overall_confidence
       SituationAwarenessOutput.alerts
       SituationAwarenessOutput.system_status
       SituationAwarenessLayer.system_status
       SituationAwarenessLayer.processing_times].
  rewrite Hspoof, Hanoms. repeat split; reflexivity.
Qed.

(** X20. In the output of a batch the critical and emergency alerts are the
    first alerts of the ranked list: [get_critical_alerts] returns the first
    [critical_alert_count] alerts. *)
Theorem critical_alerts_come_first (fromisoformat : string -> option R)
    (self : SituationAwarenessLayer.t) (sensor_data : gmap string pyval)
    (now finished : R) :
  let out :=
    fst (SituationAwarenessLayer.process_sensor_data
           fromisoformat self sensor_data now finished) in
  SituationAwarenessOutput.get_critical_alerts out
  = take (critical_alert_count out) (SituationAwarenessOutput.alerts out).
Proof.
  cbv zeta.
  pose proof (process_output_fields fromisoformat self sensor_data now finished)
    as H.
  destruct (SituationAwarenessLayer.process_sensor_data _ _ _ _ _) as [out self'].
  cbv zeta in H. destruct H as (_ & _ & _ & _ & _ & Halerts & _).
  cbn [fst]. unfold critical_alert_count,
    SituationAwarenessOutput.get_critical_alerts.
  apply sorted_critical_prefix. rewrite Halerts.
  apply (py_sort_reverse_sorted
           (fun a => SituationAwarenessLayer.level_priority (Alert.level a))).
Qed.

(** ** The orchestrator across batches *)

(** X21. The output of a batch holds one alert per spoofing alert, one per
    anomaly, and one more exactly when its overall confidence is below 0.5;
    its fusion confidence and its overall confidence lie in [0, 1]. *)
Theorem batch_output_counts (fromisoformat : string -> option R)
    (self : SituationAwarenessLayer.t) (sensor_data : gmap string pyval)
    (now finished : R) :
  let out :=
    fst (SituationAwarenessLayer.process_sensor_data
           fromisoformat self sensor_data now finished) in
  length (SituationAwarenessOutput.alerts out)
  = (length (SituationAwarenessOutput.spoofing_alerts out)
     + length (SituationAwarenessOutput.anomalies out)
     + (if decide (SituationAwarenessOutput.overall_confidence out < 0.5)%R
        then 1 else 0))%nat
  /\ 0 <= FusedData.fusion_confidence (SituationAwarenessOutput.fused_data out) <= 1
  /\ 0 <= SituationAwarenessOutput.overall_confidence out <= 1.
Proof.
  cbv zeta.
  pose proof (process_output_fields fromisoformat self sensor_data now finished)
    as H.
  destruct (SituationAwarenessLayer.process_sensor_data _ _ _ _ _) as [out self'].
  cbv zeta in H. destruct H as (Hf & _ & _ & _ & Ho & Halerts & _).
  cbn [fst]. split; [|split].
  - rewrite Halerts. unfold SituationAwarenessLayer._generate_alerts. cbv zeta.
    rewrite (Permutation_length (py_sort_reverse_perm _ _)).
    unfold SituationAwarenessLayer.collected_alerts.
    rewrite !length_app, !length_map.
    case_decide; simpl; lia.
  - rewrite Hf. unfold SensorFusionEngine.fuse.
    destruct (SensorFusionEngine._fuse_vessel_state _ sensor_data now)
      as [vessel_state engine'].
    cbn [fst FusedData.fusion_confidence].
    apply fusion_confidence_of_scores, quality_scores_range.
  - rewrite Ho, overall_confidence_unfold. cbv zeta. apply clamp_range.
Qed.

Lemma all_status_fmap (status status' : string) :
  (fun _ : string => status') <$> SituationAwarenessLayer.all_status status
  = SituationAwarenessLayer.all_status status'.
Proof.
  unfold SituationAwarenessLayer.all_status.
  rewrite !fmap_insert, fmap_empty. reflexivity.
Qed.

Lemma after_event_state (fromisoformat : string -> option R)
    (self : SituationAwarenessLayer.t) (e : batch_event) (status : string) :
  SituationAwarenessLayer.system_status self
  = SituationAwarenessLayer.all_status status ->
  (length (SituationAwarenessLayer.processing_times self) <= 100)%nat ->
  SituationAwarenessLayer.system_status (after_event fromisoformat self e)
  = SituationAwarenessLayer.all_status
      (if is_failed e then "degraded" else status)
  /\ (length (SituationAwarenessLayer.processing_times
                (after_event fromisoformat self e)) <= 100)%nat.
Proof.
  intros Hstatus Hlen. destruct e as [sensor_data now finished|]; simpl.
  - pose proof (process_output_fields fromisoformat self sensor_data now finished)
      as H.
    destruct (SituationAwarenessLayer.process_sensor_data _ _ _ _ _)
      as [out self'].
    cbv zeta in H. destruct H as (_ & _ & _ & _ & _ & _ & _ & Hs & Ht).
    cbn [snd]. rewrite Hs, Ht. split; [exact Hstatus|].
    apply append_capped_length, Hlen.
  - rewrite Hstatus, all_status_fmap. split; [reflexivity | exact Hlen].
Qed.

(** X22. Across any sequence of processed and failed batches on a fresh
    orchestrator: every component's status is "degraded" from the first
    failure on (a later successful batch does not restore it) and
    "operational" before; the processing-time history never exceeds 100
    entries; and [reset] brings the orchestrator back to its initial state. *)
Theorem orchestrator_across_batches (fromisoformat : string -> option R)
    (events : list batch_event) :
  let self :=
    fold_left (after_event fromisoformat) events SituationAwarenessLayer.init in
  get_system_status self
  = SituationAwarenessLayer.all_status
      (if existsb is_failed events then "degraded" else "operational")
  /\ (length (SituationAwarenessLayer.processing_times self) <= 100)%nat
  /\ SituationAwarenessLayer.reset self = SituationAwarenessLayer.init.
Proof.
  cbv zeta. unfold get_system_status.
  assert (Hgen : forall (self0 : SituationAwarenessLayer.t) (status : string),
    SituationAwarenessLayer.system_status self0
    = SituationAwarenessLayer.all_status status ->
    (length (SituationAwarenessLayer.processing_times self0) <= 100)%nat ->
    SituationAwarenessLayer.system_status
      (fold_left (after_event fromisoformat) events self0)
    = SituationAwarenessLayer.all_status
        (if existsb is_failed events then "degraded" else status)
    /\ (length (SituationAwarenessLayer.processing_times
                  (fold_left (after_event fromisoformat) events self0))
        <= 100)%nat).
  { induction events as [|e events IH]; intros self0 status Hs Hl.
    - split; assumption.
    - destruct (after_event_state fromisoformat self0 e status Hs Hl)
        as [Hs' Hl'].
      destruct (IH _ _ Hs' Hl') as [Hs'' Hl''].
      cbn [fold_left existsb]. split; [|exact Hl''].
      rewrite Hs''. destruct (is_failed e); simpl; [|reflexivity].
      destruct (existsb is_failed events); reflexivity. }
  destruct (Hgen SituationAwarenessLayer.init "operational" eq_refl
              ltac:(simpl; lia)) as [Hs Hl].
  split; [exact Hs|]. split; [exact Hl|].
  unfold SituationAwarenessLayer.reset. rewrite Hs, all_status_fmap.
  reflexivity.
Qed.

(** ** Performance metrics *)





(** ** Uncertainties and their adjustment *)

Lemma adjust_one_entry (impact_factor : R)
    (uncertainties : gmap string Uncertainty.t) (anomaly : Anomaly.t)
    (k : string) :
  match uncertainties !! k with
  | Some u =>
      exists u',
        UncertaintyModeler.adjust_one impact_factor uncertainties anomaly !! k
        = Some u'
        /\ Uncertainty.parameter u' = Uncertainty.parameter u
        /\ Uncertainty.mean_value u' = Uncertainty.mean_value u
        /\ Uncertainty.confidence_interval u' = Uncertainty.confidence_interval u
        /\ Uncertainty.std_deviation u'
           = Uncertainty.std_deviation u * std_scale impact_factor k anomaly
        /\ Uncertainty.reliability u'
           = Uncertainty.reliability u * rel_scale k anomaly
  | None =>
      UncertaintyModeler.adjust_one impact_factor uncertainties anomaly !! k = None
  end.
Proof.
  unfold UncertaintyModeler.adjust_one, std_scale, rel_scale. cbv zeta.
  rewrite position_not_in_anomaly_value.
  destruct (py_contains "speed" _), (py_contains "sensor" _);
    rewrite ?lookup_fmap, ?lookup_alter;
    destruct (decide (k = "speed")) as [->|Hk];
    repeat case_decide; try congruence;
    destruct (uncertainties !! _) as [u|]; simpl; try reflexivity;
    eexists; (split; [reflexivity|]); simpl; repeat split; ring.
Qed.

Lemma adjust_fold_entry (impact_factor : R) (anomalies : list Anomaly.t)
    (uncertainties : gmap string Uncertainty.t) (k : string) :
  match uncertainties !! k with
  | Some u =>
      exists u',
        fold_left (UncertaintyModeler.adjust_one impact_factor) anomalies
                  uncertainties !! k = Some u'
        /\ Uncertainty.parameter u' = Uncertainty.parameter u
        /\ Uncertainty.mean_value u' = Uncertainty.mean_value u
        /\ Uncertainty.confidence_interval u' = Uncertainty.confidence_interval u
        /\ Uncertainty.std_deviation u'
           = Uncertainty.std_deviation u
             * product_over (std_scale impact_factor k) anomalies
        /\ Uncertainty.reliability u'
           = Uncertainty.reliability u * product_over (rel_scale k) anomalies
  | None =>
      fold_left (UncertaintyModeler.adjust_one impact_factor) anomalies
                uncertainties !! k = None
  end.
Proof.
  revert uncertainties.
  induction anomalies as [|a anomalies IH]; intros uncertainties.
  - simpl. destruct (uncertainties !! k) as [u|]; [|reflexivity].
    exists u. unfold product_over. simpl. repeat split; ring.
  - pose proof (adjust_one_entry impact_factor uncertainties a k) as H1.
    specialize (IH (UncertaintyModeler.adjust_one impact_factor uncertainties a)).
    cbn [fold_left].
    destruct (uncertainties !! k) as [u|].
    + destruct H1 as (u1 & H1 & Hp1 & Hm1 & Hc1 & Hs1 & Hr1).
      rewrite H1 in IH.
      destruct IH as (u' & H' & Hp' & Hm' & Hc' & Hs' & Hr').
      exists u'. split; [exact H'|].
      unfold product_over in *. cbn [foldr].
      rewrite Hs', Hr', Hs1, Hr1.
      repeat split; try congruence; ring.
    + rewrite H1 in IH. exact IH.
Qed.

Lemma calculate_entry (fused_data : FusedData.t)
    (raw_sensor_data : gmap string pyval) (anomalies : list Anomaly.t)
    (k : string) :
  let impact_factor := 1 + py_max (map Anomaly.severity anomalies) in
  match UncertaintyModeler.base_uncertainties fused_data raw_sensor_data !! k with
  | Some u =>
      exists u',
        UncertaintyModeler.calculate fused_data raw_sensor_data anomalies !! k
        = Some u'
        /\ Uncertainty.parameter u' = Uncertainty.parameter u
        /\ Uncertainty.mean_value u' = Uncertainty.mean_value u
        /\ Uncertainty.confidence_interval u' = Uncertainty.confidence_interval u
        /\ Uncertainty.std_deviation u'
           = Uncertainty.std_deviation u
             * product_over (std_scale impact_factor k) anomalies
        /\ Uncertainty.reliability u'
           = Uncertainty.reliability u * product_over (rel_scale k) anomalies
  | None =>
      UncertaintyModeler.calculate fused_data raw_sensor_data anomalies !! k = None
  end.
Proof.
  cbv zeta. unfold UncertaintyModeler.calculate. cbv zeta.
  destruct anomalies as [|a anomalies].
  - destruct (UncertaintyModeler.base_uncertainties _ _ !! k) as [u|];
      [|reflexivity].
    exists u. unfold product_over. simpl. repeat split; ring.
  - unfold UncertaintyModeler._adjust_for_anomalies.
    apply adjust_fold_entry.
Qed.

Lemma base_uncertainties_keys (fused_data : FusedData.t)
    (raw_sensor_data : gmap string pyval) (k : string) :
  match UncertaintyModeler.base_uncertainties fused_data raw_sensor_data !! k with
  | Some u => In k tracked_parameters /\ Uncertainty.parameter u = k
  | None => ~ In k tracked_parameters
  end.
Proof.
  rewrite base_uncertainties_inserts. unfold tracked_parameters.
  repeat (rewrite lookup_insert; destruct (decide (_ = k)) as [<-|?];
          [split; [simpl; tauto|]|]);
    try reflexivity.
  - unfold UncertaintyModeler._calculate_target_uncertainty.
    destruct (FusedData.targets fused_data); reflexivity.
  - unfold UncertaintyModeler._calculate_heading_uncertainty.
    destruct (present raw_sensor_data "ais") as [v|];
      [destruct (has_key (fields v) "heading")|]; reflexivity.
  - rewrite lookup_empty. simpl. intuition congruence.
Qed.

(** X24. Whatever the anomalies, [calculate] reports exactly the eight
    tracked parameters (position, speed, course, heading, targets, wind,
    current, tide), each under its own name, and the adjustment leaves every
    mean value and confidence interval as computed. *)
Theorem calculate_parameters (fused_data : FusedData.t)
    (raw_sensor_data : gmap string pyval) (anomalies : list Anomaly.t)
    (k : string) :
  (is_Some (UncertaintyModeler.calculate fused_data raw_sensor_data anomalies !! k)
   <-> In k tracked_parameters)
  /\ (forall u',
        UncertaintyModeler.calculate fused_data raw_sensor_data anomalies !! k
        = Some u' ->
        Uncertainty.parameter u' = k
        /\ exists u,
             UncertaintyModeler.base_uncertainties fused_data raw_sensor_data !! k
             = Some u
             /\ Uncertainty.mean_value u' = Uncertainty.mean_value u
             /\ Uncertainty.confidence_interval u'
                = Uncertainty.confidence_interval u).
Proof.
  pose proof (calculate_entry fused_data raw_sensor_data anomalies k) as Hc.
  pose proof (base_uncertainties_keys fused_data raw_sensor_data k) as Hb.
  cbv zeta in Hc.
  destruct (UncertaintyModeler.base_uncertainties _ _ !! k) as [u|].
  - destruct Hc as (u' & Hu' & Hp & Hm & Hci & _). destruct Hb as [Hin Hpar].
    rewrite Hu'. split.
    + split; [intros _; exact Hin | intros _; eexists; reflexivity].
    + intros u0 H0. injection H0 as <-. split; [congruence|].
      exists u. repeat split; assumption.
  - rewrite Hc. split.
    + split; [intros [? H]; discriminate | intros Hin; contradiction].
    + intros u0 H0. discriminate.
Qed.

Lemma calculate_parameters_witness :
  Uncertainty.parameter
    (default (Uncertainty.mk "" 0 0 (0, 0) 0)
       (UncertaintyModeler.calculate (blank_fused_data 0 0) ∅ [] !! "tide"))
  = "tide".
Proof.
  destruct (calculate_parameters (blank_fused_data 0 0) ∅ [] "tide")
    as [[_ Hsome] Hentry].
  destruct Hsome as [u Hu]; [unfold tracked_parameters; simpl; tauto|].
  rewrite Hu. simpl. apply (Hentry u Hu).
Defined.

Lemma speed_in_anomaly_value (t : AnomalyType) :
  py_contains "speed" (AnomalyType_value t)
  = bool_decide (t = SPEED_ANOMALY).
Proof. destruct t; reflexivity. Qed.

Lemma std_scale_product (impact_factor : R) (k : string)
    (anomalies : list Anomaly.t) :
  (k <> "speed" -> product_over (std_scale impact_factor k) anomalies = 1)
  /\ (k = "speed" ->
      product_over (std_scale impact_factor k) anomalies
      = impact_factor
        ^ length (filter (fun a => Anomaly.anomaly_type a = SPEED_ANOMALY)
                         anomalies)).
Proof.
  unfold product_over, std_scale. split; intros Hk.
  - induction anomalies as [|a l IH]; cbn [foldr]; [reflexivity|].
    rewrite IH. case_decide; [contradiction | ring].
  - induction anomalies as [|a l IH]; cbn [foldr]; [reflexivity|].
    rewrite IH, filter_cons, speed_in_anomaly_value.
    case_decide; [|contradiction].
    case_bool_decide; case_decide; try contradiction; simpl; ring.
Qed.

(** X25. The anomaly adjustment inflates the standard deviation of the speed
    only: once by [1 + max severity] for each speed anomaly of the batch.  The
    standard deviation of every other parameter is the one computed from the
    sensors. *)
Theorem adjustment_inflates_speed_only (fused_data : FusedData.t)
    (raw_sensor_data : gmap string pyval) (anomalies : list Anomaly.t)
    (k : string) (u' : Uncertainty.t) :
  UncertaintyModeler.calculate fused_data raw_sensor_data anomalies !! k
  = Some u' ->
  exists u,
    UncertaintyModeler.base_uncertainties fused_data raw_sensor_data !! k = Some u
    /\ (k <> "speed" ->
        Uncertainty.std_deviation u' = Uncertainty.std_deviation u)
    /\ (k = "speed" ->
        Uncertainty.std_deviation u'
        = Uncertainty.std_deviation u
          * (1 + py_max (map Anomaly.severity anomalies))
            ^ length (filter (fun a => Anomaly.anomaly_type a = SPEED_ANOMALY)
                             anomalies)).
Proof.
  intros Hu'.
  pose proof (calculate_entry fused_data raw_sensor_data anomalies k) as Hc.
  cbv zeta in Hc.
  destruct (UncertaintyModeler.base_uncertainties _ _ !! k) as [u|];
    [|congruence].
  destruct Hc as (u1 & H1 & _ & _ & _ & Hstd & _).
  rewrite H1 in Hu'. injection Hu' as <-.
  exists u. split; [reflexivity|].
  destruct (std_scale_product (1 + py_max (map Anomaly.severity anomalies))
              k anomalies) as [Hother Hspeed].
  split; intros Hk.
  - rewrite Hstd, (Hother Hk). ring.
  - rewrite Hstd, (Hspeed Hk). reflexivity.
Qed.

Lemma adjusted_speed_entry_exists :
  exists u',
    UncertaintyModeler.calculate (blank_fused_data 0 0) ∅
      [Anomaly.mk "speed_anom_" SPEED_ANOMALY 0.5 ["gps"; "engine"] 0 None]
      !! "speed" = Some u'.
Proof.
  pose proof (calculate_entry (blank_fused_data 0 0) ∅
                [Anomaly.mk "speed_anom_" SPEED_ANOMALY 0.5 ["gps"; "engine"] 0 None]
                "speed") as Hc.
  cbv zeta in Hc.
  pose proof (base_uncertainties_keys (blank_fused_data 0 0) ∅ "speed") as Hb.
  destruct (UncertaintyModeler.base_uncertainties _ _ !! "speed") as [u|].
  - destruct Hc as (u' & Hu' & _). exists u'. exact Hu'.
  - exfalso. apply Hb. unfold tracked_parameters. simpl. tauto.
Defined.

Lemma adjustment_inflates_speed_only_witness :
  let anomalies :=
    [Anomaly.mk "speed_anom_" SPEED_ANOMALY 0.5 ["gps"; "engine"] 0 None] in
  exists u' u,
    UncertaintyModeler.calculate (blank_fused_data 0 0) ∅ anomalies !! "speed"
    = Some u'
    /\ UncertaintyModeler.base_uncertainties (blank_fused_data 0 0) ∅ !! "speed"
       = Some u
    /\ Uncertainty.std_deviation u'
       = Uncertainty.std_deviation u
         * (1 + py_max (map Anomaly.severity anomalies))
           ^ length (filter (fun a => Anomaly.anomaly_type a = SPEED_ANOMALY)
                            anomalies).
Proof.
  cbv zeta.
  destruct (adjusted_speed_entry_exists) as (u' & Hu').
  destruct (adjustment_inflates_speed_only _ _ _ _ _ Hu') as (u & Hu & _ & Hs).
  exists u', u. split; [exact Hu'|]. split; [exact Hu|]. apply Hs. reflexivity.
Defined.

Lemma rel_scale_range (k : string) (a : Anomaly.t) :
  0 <= Anomaly.severity a <= 1 -> 0 < rel_scale k a <= 1.
Proof.
  intros Hs. unfold rel_scale.
  destruct (py_contains "sensor" _); case_decide;
    try destruct (py_contains "speed" _); nra.
Qed.

Lemma rel_scale_product_range (k : string) (anomalies : list Anomaly.t) :
  Forall (fun a => 0 <= Anomaly.severity a <= 1) anomalies ->
  0 < product_over (rel_scale k) anomalies <= 1.
Proof.
  unfold product_over.
  induction 1 as [|a l Ha _ IH]; cbn [foldr]; [lra|].
  pose proof (rel_scale_range k a Ha). nra.
Qed.

Lemma base_reliabilities_range (fused_data : FusedData.t)
    (raw_sensor_data : gmap string pyval) :
  map_Forall (fun _ u => 0 <= Uncertainty.reliability u <= 1)
             (UncertaintyModeler.base_uncertainties fused_data raw_sensor_data).
Proof.
  rewrite base_uncertainties_inserts.
  repeat (apply map_Forall_insert_2; [|]); try apply map_Forall_empty;
    cbv beta; try (simpl; lra).
  - unfold UncertaintyModeler._calculate_target_uncertainty.
    destruct (FusedData.targets fused_data); simpl; lra.
  - unfold UncertaintyModeler._calculate_heading_uncertainty.
    destruct (present raw_sensor_data "ais") as [v|];
      [destruct (has_key (fields v) "heading")|]; simpl; lra.
  - unfold UncertaintyModeler._calculate_course_uncertainty,
      UncertaintyModeler.count_reliability. cbv zeta.
    destruct (UncertaintyModeler.parameter_measurements _ _) as [|? [|? ?]];
      simpl; lra.
  - unfold UncertaintyModeler._calculate_speed_uncertainty,
      UncertaintyModeler.count_reliability. cbv zeta.
    destruct (UncertaintyModeler.parameter_measurements _ _) as [|? [|? ?]];
      simpl; lra.
  - unfold UncertaintyModeler._calculate_position_uncertainty. cbv zeta.
    cbn [Uncertainty.reliability].
    assert (0 <= Rmin 1 (INR (length
              (UncertaintyModeler.position_measurements raw_sensor_data)) / 3) <= 1).
    { split; [|apply Rmin_l]. apply Rmin_glb; [lra|].
      apply Rmult_le_pos; [apply pos_INR | lra]. }
    lra.
Qed.

(** X26. Every reliability that [calculate] reports lies in [0, 1], and, for
    anomalies with severities in [0, 1], the adjustment never raises one: the
    reported reliability is at most the one computed from the sensors (0.9
    at most for the position). *)
Theorem reliabilities_stay_in_range (fused_data : FusedData.t)
    (raw_sensor_data : gmap string pyval) (anomalies : list Anomaly.t)
    (k : string) (u' : Uncertainty.t) :
  Forall (fun a => 0 <= Anomaly.severity a <= 1) anomalies ->
  UncertaintyModeler.calculate fused_data raw_sensor_data anomalies !! k
  = Some u' ->
  exists u,
    UncertaintyModeler.base_uncertainties fused_data raw_sensor_data !! k = Some u
    /\ 0 <= Uncertainty.reliability u' <= Uncertainty.reliability u
    /\ Uncertainty.reliability u <= 1
    /\ (k = "position" -> Uncertainty.reliability u <= 0.9).
Proof.
  intros Hsev Hu'.
  pose proof (calculate_entry fused_data raw_sensor_data anomalies k) as Hc.
  pose proof (base_reliabilities_range fused_data raw_sensor_data k) as Hb.
  pose proof (base_uncertainties_position fused_data raw_sensor_data) as Hpos.
  cbv zeta in Hc.
  destruct (UncertaintyModeler.base_uncertainties _ _ !! k) as [u|] eqn:Hu;
    [|congruence].
  destruct Hc as (u1 & H1 & _ & _ & _ & _ & Hrel).
  rewrite H1 in Hu'. injection Hu' as <-.
  specialize (Hb u eq_refl). cbv beta in Hb.
  pose proof (rel_scale_product_range k anomalies Hsev) as Hp.
  exists u. split; [reflexivity|]. rewrite Hrel.
  split; [nra|]. split; [lra|].
  intros ->. rewrite Hpos in Hu. injection Hu as <-.
  unfold UncertaintyModeler._calculate_position_uncertainty. cbv zeta.
  cbn [Uncertainty.reliability].
  pose proof (Rmin_l 1 (INR (length
      (UncertaintyModeler.position_measurements raw_sensor_data)) / 3)). lra.
Qed.

Lemma reliabilities_stay_in_range_witness :
  exists u' u,
    UncertaintyModeler.calculate (blank_fused_data 0 0) ∅
      [Anomaly.mk "speed_anom_" SPEED_ANOMALY 0.5 ["gps"; "engine"] 0 None]
      !! "speed" = Some u'
    /\ UncertaintyModeler.base_uncertainties (blank_fused_data 0 0) ∅ !! "speed"
       = Some u
    /\ 0 <= Uncertainty.reliability u' <= Uncertainty.reliability u.
Proof.
  destruct adjusted_speed_entry_exists as (u' & Hu').
  assert (Hsev : Forall (fun a => 0 <= Anomaly.severity a <= 1)
            [Anomaly.mk "speed_anom_" SPEED_ANOMALY 0.5 ["gps"; "engine"] 0 None])
    by (constructor; [simpl; lra | constructor]).
  destruct (reliabilities_stay_in_range _ _ _ _ _ Hsev Hu')
    as (u & Hu & Hrange & _).
  exists u', u. split; [exact Hu'|]. split; [exact Hu | exact Hrange].
Defined.

(** ** Pooling reduces the deviation *)

Lemma inverse_variance_sum_app (l1 l2 : list R) :
  inverse_variance_sum (l1 ++ l2)
  = inverse_variance_sum l1 + inverse_variance_sum l2.
Proof.
  unfold inverse_variance_sum.
  induction l1 as [|x l1 IH]; cbn [app foldr]; [lra | rewrite IH; lra].
Qed.

Lemma inverse_variance_sum_pos (l : list R) :
  Forall (fun s => 0 < s) l ->
  0 <= inverse_variance_sum l /\ (l <> [] -> 0 < inverse_variance_sum l).
Proof.
  unfold inverse_variance_sum.
  induction 1 as [|x l Hx _ [IH0 _]]; cbn [foldr].
  - split; [lra | congruence].
  - assert (0 < 1 / x ^ 2).
    { apply Rdiv_lt_0_compat; [lra|]. apply pow_lt, Hx. }
    split; [lra | intros _; lra].
Qed.

(** X27. Pooling two or more sensors of positive deviation gives a positive
    deviation strictly below that of each pooled sensor; hence the reported
    position deviation is at most the 5 m of the GPS whenever the GPS reports
    data, and at most 100 m in any case. *)
Theorem pooling_reduces_deviation :
  (forall (dflt : R) (sigmas : list R) (sigma : R),
     (2 <= length sigmas)%nat ->
     Forall (fun s => 0 < s) sigmas ->
     In sigma sigmas ->
     0 < UncertaintyModeler.combined_std_dev dflt sigmas < sigma)
  /\ (forall (fused_data : FusedData.t) (raw_sensor_data : gmap string pyval),
        0 < Uncertainty.std_deviation
              (UncertaintyModeler._calculate_position_uncertainty
                 fused_data raw_sensor_data) <= 100
        /\ (is_Some (present raw_sensor_data "gps") ->
            Uncertainty.std_deviation
              (UncertaintyModeler._calculate_position_uncertainty
                 fused_data raw_sensor_data) <= 5)).
Proof.
  assert (Hpool : forall (dflt : R) (sigmas : list R) (sigma : R),
     (2 <= length sigmas)%nat ->
     Forall (fun s => 0 < s) sigmas ->
     In sigma sigmas ->
     0 < UncertaintyModeler.combined_std_dev dflt sigmas < sigma).
  { intros dflt sigmas sigma Hlen Hpos Hin.
    destruct sigmas as [|s1 [|s2 rest]]; simpl in Hlen; try lia.
    rewrite combined_std_dev_many.
    set (l := s1 :: s2 :: rest) in *.
    assert (Hsigma : 0 < sigma).
    { rewrite List.Forall_forall in Hpos. apply Hpos, Hin. }
    apply in_split in Hin as (l1 & l2 & Hl).
    assert (Hsum : inverse_variance_sum l
                   = 1 / sigma ^ 2 + inverse_variance_sum (l1 ++ l2)).
    { rewrite Hl, !inverse_variance_sum_app.
      unfold inverse_variance_sum at 2. cbn [foldr].
      fold (inverse_variance_sum l2). lra. }
    assert (Hothers : 0 < inverse_variance_sum (l1 ++ l2)).
    { apply inverse_variance_sum_pos.
      - rewrite Hl in Hpos. apply Forall_app in Hpos as [H1 H2].
        apply Forall_app_2; [exact H1|]. inversion H2; assumption.
      - intros Hnil. apply (f_equal (@length _)) in Hl, Hnil.
        rewrite length_app in Hl, Hnil. simpl in Hl, Hnil. subst l.
        simpl in Hl. lia. }
    assert (Hinv : 0 < 1 / sigma ^ 2).
    { apply Rdiv_lt_0_compat; [lra|]. apply pow_lt, Hsigma. }
    assert (Htotal : 0 < inverse_variance_sum l) by lra.
    assert (Hq : 0 < 1 / inverse_variance_sum l)
      by (apply Rdiv_lt_0_compat; lra).
    split; [apply sqrt_lt_R0, Hq|].
    apply Rlt_le_trans with (sqrt (sigma ^ 2));
      [|rewrite sqrt_pow2 by lra; lra].
    apply sqrt_lt_1_alt. split; [lra|].
    assert (Hs2 : 0 < sigma ^ 2) by (apply pow_lt, Hsigma).
    apply (Rmult_lt_reg_r (inverse_variance_sum l)); [exact Htotal|].
    unfold Rdiv at 1. rewrite Rmult_assoc, Rinv_l by lra.
    rewrite Hsum.
    assert (sigma ^ 2 * (1 / sigma ^ 2) = 1) by (field; lra).
    nra. }
  split; [exact Hpool|].
  intros fused_data raw_sensor_data.
  unfold UncertaintyModeler._calculate_position_uncertainty. cbv zeta.
  cbn [Uncertainty.std_deviation].
  unfold UncertaintyModeler.position_measurements. cbn [flat_map].
  rewrite app_nil_r.
  assert (H5 : UncertaintyModeler.sensor_uncertainties "gps" "position" = 5)
    by reflexivity.
  assert (H10 : UncertaintyModeler.sensor_uncertainties "ais" "position" = 10)
    by reflexivity.
  assert (H50 : UncertaintyModeler.sensor_uncertainties "radar" "position" = 50)
    by reflexivity.
  rewrite H5, H10, H50.
  destruct (present raw_sensor_data "gps"), (present raw_sensor_data "ais"),
    (present raw_sensor_data "radar"); cbn [app map snd];
    (split; [|intros [? Hs]; try discriminate]);
    try (cbn [UncertaintyModeler.combined_std_dev]; lra);
    match goal with
    | |- context [UncertaintyModeler.combined_std_dev 100 ?l] =>
        try (pose proof (Hpool 100 l 5 ltac:(simpl; lia)
                           ltac:(repeat (constructor; [lra|]); constructor)
                           ltac:(simpl; tauto)));
        try (pose proof (Hpool 100 l 10 ltac:(simpl; lia)
                           ltac:(repeat (constructor; [lra|]); constructor)
                           ltac:(simpl; tauto)));
        lra
    end.
Qed.

Lemma pooling_reduces_deviation_witness :
  0 < UncertaintyModeler.combined_std_dev 100 [5; 10] < 5.
Proof.
  destruct pooling_reduces_deviation as [Hpool _].
  apply Hpool.
  - simpl. lia.
  - constructor; [lra|]. constructor; [lra | constructor].
  - simpl. tauto.
Defined.

(** ** Radar-to-AIS correlation *)

(** X28. A radar target correlates only with an AIS entry of the table that
    has a position less than 500 m away, and it is the first such entry; a
    radar target without latitude or longitude correlates with none. *)
Theorem correlate_target_sound (radar_target : gmap string pyval)
    (existing_targets : list (pykey * SensorFusionEngine.target_info)) :
  (forall target_id : pykey,
     SensorFusionEngine._correlate_target radar_target existing_targets
     = Some target_id ->
     exists target_info,
       In (target_id, target_info) existing_targets
       /\ SensorFusionEngine.source target_info = "ais"
       /\ is_none (py_get (SensorFusionEngine.data target_info) "latitude") = false
       /\ is_none (py_get (SensorFusionEngine.data target_info) "longitude") = false
       /\ _haversine_distance
            (float_of (py_get radar_target "latitude"))
            (float_of (py_get radar_target "longitude"))
            (float_of (py_get (SensorFusionEngine.data target_info) "latitude"))
            (float_of (py_get (SensorFusionEngine.data target_info) "longitude"))
          < 500)
  /\ (is_none (py_get radar_target "latitude") = true
      \/ is_none (py_get radar_target "longitude") = true ->
      SensorFusionEngine._correlate_target radar_target existing_targets = None).
Proof.
  unfold SensorFusionEngine._correlate_target. cbv zeta. split.
  - intros target_id H.
    destruct (is_none (py_get radar_target "latitude")
              || is_none (py_get radar_target "longitude")); [discriminate|].
    destruct (List.find _ existing_targets) as [[k info]|] eqn:Hfind;
      [|discriminate].
    simpl in H. injection H as <-.
    apply find_some in Hfind as [Hin Hcond].
    exists info. split; [exact Hin|].
    apply andb_prop in Hcond as [Hsrc Hrest].
    apply andb_prop in Hrest as [Hnone Hdist].
    apply andb_prop in Hnone as [Hlat Hlon].
    apply bool_decide_eq_true in Hsrc, Hdist.
    apply negb_true_iff in Hlat, Hlon.
    repeat split; assumption.
  - intros [H | H]; rewrite H; [reflexivity|].
    rewrite orb_true_r. reflexivity.
Qed.

Lemma correlate_target_sound_witness :
  SensorFusionEngine._correlate_target ∅ [] = None.
Proof.
  destruct (correlate_target_sound ∅ []) as [_ Hnone].
  apply Hnone. left. reflexivity.
Defined.

(** ** Trajectory check on a vessel that has not moved *)

Lemma rev_append_capped_last {A} (cap : nat) (l : list A) (p x : A) :
  (2 <= cap)%nat -> last l = Some p ->
  exists rest, rev (append_capped cap l x) = x :: p :: rest.
Proof.
  intros Hcap Hlast. apply last_Some in Hlast as [l0 ->].
  unfold append_capped. cbv zeta. case_decide as Hc.
  - destruct l0 as [|a l0].
    + simpl in Hc. lia.
    + exists (rev l0). simpl. rewrite <- !app_assoc. simpl.
      rewrite rev_app_distr. reflexivity.
  - exists (rev l0). rewrite <- app_assoc. simpl.
    rewrite rev_app_distr. reflexivity.
Qed.

(** X29. The trajectory check compares the fused position with the position
    extrapolated from the last two samples, the newest of which is that same
    fused position; so a fused position equal to the previous sample raises
    no trajectory deviation. *)
Theorem stationary_vessel_no_deviation (self : AnomalyDetector.t)
    (vessel_state : VesselState.t) (now t : R) :
  last (AnomalyDetector.position_history self)
  = Some (Position.latitude (VesselState.position vessel_state),
          Position.longitude (VesselState.position vessel_state), t) ->
  AnomalyDetector._detect_trajectory_deviation
    (AnomalyDetector._update_history self vessel_state now) vessel_state now
  = [].
Proof.
  intros Hlast.
  unfold AnomalyDetector._detect_trajectory_deviation,
    AnomalyDetector._predict_position, AnomalyDetector._update_history,
    AnomalyDetector.max_history.
  cbn [AnomalyDetector.position_history].
  case_decide; [reflexivity|].
  destruct (rev_append_capped_last 30 _ _
              (Position.latitude (VesselState.position vessel_state),
               Position.longitude (VesselState.position vessel_state), now)
              ltac:(lia) Hlast) as [rest ->].
  set (lat := Position.latitude (VesselState.position vessel_state)).
  set (lon := Position.longitude (VesselState.position vessel_state)).
  destruct (decide (now - t = 0)).
  - rewrite haversine_self. case_decide; [lra | reflexivity].
  - replace (lat + (lat - lat) / (now - t) * 30) with lat by (field; assumption).
    replace (lon + (lon - lon) / (now - t) * 30) with lon by (field; assumption).
    rewrite haversine_self. case_decide; [lra | reflexivity].
Qed.

Lemma stationary_vessel_no_deviation_witness :
  AnomalyDetector._detect_trajectory_deviation
    (AnomalyDetector._update_history
       (AnomalyDetector.mk [0] [0] [(0, 0, 0)])
       (FusedData.vessel_state (blank_fused_data 0 5)) 5)
    (FusedData.vessel_state (blank_fused_data 0 5)) 5
  = [].
Proof.
  apply (stationary_vessel_no_deviation _ _ 5 0). reflexivity.
Defined.

(** ** Spoofing flag of the output *)

(** X30. The output of a batch flags spoofing exactly when its ranked alert
    list holds an alert raised by the spoofing detector. *)
Theorem has_spoofing_iff_alert (fromisoformat : string -> option R)
    (self : SituationAwarenessLayer.t) (sensor_data : gmap string pyval)
    (now finished : R) :
  let out :=
    fst (SituationAwarenessLayer.process_sensor_data
           fromisoformat self sensor_data now finished) in
  SituationAwarenessOutput.has_spoofing out = true
  <-> Exists (fun a => Alert.source a = "spoofing_detector")
             (SituationAwarenessOutput.alerts out).
Proof.
  cbv zeta.
  pose proof (process_output_fields fromisoformat self sensor_data now finished)
    as H.
  destruct (SituationAwarenessLayer.process_sensor_data _ _ _ _ _) as [out self'].
  cbv zeta in H. destruct H as (_ & _ & _ & _ & _ & Halerts & _).
  cbn [fst]. rewrite Halerts.
  unfold SituationAwarenessOutput.has_spoofing,
    SituationAwarenessLayer._generate_alerts. cbv zeta.
  rewrite bool_decide_eq_true.
  set (key := fun a => SituationAwarenessLayer.level_priority (Alert.level a)).
  set (inserted := SituationAwarenessLayer.collected_alerts _ _ _ _).
  pose proof (py_sort_reverse_perm key inserted) as Hperm.
  rewrite List.Exists_exists. split.
  - intros Hlen.
    destruct (SituationAwarenessOutput.spoofing_alerts out) as [|s l] eqn:Hs;
      [simpl in Hlen; lia|].
    exists (SituationAwarenessLayer.spoofing_to_alert s). split; [|reflexivity].
    apply (Permutation_in _ (Permutation_sym Hperm)).
    subst inserted. unfold SituationAwarenessLayer.collected_alerts.
    rewrite ?Hs. left. reflexivity.
  - intros (a & Hin & Hsrc).
    apply (Permutation_in _ Hperm) in Hin.
    subst inserted. unfold SituationAwarenessLayer.collected_alerts in Hin.
    apply in_app_or in Hin as [Hin | Hin].
    + destruct (SituationAwarenessOutput.spoofing_alerts out);
        [destruct Hin | simpl; lia].
    + exfalso. apply in_app_or in Hin as [Hin | Hin].
      * apply in_map_iff in Hin as (a0 & <- & _). discriminate.
      * case_decide; [|destruct Hin].
        destruct Hin as [<- | []]. discriminate.
Qed.

Lemma has_spoofing_iff_alert_witness :
  let out :=
    fst (SituationAwarenessLayer.process_sensor_data
           (fun _ => None) SituationAwarenessLayer.init ∅ 0 0) in
  SituationAwarenessOutput.has_spoofing out = true
  <-> Exists (fun a => Alert.source a = "spoofing_detector")
             (SituationAwarenessOutput.alerts out).
Proof.
  apply (has_spoofing_iff_alert (fun _ => None) SituationAwarenessLayer.init ∅ 0 0).
Defined.
